(** * Technical Referee: scoring, weighting, ranking and trade-off analysis

    A shallow embedding of the TypeScript sources
    [components/KnowledgeBase.ts], [components/ComparisonEngine.ts], the
    confidence estimator, the key differences and the alternative
    scenarios of [components/OutputGenerator.ts], the validation of
    [components/ConstraintCollector.ts] and the merge of
    [components/ConstraintUpdateManager.ts].

    Conventions of the embedding
    - a JavaScript [number] is an exact rational ([Q]); rounding of IEEE
      doubles is not modelled.  The confidence estimator, which calls
      [Math.sqrt], is embedded over the reals ([R]).
    - a [Record<string, number>] is an association list holding the own
      keys in insertion order, which is the order [Object.entries] visits.
    - [option.metadata] is a record of optional fields ([None] is
      [undefined]); a field holds a value of its declared type.  The
      module [Untyped] embeds the validation, [processOption], the backend
      framework table and the scoring of one option on free-form values,
      as [Record<string, any>] admits them; a score is then a rational or
      NaN.
    - objects are values, except in [ComparisonEngineHeap], where the
      [OptionScore] objects and their score maps live in a store.

    The statements C1 to C10 proved in the second part are the properties
    that the specification of the system states about these sources; the
    statements X2 and X4 to X29 are further properties read off the
    sources. *)

From Stdlib Require Import List String Ascii Bool Arith ZArith QArith Qminmax Qround Qabs.
From Stdlib Require Import DecimalString.
From Stdlib Require Import Lia Lra Lqa Psatz Permutation Sorted.
From Stdlib Require Import Reals Qreals.
Import ListNotations.

Open Scope string_scope.
Open Scope Q_scope.

(** ** JavaScript primitives used by the sources *)

Module JS.

(** [a < b] on numbers. *)
Definition ltb (a b : Q) : bool := negb (Qle_bool b a).
Definition leb (a b : Q) : bool := Qle_bool a b.

(** Truthiness of a possibly undefined number: [undefined] and [0] are falsy. *)
Definition truthy (x : option Q) : bool :=
  match x with
  | Some v => negb (Qeq_bool v 0)
  | None => false
  end.

(** [x && p(x)] for a possibly undefined number [x]. *)
Definition andNum (x : option Q) (p : Q -> bool) : bool :=
  match x with
  | Some v => negb (Qeq_bool v 0) && p v
  | None => false
  end.

(** [p(x)] where a comparison with [undefined] is false. *)
Definition cmpNum (x : option Q) (p : Q -> bool) : bool :=
  match x with
  | Some v => p v
  | None => false
  end.

(** [x === lit] for a possibly undefined string [x]. *)
Definition strIs (x : option string) (lit : string) : bool :=
  match x with
  | Some s => String.eqb s lit
  | None => false
  end.

(** [Math.min(100, Math.max(0, x))]. *)
Definition clamp (x : Q) : Q := Qmin 100 (Qmax 0 x).

(** [Math.round]: the nearest integer, halves rounded up. *)
Definition round (x : Q) : Z := Qfloor (x + (1 # 2)).

(** [String.prototype.toLowerCase], on the ASCII letters. *)
Definition lower_ascii (c : ascii) : ascii :=
  let n := nat_of_ascii c in
  if (65 <=? n)%nat && (n <=? 90)%nat then ascii_of_nat (n + 32) else c.

Fixpoint toLowerCase (s : string) : string :=
  match s with
  | EmptyString => EmptyString
  | String c r => String (lower_ascii c) (toLowerCase r)
  end.

(** [s.includes(sub)]. *)
Fixpoint includes (s sub : string) : bool :=
  String.prefix sub s ||
  match s with
  | EmptyString => false
  | String _ r => includes r sub
  end.

(** The ASCII white space characters removed by [trim]. *)
Definition is_space (c : ascii) : bool :=
  let n := nat_of_ascii c in
  ((9 <=? n)%nat && (n <=? 13)%nat) || (n =? 32)%nat.

(** [s.trim().length === 0]. *)
Fixpoint trim_is_empty (s : string) : bool :=
  match s with
  | EmptyString => true
  | String c r => is_space c && trim_is_empty r
  end.

(** [arr.includes(x)] on an array of strings. *)
Definition arrIncludes (arr : list string) (x : string) : bool :=
  existsb (String.eqb x) arr.

(** [arr.join(sep)]. *)
Fixpoint join (sep : string) (arr : list string) : string :=
  match arr with
  | [] => ""
  | [x] => x
  | x :: rest => x ++ sep ++ join sep rest
  end.

End JS.

(** ** Objects used as maps: [Record<string, V>] *)

Module Obj.

Section WithValue.
Context {V : Type}.

Definition t := list (string * V).

(** [o[k]], [None] standing for [undefined]. *)
Fixpoint get (o : list (string * V)) (k : string) : option V :=
  match o with
  | [] => None
  | (k', v) :: rest => if String.eqb k k' then Some v else get rest k
  end.

(** [o[k] = v]: an existing key keeps its place, a new one goes last. *)
Fixpoint set (o : list (string * V)) (k : string) (v : V) : list (string * V) :=
  match o with
  | [] => [(k, v)]
  | (k', v') :: rest =>
      if String.eqb k k' then (k', v) :: rest else (k', v') :: set rest k v
  end.

Definition keys (o : list (string * V)) : list string := map fst o.
Definition values (o : list (string * V)) : list V := map snd o.
End WithValue.

End Obj.

(** ** Core types ([types/core.ts], [types/knowledge.ts]) *)

(** The fields read by the scoring functions out of [option.metadata]
    ([CloudProviderData], [BackendFrameworkData] and [DatabaseData]). *)
Record Metadata := {
  pricingModel : option string;
  serviceCount : option Q;
  enterpriseFeatures : option (list string);
  learningCurve : option string;
  marketShare : option Q;
  regions : option Q;
  certifications : option (list string);
  language : option string;
  developmentSpeed : option Q;
  communitySize : option Q;
  enterpriseAdoption : option Q;
  performanceRating : option Q;
  packageEcosystem : option Q;
  type : option string;
  schemaFlexibility : option string;
  queryComplexity : option string;
  horizontalScaling : option string;
  consistencyModel : option string;
  acidCompliance : option bool
}.

(** The empty object [{}]. *)
Definition emptyMetadata : Metadata :=
  {| pricingModel := None; serviceCount := None; enterpriseFeatures := None;
     learningCurve := None; marketShare := None; regions := None;
     certifications := None; language := None; developmentSpeed := None;
     communitySize := None; enterpriseAdoption := None;
     performanceRating := None; packageEcosystem := None; type := None;
     schemaFlexibility := None; queryComplexity := None;
     horizontalScaling := None; consistencyModel := None;
     acidCompliance := None |}.

Record TechnicalOption := {
  name : string;
  category : string;
  metadata : option Metadata
}.

Inductive Budget := BudgetLow | BudgetMedium | BudgetHigh.
Inductive Traffic := TrafficLow | TrafficMedium | TrafficHigh.
Inductive SkillLevel := Junior | Mixed | Senior.
Inductive Timeline := Immediate | Short | MediumTerm | Long.

Record Scale := { users : Q; traffic : Traffic }.
Record Team := { skillLevel : SkillLevel; experience : list string }.

(** [UserConstraints['priorities']], also the type of the normalized and
    of the emphasized weights. *)
Record Priorities := {
  cost : Q;
  performance : Q;
  easeOfUse : Q;
  scalability : Q;
  vendorLockIn : Q
}.

Record UserConstraints := {
  budget : Budget;
  scale : Scale;
  team : Team;
  timeline : Timeline;
  priorities : Priorities
}.

Module STANDARD_CRITERIA.
Definition COST := "cost".
Definition PERFORMANCE := "performance".
Definition SCALABILITY := "scalability".
Definition LEARNING_CURVE := "learningCurve".
Definition VENDOR_LOCK_IN := "vendorLockIn".
Definition MAINTAINABILITY := "maintainability".
End STANDARD_CRITERIA.
Import STANDARD_CRITERIA.

Record EvaluationCriteria := {
  crit_name : string;
  weight : Q;
  scoringFunction : TechnicalOption -> Q
}.

Record ScoringRule := {
  rule_name : string;
  condition : TechnicalOption -> bool;
  scoreAdjustment : Q;
  affectedCriteria : list string
}.

Record DomainKnowledge := {
  dk_category : string;
  criteria : list EvaluationCriteria;
  scoringRules : list ScoringRule
}.

(** ** [components/KnowledgeBase.ts] *)

Module KnowledgeBase.
Import JS.

(** [if (cond) score += delta;] chains are written as sums of [bonus]es. *)
Definition bonus (b : bool) (delta : Q) : Q := if b then delta else 0.

(** [if (!data) return 50;] followed by the body of a scoring function. *)
Definition withData (option : TechnicalOption) (body : Metadata -> Q) : Q :=
  match metadata option with
  | None => 50
  | Some data => body data
  end.

(** *** Cloud provider scoring functions *)

Definition scoreCloudCost (option : TechnicalOption) : Q :=
  withData option (fun data =>
    let score := 50 in
    let score := score +
      (if strIs (pricingModel data) "pay-as-you-go" then 15
       else if strIs (pricingModel data) "hybrid" then 10
       else if strIs (pricingModel data) "reserved" then 5 else 0) in
    let score := score +
      (if andNum (marketShare data) (ltb 30) then 10
       else if andNum (marketShare data) (ltb 15) then 5 else 0) in
    clamp score).

Definition scoreCloudPerformance (option : TechnicalOption) : Q :=
  withData option (fun data =>
    let score := 50 in
    let score := score +
      (if andNum (regions data) (ltb 20) then 20
       else if andNum (regions data) (ltb 10) then 15
       else if andNum (regions data) (ltb 5) then 10 else 0) in
    let score := score +
      (if andNum (marketShare data) (ltb 30) then 15
       else if andNum (marketShare data) (ltb 15) then 10 else 0) in
    clamp score).

Definition scoreCloudScalability (option : TechnicalOption) : Q :=
  withData option (fun data =>
    let score := 50 in
    let score := score +
      (if andNum (serviceCount data) (ltb 200) then 20
       else if andNum (serviceCount data) (ltb 100) then 15
       else if andNum (serviceCount data) (ltb 50) then 10 else 0) in
    let score := score +
      (if andNum (regions data) (ltb 15) then 15
       else if andNum (regions data) (ltb 8) then 10 else 0) in
    clamp score).

Definition scoreCloudLearningCurve (option : TechnicalOption) : Q :=
  withData option (fun data =>
    let score := 50 in
    let score := score +
      (if strIs (learningCurve data) "low" then 20
       else if strIs (learningCurve data) "medium" then 10 else 0) in
    let score := score +
      (if andNum (marketShare data) (ltb 30) then 15
       else if andNum (marketShare data) (ltb 15) then 10 else 0) in
    clamp score).

Definition scoreCloudVendorLockIn (option : TechnicalOption) : Q :=
  withData option (fun data =>
    let score := 50 in
    let score := score +
      (if andNum (serviceCount data) (fun v => ltb v 50) then 20
       else if andNum (serviceCount data) (fun v => ltb v 100) then 10 else 0) in
    let score := score +
      (if andNum (marketShare data) (fun v => ltb v 10) then 15
       else if andNum (marketShare data) (fun v => ltb v 25) then 10 else 0) in
    clamp score).

(** [arr || []] followed by [.length]. *)
Definition lengthOrEmpty (arr : option (list string)) : Q :=
  match arr with
  | Some l => inject_Z (Z.of_nat (List.length l))
  | None => 0
  end.

Definition scoreCloudMaintainability (option : TechnicalOption) : Q :=
  withData option (fun data =>
    let score := 50 in
    let score := score + Qmin 20 (lengthOrEmpty (enterpriseFeatures data) * 2) in
    let score := score + Qmin 15 (lengthOrEmpty (certifications data) * 3) in
    let score := score +
      (if andNum (marketShare data) (ltb 30) then 10
       else if andNum (marketShare data) (ltb 15) then 5 else 0) in
    clamp score).

(** *** Backend framework scoring functions *)

Definition scoreBackendCost (option : TechnicalOption) : Q :=
  withData option (fun data =>
    let score := 50 in
    let score := score + 15 in
    let score := score +
      (if strIs (language data) "javascript" || strIs (language data) "python" then 10
       else if strIs (language data) "java" || strIs (language data) "c#" then 5 else 0) in
    let score := score +
      (if andNum (developmentSpeed data) (leb 8) then 15
       else if andNum (developmentSpeed data) (leb 6) then 10 else 0) in
    clamp score).

Definition scoreBackendPerformance (option : TechnicalOption) : Q :=
  withData option (fun data =>
    let score := 30 in
    let score := score +
      match performanceRating data with
      | Some r => if truthy (Some r) then r * 7 else 0
      | None => 0
      end in
    clamp score).

Definition scoreBackendScalability (option : TechnicalOption) : Q :=
  withData option (fun data =>
    let score := 50 in
    let score := score +
      (if andNum (performanceRating data) (leb 8) then 20
       else if andNum (performanceRating data) (leb 6) then 15
       else if andNum (performanceRating data) (leb 4) then 10 else 0) in
    let score := score +
      (if andNum (enterpriseAdoption data) (leb 8) then 15
       else if andNum (enterpriseAdoption data) (leb 6) then 10 else 0) in
    clamp score).

Definition scoreBackendLearningCurve (option : TechnicalOption) : Q :=
  withData option (fun data =>
    let score := 30 in
    let score := score +
      match developmentSpeed data with
      | Some d => if truthy (Some d) then d * 5 else 0
      | None => 0
      end in
    let score := score +
      (if strIs (learningCurve data) "low" then 20
       else if strIs (learningCurve data) "medium" then 10 else 0) in
    clamp score).

Definition scoreBackendVendorLockIn (option : TechnicalOption) : Q :=
  withData option (fun data =>
    let score := 70 in
    let score := score +
      bonus (strIs (language data) "javascript" || strIs (language data) "python"
             || strIs (language data) "java") 15 in
    let score := score +
      (if andNum (packageEcosystem data) (ltb 100000) then 15
       else if andNum (packageEcosystem data) (ltb 50000) then 10 else 0) in
    clamp score).

Definition scoreBackendMaintainability (option : TechnicalOption) : Q :=
  withData option (fun data =>
    let score := 30 in
    let score := score +
      (if andNum (communitySize data) (ltb 100000) then 25
       else if andNum (communitySize data) (ltb 50000) then 20
       else if andNum (communitySize data) (ltb 10000) then 15 else 0) in
    let score := score +
      (if andNum (enterpriseAdoption data) (leb 8) then 20
       else if andNum (enterpriseAdoption data) (leb 6) then 15
       else if andNum (enterpriseAdoption data) (leb 4) then 10 else 0) in
    let score := score +
      (if andNum (packageEcosystem data) (ltb 100000) then 15
       else if andNum (packageEcosystem data) (ltb 50000) then 10 else 0) in
    clamp score).

(** *** Database scoring functions *)

Definition openSourceDatabases : list string :=
  ["postgresql"; "mysql"; "mongodb"; "redis"; "cassandra"].

Definition scoreDatabaseCost (option : TechnicalOption) : Q :=
  withData option (fun data =>
    let score := 50 in
    let score := score +
      bonus (arrIncludes openSourceDatabases (toLowerCase (name option))) 20 in
    let score := score +
      (if strIs (queryComplexity data) "simple" then 15
       else if strIs (queryComplexity data) "moderate" then 10 else 0) in
    clamp score).

Definition scoreDatabasePerformance (option : TechnicalOption) : Q :=
  withData option (fun data =>
    let score := 30 in
    let score := score +
      match performanceRating data with
      | Some r => if truthy (Some r) then r * 7 else 0
      | None => 0
      end in
    clamp score).

Definition scoreDatabaseScalability (option : TechnicalOption) : Q :=
  withData option (fun data =>
    let score := 50 in
    let score := score +
      (if strIs (horizontalScaling data) "excellent" then 25
       else if strIs (horizontalScaling data) "good" then 15
       else if strIs (horizontalScaling data) "poor" then - (10) else 0) in
    let score := score +
      (if strIs (schemaFlexibility data) "schemaless" then 15
       else if strIs (schemaFlexibility data) "flexible" then 10 else 0) in
    let score := score + bonus (negb (strIs (type data) "relational")) 10 in
    clamp score).

Definition scoreDatabaseLearningCurve (option : TechnicalOption) : Q :=
  withData option (fun data =>
    let score := 50 in
    let score := score +
      (if strIs (queryComplexity data) "simple" then 20
       else if strIs (queryComplexity data) "moderate" then 10 else 0) in
    let score := score + bonus (strIs (type data) "relational") 15 in
    let score := score + bonus (strIs (schemaFlexibility data) "rigid") 10 in
    clamp score).

Definition scoreDatabaseVendorLockIn (option : TechnicalOption) : Q :=
  withData option (fun data =>
    let score := 50 in
    let score := score + bonus (strIs (type data) "relational") 20 in
    let score := score +
      bonus (arrIncludes openSourceDatabases (toLowerCase (name option))) 25 in
    let score := score + bonus (strIs (type data) "relational") 10 in
    clamp score).

Definition scoreDatabaseMaintainability (option : TechnicalOption) : Q :=
  withData option (fun data =>
    let score := 50 in
    let score := score +
      bonus (match acidCompliance data with Some b => b | None => false end) 20 in
    let score := score +
      (if strIs (consistencyModel data) "strong" then 15
       else if strIs (consistencyModel data) "configurable" then 10 else 0) in
    let score := score + bonus (strIs (type data) "relational") 10 in
    clamp score).

(** *** Conditions of the scoring rules *)

(** [data && cond(data)], coerced to a boolean by the caller's [if]. *)
Definition dataAnd (option : TechnicalOption) (cond : Metadata -> bool) : bool :=
  match metadata option with
  | None => false
  | Some data => cond data
  end.

Definition hasEnterpriseFeatures (option : TechnicalOption) : bool :=
  dataAnd option (fun data =>
    match enterpriseFeatures data with
    | Some l => ltb 5 (inject_Z (Z.of_nat (List.length l)))
    | None => false
    end).

Definition hasHighMarketShare (option : TechnicalOption) : bool :=
  dataAnd option (fun data => cmpNum (marketShare data) (ltb 25)).

Definition hasPayAsYouGoPricing (option : TechnicalOption) : bool :=
  dataAnd option (fun data => strIs (pricingModel data) "pay-as-you-go").

Definition hasHighDevelopmentSpeed (option : TechnicalOption) : bool :=
  dataAnd option (fun data => cmpNum (developmentSpeed data) (leb 8)).

Definition hasLargeCommunity (option : TechnicalOption) : bool :=
  dataAnd option (fun data => cmpNum (communitySize data) (ltb 50000)).

Definition hasEnterpriseAdoption (option : TechnicalOption) : bool :=
  dataAnd option (fun data => cmpNum (enterpriseAdoption data) (leb 7)).

Definition hasACIDCompliance (option : TechnicalOption) : bool :=
  dataAnd option (fun data =>
    match acidCompliance data with Some b => b | None => false end).

Definition hasSchemaFlexibility (option : TechnicalOption) : bool :=
  dataAnd option (fun data =>
    strIs (schemaFlexibility data) "flexible"
    || strIs (schemaFlexibility data) "schemaless").

Definition hasStrongConsistency (option : TechnicalOption) : bool :=
  dataAnd option (fun data => strIs (consistencyModel data) "strong").

(** *** The three knowledge tables and the generic fallback *)

Definition mkCriteria (fs : list (string * (TechnicalOption -> Q)))
  : list EvaluationCriteria :=
  map (fun nf => {| crit_name := fst nf; weight := 1; scoringFunction := snd nf |}) fs.

Definition createCloudProviderKnowledge : DomainKnowledge :=
  {| dk_category := "cloud";
     criteria := mkCriteria
       [ (COST, scoreCloudCost); (PERFORMANCE, scoreCloudPerformance);
         (SCALABILITY, scoreCloudScalability);
         (LEARNING_CURVE, scoreCloudLearningCurve);
         (VENDOR_LOCK_IN, scoreCloudVendorLockIn);
         (MAINTAINABILITY, scoreCloudMaintainability) ];
     scoringRules :=
       [ {| rule_name := "Enterprise Features Bonus";
            condition := hasEnterpriseFeatures; scoreAdjustment := 10;
            affectedCriteria := [MAINTAINABILITY] |};
         {| rule_name := "High Market Share Bonus";
            condition := hasHighMarketShare; scoreAdjustment := 5;
            affectedCriteria := [LEARNING_CURVE; MAINTAINABILITY] |};
         {| rule_name := "Pay-as-you-go Cost Advantage";
            condition := hasPayAsYouGoPricing; scoreAdjustment := 8;
            affectedCriteria := [COST] |} ] |}.

Definition createBackendFrameworkKnowledge : DomainKnowledge :=
  {| dk_category := "backend";
     criteria := mkCriteria
       [ (COST, scoreBackendCost); (PERFORMANCE, scoreBackendPerformance);
         (SCALABILITY, scoreBackendScalability);
         (LEARNING_CURVE, scoreBackendLearningCurve);
         (VENDOR_LOCK_IN, scoreBackendVendorLockIn);
         (MAINTAINABILITY, scoreBackendMaintainability) ];
     scoringRules :=
       [ {| rule_name := "High Development Speed Bonus";
            condition := hasHighDevelopmentSpeed; scoreAdjustment := 10;
            affectedCriteria := [LEARNING_CURVE] |};
         {| rule_name := "Large Community Bonus";
            condition := hasLargeCommunity; scoreAdjustment := 8;
            affectedCriteria := [MAINTAINABILITY; LEARNING_CURVE] |};
         {| rule_name := "Enterprise Adoption Bonus";
            condition := hasEnterpriseAdoption; scoreAdjustment := 6;
            affectedCriteria := [MAINTAINABILITY] |} ] |}.

Definition createDatabaseKnowledge : DomainKnowledge :=
  {| dk_category := "database";
     criteria := mkCriteria
       [ (COST, scoreDatabaseCost); (PERFORMANCE, scoreDatabasePerformance);
         (SCALABILITY, scoreDatabaseScalability);
         (LEARNING_CURVE, scoreDatabaseLearningCurve);
         (VENDOR_LOCK_IN, scoreDatabaseVendorLockIn);
         (MAINTAINABILITY, scoreDatabaseMaintainability) ];
     scoringRules :=
       [ {| rule_name := "ACID Compliance Bonus";
            condition := hasACIDCompliance; scoreAdjustment := 10;
            affectedCriteria := [MAINTAINABILITY] |};
         {| rule_name := "Schema Flexibility Bonus";
            condition := hasSchemaFlexibility; scoreAdjustment := 8;
            affectedCriteria := [SCALABILITY] |};
         {| rule_name := "Strong Consistency Bonus";
            condition := hasStrongConsistency; scoreAdjustment := 6;
            affectedCriteria := [MAINTAINABILITY] |} ] |}.

Definition getGenericCriteria : list EvaluationCriteria :=
  mkCriteria
    [ (COST, fun _ => 50); (PERFORMANCE, fun _ => 50);
      (SCALABILITY, fun _ => 50); (LEARNING_CURVE, fun _ => 50);
      (VENDOR_LOCK_IN, fun _ => 50); (MAINTAINABILITY, fun _ => 50) ].

(** The map filled by [initializeKnowledgeBase]. *)
Definition domainKnowledge : list (string * DomainKnowledge) :=
  Obj.set (Obj.set (Obj.set [] "cloud" createCloudProviderKnowledge)
                   "backend" createBackendFrameworkKnowledge)
          "database" createDatabaseKnowledge.

Definition getCriteriaForCategory (category : string) : list EvaluationCriteria :=
  match Obj.get domainKnowledge category with
  | None => getGenericCriteria
  | Some knowledge => criteria knowledge
  end.

Definition getScoringRulesForCategory (category : string) : list ScoringRule :=
  match Obj.get domainKnowledge category with
  | None => []
  | Some knowledge => scoringRules knowledge
  end.

Definition getKnownTechnologiesForCategory (category : string) : list string :=
  if String.eqb category "cloud" then
    ["aws"; "gcp"; "azure"; "digitalocean"; "linode"; "vultr"]
  else if String.eqb category "backend" then
    ["node.js"; "django"; "spring boot"; "express"; "fastapi"; "rails"; "laravel"]
  else if String.eqb category "database" then
    ["postgresql"; "mysql"; "mongodb"; "redis"; "cassandra"; "dynamodb"]
  else [].

Definition hasSpecificTechnologyData (option : TechnicalOption) : bool :=
  arrIncludes (getKnownTechnologiesForCategory (category option))
              (toLowerCase (name option)).

Definition isKnownTechnology (option : TechnicalOption) : bool :=
  match Obj.get domainKnowledge (category option) with
  | None => false
  | Some _ => hasSpecificTechnologyData option
  end.

Definition getFallbackMetadata (category : string) : Metadata :=
  if String.eqb category "cloud" then
    {| pricingModel := Some "pay-as-you-go"; serviceCount := Some 50;
       enterpriseFeatures := Some []; learningCurve := Some "medium";
       marketShare := Some 5; regions := Some 5; certifications := Some [];
       language := None; developmentSpeed := None; communitySize := None;
       enterpriseAdoption := None; performanceRating := None;
       packageEcosystem := None; type := None; schemaFlexibility := None;
       queryComplexity := None; horizontalScaling := None;
       consistencyModel := None; acidCompliance := None |}
  else if String.eqb category "backend" then
    {| pricingModel := None; serviceCount := None; enterpriseFeatures := None;
       learningCurve := Some "medium"; marketShare := None; regions := None;
       certifications := None; language := Some "unknown";
       developmentSpeed := Some 5; communitySize := Some 10000;
       enterpriseAdoption := Some 5; performanceRating := Some 5;
       packageEcosystem := Some 10000; type := None;
       schemaFlexibility := None; queryComplexity := None;
       horizontalScaling := None; consistencyModel := None;
       acidCompliance := None |}
  else if String.eqb category "database" then
    {| pricingModel := None; serviceCount := None; enterpriseFeatures := None;
       learningCurve := None; marketShare := None; regions := None;
       certifications := None; language := None; developmentSpeed := None;
       communitySize := None; enterpriseAdoption := None;
       performanceRating := Some 5; packageEcosystem := None;
       type := Some "relational"; schemaFlexibility := Some "rigid";
       queryComplexity := Some "moderate"; horizontalScaling := Some "good";
       consistencyModel := Some "strong"; acidCompliance := Some true |}
  else emptyMetadata.

(** [getTechnologyMetadata] is only called by [processOption], after
    [isKnownTechnology] has answered false. *)
Definition getTechnologyMetadata (option : TechnicalOption)
  : Datatypes.option Metadata :=
  if isKnownTechnology option then metadata option
  else Some (getFallbackMetadata (category option)).

(** The [try]/[catch] around each scoring function has no counterpart:
    on typed metadata no scoring function throws.  [Untyped.evaluateOption]
    has it. *)
Definition evaluateOption (option : TechnicalOption) : list (string * Q) :=
  fold_left
    (fun scores criterion =>
       Obj.set scores (crit_name criterion) (scoringFunction criterion option))
    (getCriteriaForCategory (category option)) [].

(** The inner loop of [applyScoreAdjustments] over [rule.affectedCriteria]. *)
Definition applyRule (rule : ScoringRule) (adjustedScores : list (string * Q))
  : list (string * Q) :=
  fold_left
    (fun scores criterionName =>
       match Obj.get scores criterionName with
       | Some v => Obj.set scores criterionName (clamp (v + scoreAdjustment rule))
       | None => scores
       end)
    (affectedCriteria rule) adjustedScores.

Definition applyScoreAdjustments (option : TechnicalOption)
  (baseScores : list (string * Q)) : list (string * Q) :=
  fold_left
    (fun adjustedScores rule =>
       if condition rule option then applyRule rule adjustedScores
       else adjustedScores)
    (getScoringRulesForCategory (category option)) baseScores.

Definition getComprehensiveEvaluation (option : TechnicalOption)
  : list (string * Q) :=
  applyScoreAdjustments option (evaluateOption option).

(** *** Metadata validation (warnings of [validateSingleOption]) *)

Definition isUndefined {A} (x : option A) : bool :=
  match x with Some _ => false | None => true end.

(** [for (const field of required) if (metadata[field] === undefined) ...] *)
Definition missingFields (required : list (string * bool)) : list string :=
  map (fun f => "Missing required field: " ++ fst f)
      (filter (fun f => snd f) required).

(** [metadata.f && !allowed.includes(metadata.f)]: the empty string is falsy. *)
Definition invalidEnum (x : option string) (allowed : list string) : bool :=
  match x with
  | Some s => negb (String.eqb s "") && negb (arrIncludes allowed s)
  | None => false
  end.

Definition validateCloudProviderMetadata (metadata : Metadata) : list string :=
  missingFields
    [ ("pricingModel", isUndefined (pricingModel metadata));
      ("serviceCount", isUndefined (serviceCount metadata));
      ("learningCurve", isUndefined (learningCurve metadata));
      ("marketShare", isUndefined (marketShare metadata));
      ("regions", isUndefined (regions metadata)) ]
  ++ (if invalidEnum (pricingModel metadata) ["pay-as-you-go"; "reserved"; "hybrid"]
      then ["Invalid pricing model"] else [])
  ++ (if invalidEnum (learningCurve metadata) ["low"; "medium"; "high"]
      then ["Invalid learning curve value"] else []).

(** The [typeof metadata[field] !== 'number'] checks never fire on typed
    metadata; [Untyped.validateBackendFrameworkMetadata] has them. *)
Definition validateBackendFrameworkMetadata (metadata : Metadata) : list string :=
  missingFields
    [ ("language", isUndefined (language metadata));
      ("developmentSpeed", isUndefined (developmentSpeed metadata));
      ("communitySize", isUndefined (communitySize metadata));
      ("enterpriseAdoption", isUndefined (enterpriseAdoption metadata));
      ("performanceRating", isUndefined (performanceRating metadata)) ].

Definition validateDatabaseMetadata (metadata : Metadata) : list string :=
  missingFields
    [ ("type", isUndefined (type metadata));
      ("schemaFlexibility", isUndefined (schemaFlexibility metadata));
      ("queryComplexity", isUndefined (queryComplexity metadata));
      ("horizontalScaling", isUndefined (horizontalScaling metadata));
      ("consistencyModel", isUndefined (consistencyModel metadata));
      ("performanceRating", isUndefined (performanceRating metadata)) ]
  ++ (if invalidEnum (type metadata)
           ["relational"; "document"; "key-value"; "graph"; "columnar"]
      then ["Invalid database type"] else [])
  ++ (if invalidEnum (schemaFlexibility metadata) ["rigid"; "flexible"; "schemaless"]
      then ["Invalid schema flexibility value"] else []).

(** Returns the [errors] array; [isValid] is [errors.length === 0]. *)
Definition validateOptionMetadata (option : TechnicalOption) : list string :=
  match metadata option with
  | None => ["Option metadata is missing"]
  | Some metadata =>
      if String.eqb (category option) "cloud" then
        validateCloudProviderMetadata metadata
      else if String.eqb (category option) "backend" then
        validateBackendFrameworkMetadata metadata
      else if String.eqb (category option) "database" then
        validateDatabaseMetadata metadata
      else []
  end.

End KnowledgeBase.

(** ** Result types ([types/core.ts]) *)

Record OptionScore := {
  option_ : TechnicalOption;
  criteriaScores : list (string * Q);
  weightedScore : Q;
  normalizedScore : Z
}.

Record RankedOption := {
  ranked_option : TechnicalOption;
  rank : nat;
  score : Q
}.

Inductive Impact := ImpactLow | ImpactMedium | ImpactHigh.

Record Compromise := {
  description : string;
  impact : Impact;
  compromise_affectedCriteria : list string
}.

Record TradeOffAnalysis := {
  strongestOption : list (string * TechnicalOption);
  weakestOption : list (string * TechnicalOption);
  compromises : list Compromise
}.

Record EvaluationResult := {
  scores : list OptionScore;
  rankings : list RankedOption;
  tradeOffs : TradeOffAnalysis
}.

Record ValidationError := {
  field : string;
  message : string;
  code : string
}.

Record ValidationResult := {
  isValid : bool;
  errors : list ValidationError;
  warnings : list string
}.

(** The outcome of a call that may [throw new Error(msg)]. *)
Inductive Result (A : Type) :=
| Ok (value : A)
| Throw (msg : string).
Arguments Ok {A} value.
Arguments Throw {A} msg.

(** ** [components/ComparisonEngine.ts] *)

Module ComparisonEngine.
Import JS.

(** [`${index}`] *)
Definition showIndex (index : nat) : string :=
  DecimalString.NilZero.string_of_uint (Nat.to_uint index).

(** Every validator ends with [isValid: errors.length === 0]. *)
Definition mkResult (errors : list ValidationError) (warnings : list string)
  : ValidationResult :=
  {| isValid := match errors with [] => true | _ => false end;
     errors := errors; warnings := warnings |}.

Definition validateOptionCount (options : list TechnicalOption) : ValidationResult :=
  mkResult
    (if (List.length options <? 2)%nat then
       [ {| field := "options";
            message := "At least 2 options are required for comparison";
            code := "OPTIONS_TOO_FEW" |} ]
     else if (3 <? List.length options)%nat then
       [ {| field := "options";
            message := "Maximum 3 options allowed for comparison";
            code := "OPTIONS_TOO_MANY" |} ]
     else [])
    [].

Definition validCategories : list string := ["cloud"; "backend"; "database"; "frontend"].

(** The branches on a null option and on a name that is not a string are
    excluded by the types; [Untyped.validateSingleOption] has them. *)
Definition validateSingleOption (option : TechnicalOption) (index : nat)
  : ValidationResult :=
  let nameErrors :=
    if trim_is_empty (name option) then
      [ {| field := "options[" ++ showIndex index ++ "].name";
           message := "Option name cannot be empty";
           code := "OPTION_NAME_EMPTY" |} ]
    else [] in
  let categoryErrors :=
    if String.eqb (category option) "" then
      [ {| field := "options[" ++ showIndex index ++ "].category";
           message := "Option category is required and must be a string";
           code := "OPTION_CATEGORY_INVALID" |} ]
    else [] in
  let categoryWarnings :=
    if String.eqb (category option) "" then []
    else if arrIncludes validCategories (category option) then []
    else [ "Option " ++ name option ++ " has unknown category '"
           ++ category option ++ "' - will use generic evaluation" ] in
  let metadataWarnings :=
    match metadata option with
    | None => [ "Option " ++ name option ++ " has no metadata - will use fallback values" ]
    | Some _ =>
        map (fun error => "Option " ++ name option ++ " metadata issue: " ++ error)
            (KnowledgeBase.validateOptionMetadata option)
    end in
  mkResult (nameErrors ++ categoryErrors)%list
           (categoryWarnings ++ metadataWarnings)%list.

(** [`${option.name.toLowerCase()}-${option.category}`] *)
Definition duplicateKey (option : TechnicalOption) : string :=
  toLowerCase (name option) ++ "-" ++ category option.

(** The [forEach] of [validateNoDuplicates], threading the [seen] set and
    the array index. *)
Fixpoint duplicateErrors (options : list TechnicalOption) (index : nat)
  (seen : list string) : list ValidationError :=
  match options with
  | [] => []
  | option :: rest =>
      if String.eqb (name option) "" then duplicateErrors rest (S index) seen
      else
        let key := duplicateKey option in
        if arrIncludes seen key then
          {| field := "options[" ++ showIndex index ++ "]";
             message := "Duplicate option detected: " ++ name option
                        ++ " (" ++ category option ++ ")";
             code := "OPTION_DUPLICATE" |}
          :: duplicateErrors rest (S index) seen
        else duplicateErrors rest (S index) (seen ++ [key])%list
  end.

Definition validateNoDuplicates (options : list TechnicalOption) : ValidationResult :=
  mkResult (duplicateErrors options 0 []) [].

(** [new Set(arr)]: the distinct elements in order of first occurrence. *)
Definition newSet (arr : list string) : list string :=
  fold_left (fun seen x => if arrIncludes seen x then seen else (seen ++ [x])%list) arr [].

Definition validateCategoryConsistency (options : list TechnicalOption)
  : ValidationResult :=
  let categories :=
    newSet (filter (fun c => negb (String.eqb c "")) (map category options)) in
  mkResult []
    (if (1 <? List.length categories)%nat then
       [ "Mixed categories detected: " ++ join ", " categories ++ ". "
         ++ "Comparisons are most meaningful when all options are from the same category." ]
     else []).

(** [options.forEach((option, index) => ...)] collecting the results. *)
Fixpoint validateEach (options : list TechnicalOption) (index : nat)
  : list ValidationResult :=
  match options with
  | [] => []
  | option :: rest => validateSingleOption option index :: validateEach rest (S index)
  end.

(** The declaration line of this method is commented out in the source;
    its body, which [evaluate] calls, is embedded as written. *)
Definition validateTechnicalOptions (options : list TechnicalOption)
  : ValidationResult :=
  let countValidation := validateOptionCount options in
  if negb (isValid countValidation) then
    {| isValid := false; errors := errors countValidation;
       warnings := warnings countValidation |}
  else
    let each := validateEach options 0 in
    let duplicateValidation := validateNoDuplicates options in
    let categoryValidation := validateCategoryConsistency options in
    mkResult
      (errors countValidation ++ flat_map errors each
       ++ errors duplicateValidation ++ errors categoryValidation)%list
      (warnings countValidation ++ flat_map warnings each
       ++ warnings duplicateValidation ++ warnings categoryValidation)%list.

(** [{ ...fallbackMetadata, ...option.metadata }]: a field of the option
    wins over the fallback. *)
Definition orElse {A} (x y : Datatypes.option A) : Datatypes.option A :=
  match x with Some _ => x | None => y end.

Definition mergeMetadata (fallback : Metadata) (own : Datatypes.option Metadata)
  : Metadata :=
  match own with
  | None => fallback
  | Some m =>
      {| pricingModel := orElse (pricingModel m) (pricingModel fallback);
         serviceCount := orElse (serviceCount m) (serviceCount fallback);
         enterpriseFeatures := orElse (enterpriseFeatures m) (enterpriseFeatures fallback);
         learningCurve := orElse (learningCurve m) (learningCurve fallback);
         marketShare := orElse (marketShare m) (marketShare fallback);
         regions := orElse (regions m) (regions fallback);
         certifications := orElse (certifications m) (certifications fallback);
         language := orElse (language m) (language fallback);
         developmentSpeed := orElse (developmentSpeed m) (developmentSpeed fallback);
         communitySize := orElse (communitySize m) (communitySize fallback);
         enterpriseAdoption := orElse (enterpriseAdoption m) (enterpriseAdoption fallback);
         performanceRating := orElse (performanceRating m) (performanceRating fallback);
         packageEcosystem := orElse (packageEcosystem m) (packageEcosystem fallback);
         type := orElse (type m) (type fallback);
         schemaFlexibility := orElse (schemaFlexibility m) (schemaFlexibility fallback);
         queryComplexity := orElse (queryComplexity m) (queryComplexity fallback);
         horizontalScaling := orElse (horizontalScaling m) (horizontalScaling fallback);
         consistencyModel := orElse (consistencyModel m) (consistencyModel fallback);
         acidCompliance := orElse (acidCompliance m) (acidCompliance fallback) |}
  end.

Definition processOption (option : TechnicalOption) : TechnicalOption :=
  if KnowledgeBase.isKnownTechnology option then option
  else
    match KnowledgeBase.getTechnologyMetadata option with
    | Some fallbackMetadata =>
        {| name := name option; category := category option;
           metadata := Some (mergeMetadata fallbackMetadata (metadata option)) |}
    | None =>
        {| name := name option; category := category option;
           metadata := metadata option |}
    end.

Definition processOptions (options : list TechnicalOption) : list TechnicalOption :=
  map processOption options.

(** *** Weighting *)

Definition normalizePriorities (priorities : Priorities) : Priorities :=
  let total := cost priorities + performance priorities + easeOfUse priorities
               + scalability priorities + vendorLockIn priorities in
  if Qeq_bool total 0 then
    {| cost := 2 # 10; performance := 2 # 10; easeOfUse := 2 # 10;
       scalability := 2 # 10; vendorLockIn := 2 # 10 |}
  else
    {| cost := cost priorities / total;
       performance := performance priorities / total;
       easeOfUse := easeOfUse priorities / total;
       scalability := scalability priorities / total;
       vendorLockIn := vendorLockIn priorities / total |}.

Definition getEmphasisFactor (priority : Q) : Q :=
  if Qeq_bool priority 5 then 15 # 10
  else if Qeq_bool priority 4 then 12 # 10
  else if Qeq_bool priority 3 then 1
  else if Qeq_bool priority 2 then 8 # 10
  else if Qeq_bool priority 1 then 5 # 10
  else 1.

Definition applyPriorityEmphasis (normalizedPriorities rawPriorities : Priorities)
  : Priorities :=
  let emphasized :=
    {| cost := cost normalizedPriorities * getEmphasisFactor (cost rawPriorities);
       performance := performance normalizedPriorities
                      * getEmphasisFactor (performance rawPriorities);
       easeOfUse := easeOfUse normalizedPriorities
                    * getEmphasisFactor (easeOfUse rawPriorities);
       scalability := scalability normalizedPriorities
                      * getEmphasisFactor (scalability rawPriorities);
       vendorLockIn := vendorLockIn normalizedPriorities
                       * getEmphasisFactor (vendorLockIn rawPriorities) |} in
  let total := cost emphasized + performance emphasized + easeOfUse emphasized
               + scalability emphasized + vendorLockIn emphasized in
  if ltb 0 total then
    {| cost := cost emphasized / total;
       performance := performance emphasized / total;
       easeOfUse := easeOfUse emphasized / total;
       scalability := scalability emphasized / total;
       vendorLockIn := vendorLockIn emphasized / total |}
  else emphasized.

(** The object literal [criteriaMapping], in the order of its keys. *)
Definition criteriaMapping (emphasizedWeights : Priorities) : list (string * Q) :=
  [ (COST, cost emphasizedWeights);
    (PERFORMANCE, performance emphasizedWeights);
    (SCALABILITY, scalability emphasizedWeights);
    (LEARNING_CURVE, easeOfUse emphasizedWeights);
    (VENDOR_LOCK_IN, vendorLockIn emphasizedWeights);
    (MAINTAINABILITY, cost emphasizedWeights * (3 # 10)
                      + performance emphasizedWeights * (2 # 10)) ].

(** The loop of [calculateWeightedScore]: the pair is
    [(weightedSum, totalWeight)]. *)
Definition accumulate (criteriaScores : list (string * Q))
  (mapping : list (string * Q)) : Q * Q :=
  fold_left
    (fun acc cw =>
       match Obj.get criteriaScores (fst cw) with
       | Some s => (fst acc + s * snd cw, snd acc + snd cw)
       | None => acc
       end)
    mapping (0, 0).

Definition calculateWeightedScore (criteriaScores : list (string * Q))
  (priorities : Priorities) : Q :=
  let normalizedPriorities := normalizePriorities priorities in
  let emphasizedWeights := applyPriorityEmphasis normalizedPriorities priorities in
  let '(weightedSum, totalWeight) :=
    accumulate criteriaScores (criteriaMapping emphasizedWeights) in
  if ltb 0 totalWeight then weightedSum / totalWeight else 50.

Definition calculateOptionScore (option : TechnicalOption)
  (constraints : UserConstraints) : OptionScore :=
  let baseScores := KnowledgeBase.getComprehensiveEvaluation option in
  let weightedScore := calculateWeightedScore baseScores (priorities constraints) in
  {| option_ := option; criteriaScores := baseScores;
     weightedScore := weightedScore; normalizedScore := round weightedScore |}.

Definition calculateScores (options : list TechnicalOption)
  (constraints : UserConstraints) : list OptionScore :=
  map (fun option => calculateOptionScore option constraints) options.

(** *** Contextual adjustments *)

Definition calculateContextualAdjustments (option : TechnicalOption)
  (constraints : UserConstraints) : list (string * Q) :=
  let adjustments : list (string * Q) := [] in
  let adjustments :=
    match budget constraints with
    | BudgetLow => Obj.set adjustments COST 10
    | BudgetHigh => Obj.set adjustments PERFORMANCE 5
    | BudgetMedium => adjustments
    end in
  let adjustments :=
    match timeline constraints with
    | Immediate => Obj.set adjustments LEARNING_CURVE 15
    | Long => Obj.set adjustments SCALABILITY 10
    | _ => adjustments
    end in
  let adjustments :=
    match skillLevel (team constraints) with
    | Junior => Obj.set (Obj.set adjustments LEARNING_CURVE 10) MAINTAINABILITY 5
    | Senior => Obj.set adjustments PERFORMANCE 5
    | Mixed => adjustments
    end in
  let adjustments :=
    if existsb (fun exp => includes (toLowerCase exp) (toLowerCase (name option)))
               (experience (team constraints))
    then Obj.set (Obj.set adjustments LEARNING_CURVE 20) MAINTAINABILITY 10
    else adjustments in
  let adjustments :=
    if ltb 100000 (users (scale constraints))
       || match traffic (scale constraints) with TrafficHigh => true | _ => false end
    then Obj.set (Obj.set adjustments SCALABILITY 15) PERFORMANCE 10
    else adjustments in
  adjustments.

(** The loop of [applyContextualAdjustments] over
    [Object.entries(adjustments)], on the object it writes to. *)
Definition adjustCriteria (criteriaScores adjustments : list (string * Q))
  : list (string * Q) :=
  fold_left
    (fun cs ca =>
       match Obj.get cs (fst ca) with
       | Some v => Obj.set cs (fst ca) (clamp (v + snd ca))
       | None => cs
       end)
    adjustments criteriaScores.

(** [applyContextualAdjustments] as a function of the values it returns.
    Its effect on the objects it is given is the subject of
    [ComparisonEngineHeap] below. *)
Definition applyContextualAdjustments (scores : list OptionScore)
  (constraints : UserConstraints) : list OptionScore :=
  map
    (fun score =>
       let adjustments := calculateContextualAdjustments (option_ score) constraints in
       let adjusted := adjustCriteria (criteriaScores score) adjustments in
       let weightedScore := calculateWeightedScore adjusted (priorities constraints) in
       {| option_ := option_ score; criteriaScores := adjusted;
          weightedScore := weightedScore;
          normalizedScore := round weightedScore |})
    scores.

(** *** Ranking *)

(** [Array.prototype.sort] is stable; with the comparator
    [(a, b) => b.weightedScore - a.weightedScore] an element goes before
    the first one of the sorted rest whose score is not greater. *)
Fixpoint insertByScore (a : OptionScore) (sorted : list OptionScore)
  : list OptionScore :=
  match sorted with
  | [] => [a]
  | b :: rest =>
      if Qle_bool (weightedScore b - weightedScore a) 0 then a :: b :: rest
      else b :: insertByScore a rest
  end.

Definition sortByScore (scores : list OptionScore) : list OptionScore :=
  fold_right insertByScore [] scores.

(** [arr.map((score, index) => ...)] *)
Fixpoint mapi {A B} (f : A -> nat -> B) (l : list A) (index : nat) : list B :=
  match l with
  | [] => []
  | x :: rest => f x index :: mapi f rest (S index)
  end.

Definition rankOptions (scores : list OptionScore) : list RankedOption :=
  let sortedScores := sortByScore scores in
  mapi (fun score index =>
          {| ranked_option := option_ score; rank := index + 1;
             score := weightedScore score |})
       sortedScores 0.

(** *** Trade-off analysis *)

Definition getCriterionPriority (criterion : string) (priorities : Priorities) : Q :=
  if String.eqb criterion COST then cost priorities
  else if String.eqb criterion PERFORMANCE then performance priorities
  else if String.eqb criterion SCALABILITY then scalability priorities
  else if String.eqb criterion LEARNING_CURVE then easeOfUse priorities
  else if String.eqb criterion VENDOR_LOCK_IN then vendorLockIn priorities
  else if String.eqb criterion MAINTAINABILITY then
    Qmax (cost priorities) (performance priorities)
  else 3.

Definition determineImpact (scoreDifference priority : Q) : Impact :=
  let impactScore := (scoreDifference / 100) * priority in
  if ltb (15 # 100) impactScore then ImpactHigh
  else if ltb (8 # 100) impactScore then ImpactMedium
  else ImpactLow.

(** [criteriaScores[criterion] || 0] *)
Definition scoreOrZero (criteriaScores : list (string * Q)) (criterion : string) : Q :=
  match Obj.get criteriaScores criterion with
  | Some v => v
  | None => 0
  end.

(** [Math.max(...xs)]; [None] is the [-Infinity] of an empty argument list. *)
Definition mathMax (xs : list Q) : Datatypes.option Q :=
  fold_left
    (fun acc x => match acc with None => Some x | Some m => Some (Qmax m x) end)
    xs None.

Definition identifyCompromises (optionScore : OptionScore)
  (allScores : list OptionScore) (constraints : UserConstraints) : list Compromise :=
  let priorities := priorities constraints in
  flat_map
    (fun cs =>
       let criterion := fst cs in
       let score := snd cs in
       let otherScores :=
         map (fun s => scoreOrZero (criteriaScores s) criterion)
             (filter (fun s => negb (String.eqb (name (option_ s))
                                                (name (option_ optionScore))))
                     allScores) in
       match mathMax otherScores with
       | None => []
       | Some maxOtherScore =>
           let scoreDifference := maxOtherScore - score in
           if ltb 20 scoreDifference then
             let priority := getCriterionPriority criterion priorities in
             let impact := determineImpact scoreDifference priority in
             [ {| description := "Choosing " ++ name (option_ optionScore)
                                 ++ " means accepting weaker " ++ criterion
                                 ++ " performance";
                  impact := impact;
                  compromise_affectedCriteria := [criterion] |} ]
           else []
       end)
    (criteriaScores optionScore).

(** The inner loop of [generateTradeOffAnalysis] for one criterion: the
    pair is [(strongest, weakest)]. *)
Definition extremes (criterion : string) (first : OptionScore)
  (scores : list OptionScore) : OptionScore * OptionScore :=
  fold_left
    (fun sw score =>
       let criterionScore := scoreOrZero (criteriaScores score) criterion in
       let strongestScore := scoreOrZero (criteriaScores (fst sw)) criterion in
       let weakestScore := scoreOrZero (criteriaScores (snd sw)) criterion in
       (if ltb strongestScore criterionScore then score else fst sw,
        if ltb criterionScore weakestScore then score else snd sw))
    scores (first, first).

Definition generateTradeOffAnalysis (scores : list OptionScore)
  (constraints : UserConstraints) : TradeOffAnalysis :=
  let allCriteria :=
    newSet (flat_map (fun score => Obj.keys (criteriaScores score)) scores) in
  let byCriterion :=
    match scores with
    | [] => ([], [])
    | first :: _ =>
        fold_left
          (fun acc criterion =>
             let sw := extremes criterion first scores in
             (Obj.set (fst acc) criterion (option_ (fst sw)),
              Obj.set (snd acc) criterion (option_ (snd sw))))
          allCriteria ([], [])
    end in
  {| strongestOption := fst byCriterion;
     weakestOption := snd byCriterion;
     compromises :=
       flat_map (fun score => identifyCompromises score scores constraints) scores |}.

(** *** Entry point *)

Definition evaluate (options : list TechnicalOption) (constraints : UserConstraints)
  : Result EvaluationResult :=
  let optionValidation := validateTechnicalOptions options in
  if negb (isValid optionValidation) then
    Throw ("Invalid options: " ++ join ", " (map message (errors optionValidation)))
  else
    let processedOptions := processOptions options in
    let scores := calculateScores processedOptions constraints in
    let scores := applyContextualAdjustments scores constraints in
    let rankings := rankOptions scores in
    let tradeOffs := generateTradeOffAnalysis scores constraints in
    Ok {| scores := scores; rankings := rankings; tradeOffs := tradeOffs |}.

End ComparisonEngine.

(** ** [applyContextualAdjustments] on objects

    [{ ...score }] copies the four fields of an [OptionScore] object; the
    copy holds the same reference to the [criteriaScores] object as the
    original.  Objects are kept in a store and addressed by their index;
    a new object takes the next index. *)

Module ComparisonEngineHeap.
Import JS.

Definition ref := nat.

Record OptionScoreObj := {
  obj_option : TechnicalOption;
  obj_criteriaScores : ref;
  obj_weightedScore : Q;
  obj_normalizedScore : Z
}.

Record Heap := {
  optionScoreObjs : list OptionScoreObj;
  scoreMaps : list (list (string * Q))
}.

(** [l[i] = x] on a store; nothing is written outside of it. *)
Fixpoint write {A} (l : list A) (i : nat) (x : A) : list A :=
  match l, i with
  | [], _ => []
  | _ :: rest, O => x :: rest
  | y :: rest, S j => y :: write rest j x
  end.

Definition readObj (h : Heap) (r : ref) : Datatypes.option OptionScoreObj :=
  nth_error (optionScoreObjs h) r.

Definition readMap (h : Heap) (r : ref) : Datatypes.option (list (string * Q)) :=
  nth_error (scoreMaps h) r.

Definition writeMap (h : Heap) (r : ref) (m : list (string * Q)) : Heap :=
  {| optionScoreObjs := optionScoreObjs h; scoreMaps := write (scoreMaps h) r m |}.

Definition writeObj (h : Heap) (r : ref) (o : OptionScoreObj) : Heap :=
  {| optionScoreObjs := write (optionScoreObjs h) r o; scoreMaps := scoreMaps h |}.

(** Allocation of a new [OptionScore] object. *)
Definition allocObj (h : Heap) (o : OptionScoreObj) : ref * Heap :=
  (List.length (optionScoreObjs h),
   {| optionScoreObjs := (optionScoreObjs h ++ [o])%list; scoreMaps := scoreMaps h |}).

(** [adjustedScore.criteriaScores[criterion] = Math.min(100, Math.max(0, ...))]
    for every entry of [adjustments], through the reference [cs]. *)
Definition adjustThrough (cs : ref) (adjustments : list (string * Q)) (h : Heap) : Heap :=
  fold_left
    (fun h ca =>
       match readMap h cs with
       | Some m =>
           match Obj.get m (fst ca) with
           | Some v => writeMap h cs (Obj.set m (fst ca) (clamp (v + snd ca)))
           | None => h
           end
       | None => h
       end)
    adjustments h.

(** The callback of [scores.map] for the object at [score]. *)
Definition adjustOne (constraints : UserConstraints) (score : ref) (h : Heap)
  : Datatypes.option (ref * Heap) :=
  match readObj h score with
  | None => None
  | Some original =>
      (* const adjustedScore = { ...score }; *)
      let '(adjustedScore, h) := allocObj h original in
      let adjustments :=
        ComparisonEngine.calculateContextualAdjustments (obj_option original) constraints in
      let h := adjustThrough (obj_criteriaScores original) adjustments h in
      match readMap h (obj_criteriaScores original) with
      | None => None
      | Some m =>
          let weightedScore :=
            ComparisonEngine.calculateWeightedScore m (priorities constraints) in
          Some (adjustedScore,
                writeObj h adjustedScore
                  {| obj_option := obj_option original;
                     obj_criteriaScores := obj_criteriaScores original;
                     obj_weightedScore := weightedScore;
                     obj_normalizedScore := round weightedScore |})
      end
  end.

(** [applyContextualAdjustments]: the array of new references and the
    store after the call; [None] when a reference dangles. *)
Fixpoint applyContextualAdjustments (scores : list ref)
  (constraints : UserConstraints) (h : Heap) : Datatypes.option (list ref * Heap) :=
  match scores with
  | [] => Some ([], h)
  | score :: rest =>
      match adjustOne constraints score h with
      | None => None
      | Some (adjusted, h) =>
          match applyContextualAdjustments rest constraints h with
          | None => None
          | Some (adjustedRest, h) => Some (adjusted :: adjustedRest, h)
          end
      end
  end.

(** The value of the object at a reference: what a reader of the object
    and of its [criteriaScores] sees. *)
Definition valueOf (h : Heap) (r : ref) : Datatypes.option OptionScore :=
  match readObj h r with
  | None => None
  | Some o =>
      match readMap h (obj_criteriaScores o) with
      | None => None
      | Some m =>
          Some {| option_ := obj_option o; criteriaScores := m;
                  weightedScore := obj_weightedScore o;
                  normalizedScore := obj_normalizedScore o |}
      end
  end.

(** The [criteriaScores] references held by the objects at [rs]. *)
Definition mapsOf (h : Heap) (rs : list ref) : list ref :=
  flat_map (fun r => match readObj h r with
                     | Some o => [obj_criteriaScores o]
                     | None => []
                     end) rs.

End ComparisonEngineHeap.

(** ** The confidence estimator of [components/OutputGenerator.ts]

    The rational inputs are read as reals where [Math.sqrt] is applied;
    [None] stands for [NaN]. *)

Module OutputGenerator.
Import JS.

Definition normalizePriorities (priorities : Priorities) : Priorities :=
  let total := fold_left Qplus
                 [ cost priorities; performance priorities; easeOfUse priorities;
                   scalability priorities; vendorLockIn priorities ] 0 in
  if Qeq_bool total 0 then
    {| cost := 2 # 10; performance := 2 # 10; easeOfUse := 2 # 10;
       scalability := 2 # 10; vendorLockIn := 2 # 10 |}
  else
    {| cost := cost priorities / total;
       performance := performance priorities / total;
       easeOfUse := easeOfUse priorities / total;
       scalability := scalability priorities / total;
       vendorLockIn := vendorLockIn priorities / total |}.

Definition mapPriorityToCriterion (priority : string) : string :=
  match Obj.get [ ("cost", COST); ("performance", PERFORMANCE);
                  ("easeOfUse", LEARNING_CURVE); ("scalability", SCALABILITY);
                  ("vendorLockIn", VENDOR_LOCK_IN) ] priority with
  | Some criterion => if String.eqb criterion "" then priority else criterion
  | None => priority
  end.

(** [Object.entries(normalizedPriorities)] *)
Definition entries (p : Priorities) : list (string * Q) :=
  [ ("cost", cost p); ("performance", performance p); ("easeOfUse", easeOfUse p);
    ("scalability", scalability p); ("vendorLockIn", vendorLockIn p) ].

(** [criteriaScores[criterion] || 50] *)
Definition scoreOrFifty (criteriaScores : list (string * Q)) (criterion : string) : Q :=
  match Obj.get criteriaScores criterion with
  | Some v => if Qeq_bool v 0 then 50 else v
  | None => 50
  end.

Definition calculatePriorityAlignment (optionScore : OptionScore)
  (constraints : UserConstraints) : Q :=
  let normalizedPriorities := normalizePriorities (priorities constraints) in
  let '(alignmentScore, totalWeight) :=
    fold_left
      (fun acc pw =>
         let criterion := mapPriorityToCriterion (fst pw) in
         let score := scoreOrFifty (criteriaScores optionScore) criterion in
         (fst acc + (score / 100) * snd pw, snd acc + snd pw))
      (entries normalizedPriorities) (0, 0) in
  if ltb 0 totalWeight then alignmentScore / totalWeight else 5 # 10.

(** [scores.find(s => s.option.name === name)] *)
Definition findByName (scores : list OptionScore) (n : string)
  : Datatypes.option OptionScore :=
  find (fun s => String.eqb (name (option_ s)) n) scores.

(** The variance computed by [calculateConsistencyBonus]; the caller
    makes sure that [scores] is not empty. *)
Definition variance (scores : list Q) : Q :=
  let len := inject_Z (Z.of_nat (List.length scores)) in
  let avgScore := fold_left (fun sum score => sum + score) scores 0 / len in
  fold_left (fun sum score => sum + (score - avgScore) ^ 2) scores 0 / len.

(** [Math.min(0.2, Math.max(0, (20 - standardDeviation) / 100))] *)
Definition bonusOf (standardDeviation : R) : R :=
  Rmin (2 / 10) (Rmax 0 ((20 - standardDeviation) / 100)).

(** The caller has checked that [rankings] is not empty.  On an empty
    [criteriaScores] both divisions are [0 / 0] and the result is [NaN]. *)
Definition calculateConsistencyBonus (result : EvaluationResult)
  : Datatypes.option R :=
  match rankings result with
  | [] => None
  | topOption :: _ =>
      match findByName (scores result) (name (ranked_option topOption)) with
      | None => Some 0%R
      | Some topScore =>
          match Obj.values (criteriaScores topScore) with
          | [] => None
          | scores => Some (bonusOf (sqrt (Q2R (variance scores))))
          end
      end
  end.

(** The confidence that the score gap alone gives. *)
Definition baseConfidence (scoreGap : Q) : Q :=
  if ltb 20 scoreGap then 9 # 10
  else if ltb 10 scoreGap then 75 # 100
  else if ltb 5 scoreGap then 6 # 10
  else 4 # 10.

(** The adjustment by the priority alignment of the top option. *)
Definition alignConfidence (result : EvaluationResult) (top : RankedOption)
  (constraints : UserConstraints) (confidence : Q) : Q :=
  match findByName (scores result) (name (ranked_option top)) with
  | Some topOption =>
      let priorityAlignment := calculatePriorityAlignment topOption constraints in
      Qmin 1 (confidence + (priorityAlignment - (5 # 10)) * (2 # 10))
  | None => confidence
  end.

Definition calculateRecommendationConfidence (result : EvaluationResult)
  (constraints : UserConstraints) : Datatypes.option R :=
  match rankings result with
  | top :: second :: _ =>
      let scoreGap := score top - score second in
      let confidence := baseConfidence scoreGap in
      let confidence := alignConfidence result top constraints confidence in
      match calculateConsistencyBonus result with
      | None => None
      | Some consistencyBonus =>
          let confidence : R := Rmin 1 (Q2R confidence + consistencyBonus) in
          Some (Rmax (1 / 10) (Rmin 1 confidence))
      end
  | _ => Some (5 / 10)%R
  end.

(** *** Key differences, top priority and the alternative scenarios

    Own keys only are looked up in the object literals below; the
    properties inherited from [Object.prototype] are not modelled. *)

(** [char.toUpperCase()], on the ASCII letters. *)
Definition upper_ascii (c : ascii) : ascii :=
  let n := nat_of_ascii c in
  if (97 <=? n)%nat && (n <=? 122)%nat then ascii_of_nat (n - 32) else c.

(** The class [\w] of a regular expression. *)
Definition isWordChar (c : ascii) : bool :=
  let n := nat_of_ascii c in
  ((48 <=? n)%nat && (n <=? 57)%nat) || ((65 <=? n)%nat && (n <=? 90)%nat)
  || ((97 <=? n)%nat && (n <=? 122)%nat) || (n =? 95)%nat.

(** [str.replace(/\b\w/g, char => char.toUpperCase())]: a word character
    that does not follow a word character is put in upper case. *)
Fixpoint capitalizeFrom (afterWordChar : bool) (str : string) : string :=
  match str with
  | EmptyString => EmptyString
  | String c r =>
      String (if isWordChar c && negb afterWordChar then upper_ascii c else c)
             (capitalizeFrom (isWordChar c) r)
  end.

Definition capitalizeWords (str : string) : string := capitalizeFrom false str.

(** [criterion.replace(/_/g, ' ')] *)
Fixpoint replaceUnderscores (s : string) : string :=
  match s with
  | EmptyString => EmptyString
  | String c r => String (if Ascii.eqb c "_" then " "%char else c) (replaceUnderscores r)
  end.

Definition formatCriterionName (criterion : string) : string :=
  let fallback := capitalizeWords (replaceUnderscores criterion) in
  match Obj.get [ (COST, "Cost Effectiveness"); (PERFORMANCE, "Performance");
                  (SCALABILITY, "Scalability"); (LEARNING_CURVE, "Ease of Use");
                  (VENDOR_LOCK_IN, "Vendor Independence");
                  (MAINTAINABILITY, "Maintainability") ] criterion with
  | Some displayName => if String.eqb displayName "" then fallback else displayName
  | None => fallback
  end.

(** The elements of the array returned by [findKeyDifferences]. *)
Record KeyDifference := {
  kd_criterion : string;
  winner : string;
  loser : string;
  winnerScore : Q;
  loserScore : Q;
  gap : Q
}.

(** [differences.sort((a, b) => b.gap - a.gap)], a stable sort. *)
Fixpoint insertByGap (a : KeyDifference) (sorted : list KeyDifference)
  : list KeyDifference :=
  match sorted with
  | [] => [a]
  | b :: rest =>
      if Qle_bool (gap b - gap a) 0 then a :: b :: rest
      else b :: insertByGap a rest
  end.

Definition sortByGap (differences : list KeyDifference) : list KeyDifference :=
  fold_right insertByGap [] differences.

Definition findKeyDifferences (option1 option2 : OptionScore) : list KeyDifference :=
  let allCriteria :=
    ComparisonEngine.newSet
      (Obj.keys (criteriaScores option1) ++ Obj.keys (criteriaScores option2))%list in
  let differences :=
    flat_map
      (fun criterion =>
         let score1 := ComparisonEngine.scoreOrZero (criteriaScores option1) criterion in
         let score2 := ComparisonEngine.scoreOrZero (criteriaScores option2) criterion in
         let gap := Qabs (score1 - score2) in
         if ltb 15 gap then
           [ {| kd_criterion := formatCriterionName criterion;
                winner := if ltb score2 score1 then name (option_ option1)
                          else name (option_ option2);
                loser := if ltb score2 score1 then name (option_ option2)
                         else name (option_ option1);
                winnerScore := Qmax score1 score2;
                loserScore := Qmin score1 score2;
                gap := gap |} ]
         else [])
      allCriteria in
  sortByGap differences.

(** The keys of a priorities object. *)
Definition priorityKeys : list string :=
  ["cost"; "performance"; "easeOfUse"; "scalability"; "vendorLockIn"].

(** The body of [getTopPriority] on the array [Object.entries(priorities)],
    which lists the keys in the order in which they were written into the
    object.  [reduce] without an initial value throws on an empty array. *)
Definition getTopPriorityFrom (priorityEntries : list (string * Q)) : Result string :=
  match priorityEntries with
  | [] => Throw "Reduce of empty array with no initial value"
  | first :: rest =>
      let topPriority :=
        fold_left (fun max current => if ltb (snd max) (snd current) then current else max)
                  rest first in
      Ok (match Obj.get [ ("cost", COST); ("performance", PERFORMANCE);
                          ("easeOfUse", LEARNING_CURVE); ("scalability", SCALABILITY);
                          ("vendorLockIn", VENDOR_LOCK_IN) ] (fst topPriority) with
          | Some criterion =>
              if String.eqb criterion "" then fst topPriority else criterion
          | None => fst topPriority
          end)
  end.

(** [getTopPriority] on an object whose keys were written in the order in
    which the type declares them, as the constraints objects of this
    development are: [Object.entries(priorities).reduce(...)] without an
    initial value; the object has five keys, so the array is never empty. *)
Definition getTopPriority (priorities : Priorities) : string :=
  match entries priorities with
  | [] => ""
  | first :: rest =>
      let topPriority :=
        fold_left (fun max current => if ltb (snd max) (snd current) then current else max)
                  rest first in
      match Obj.get [ ("cost", COST); ("performance", PERFORMANCE);
                      ("easeOfUse", LEARNING_CURVE); ("scalability", SCALABILITY);
                      ("vendorLockIn", VENDOR_LOCK_IN) ] (fst topPriority) with
      | Some criterion =>
          if String.eqb criterion "" then fst topPriority else criterion
      | None => fst topPriority
      end
  end.

(** The loop of [findBestOptionForCriterion]: the pair is
    [(bestOption, bestScore)]. *)
Definition findBestOptionForCriterion (result : EvaluationResult) (criterion : string)
  : Datatypes.option TechnicalOption :=
  fst (fold_left
         (fun best score =>
            let criterionScore :=
              ComparisonEngine.scoreOrZero (criteriaScores score) criterion in
            if ltb (snd best) criterionScore
            then (Some (option_ score), criterionScore)
            else best)
         (scores result) (None, - (1))).

(** Reading [score.option.metadata.enterpriseFeatures] when the metadata
    is [undefined] throws a [TypeError]. *)
Definition typeError : string :=
  "Cannot read properties of undefined (reading 'enterpriseFeatures')".

(** The loop of [findBestOptionForEnterprise] from the pair
    [(bestOption, bestEnterpriseScore)]. *)
Fixpoint findBestEnterpriseFrom (scores : list OptionScore)
  (best : Datatypes.option TechnicalOption * Q)
  : Result (Datatypes.option TechnicalOption) :=
  match scores with
  | [] => Ok (fst best)
  | score :: rest =>
      let maintainability :=
        ComparisonEngine.scoreOrZero (criteriaScores score) MAINTAINABILITY in
      let scalability :=
        ComparisonEngine.scoreOrZero (criteriaScores score) SCALABILITY in
      match metadata (option_ score) with
      | None => Throw typeError
      | Some data =>
          let vendorSupport :=
            match enterpriseFeatures data with
            | Some features => inject_Z (Z.of_nat (List.length features))
            | None => 0
            end in
          let enterpriseScore :=
            (maintainability + scalability) / 2 + vendorSupport * 2 in
          findBestEnterpriseFrom rest
            (if ltb (snd best) enterpriseScore
             then (Some (option_ score), enterpriseScore)
             else best)
      end
  end.

Definition findBestOptionForEnterprise (result : EvaluationResult)
  : Result (Datatypes.option TechnicalOption) :=
  findBestEnterpriseFrom (scores result) (None, - (1)).

Record AlternativeScenario := {
  scenario : string;
  recommendedOption : TechnicalOption;
  reasoning : string
}.

(** [`${Math.round(score)}`] *)
Definition showInteger (z : Z) : string :=
  DecimalString.NilZero.string_of_int (Z.to_int z).

Definition createPriorityScenario (priority : string) (option : TechnicalOption)
  (result : EvaluationResult) : Datatypes.option AlternativeScenario :=
  match Obj.get [ ("cost", "cost optimization");
                  ("performance", "maximum performance");
                  ("easeOfUse", "ease of implementation");
                  ("scalability", "future scalability");
                  ("vendorLockIn", "vendor independence") ] priority with
  | None => None
  | Some priorityName =>
      if String.eqb priorityName "" then None
      else
        let optionScore := findByName (scores result) (name option) in
        let criterionName := mapPriorityToCriterion priority in
        let score :=
          match optionScore with
          | Some s => ComparisonEngine.scoreOrZero (criteriaScores s) criterionName
          | None => 0
          end in
        Some {| scenario := "If " ++ priorityName ++ " becomes your top priority";
                recommendedOption := option;
                reasoning :=
                  name option ++ " excels in "
                  ++ toLowerCase (formatCriterionName criterionName) ++ " "
                  ++ "(" ++ showInteger (round score)
                  ++ "/100), making it the optimal choice for this focus area." |}
  end.

Definition generatePriorityBasedScenarios (result : EvaluationResult)
  (constraints : UserConstraints) : list AlternativeScenario :=
  match rankings result with
  | [] => []
  | top :: _ =>
      let currentTopOption := ranked_option top in
      flat_map
        (fun priority =>
           let currentTopPriority := getTopPriority (priorities constraints) in
           let priorityCriterion := mapPriorityToCriterion priority in
           if String.eqb priorityCriterion currentTopPriority then []
           else
             match findBestOptionForCriterion result priorityCriterion with
             | Some bestForPriority =>
                 if negb (String.eqb (name bestForPriority) (name currentTopOption))
                 then
                   match createPriorityScenario priority bestForPriority result with
                   | Some scenario => [scenario]
                   | None => []
                   end
                 else []
             | None => []
             end)
        ["cost"; "performance"; "easeOfUse"; "scalability"; "vendorLockIn"]
  end.

(** One [if] block of the context and scale scenarios. *)
Definition scenarioFor (best : Datatypes.option TechnicalOption)
  (currentTopOption : TechnicalOption) (title : string)
  (reasoningOf : string -> string) : list AlternativeScenario :=
  match best with
  | Some bestOption =>
      if negb (String.eqb (name bestOption) (name currentTopOption)) then
        [ {| scenario := title; recommendedOption := bestOption;
             reasoning := reasoningOf (name bestOption) |} ]
      else []
  | None => []
  end.

Definition generateContextBasedScenarios (result : EvaluationResult)
  (constraints : UserConstraints) : list AlternativeScenario :=
  match rankings result with
  | [] => []
  | top :: _ =>
      let currentTopOption := ranked_option top in
      let budgetScenario :=
        match budget constraints with
        | BudgetLow => []
        | _ =>
            scenarioFor (findBestOptionForCriterion result COST) currentTopOption
              "If budget becomes a primary concern"
              (fun n => n ++ " offers the best cost-effectiveness, "
                        ++ "making it ideal for budget-constrained projects.")
        end in
      let timelineScenario :=
        match timeline constraints with
        | Immediate => []
        | _ =>
            scenarioFor (findBestOptionForCriterion result LEARNING_CURVE)
              currentTopOption
              "If you need immediate deployment"
              (fun n => n ++ " has the shortest learning curve, "
                        ++ "enabling faster implementation and deployment.")
        end in
      let teamScenario :=
        match skillLevel (team constraints) with
        | Junior => []
        | _ =>
            scenarioFor (findBestOptionForCriterion result PERFORMANCE)
              currentTopOption
              "If your team has strong technical expertise"
              (fun n => n ++ " offers superior performance, "
                        ++ "which experienced teams can fully leverage despite complexity.")
        end in
      (budgetScenario ++ timelineScenario ++ teamScenario)%list
  end.

Definition generateScaleBasedScenarios (result : EvaluationResult)
  (constraints : UserConstraints) : Result (list AlternativeScenario) :=
  match rankings result with
  | [] => Ok []
  | top :: _ =>
      let currentTopOption := ranked_option top in
      let highScale :=
        if leb (users (scale constraints)) 100000 then
          scenarioFor (findBestOptionForCriterion result SCALABILITY) currentTopOption
            "If you expect rapid growth to millions of users"
            (fun n => n ++ " excels at horizontal scaling, "
                      ++ "making it the better choice for high-growth scenarios.")
        else [] in
      match findBestOptionForEnterprise result with
      | Throw msg => Throw msg
      | Ok bestEnterpriseOption =>
          let enterprise :=
            scenarioFor bestEnterpriseOption currentTopOption
              "If this becomes an enterprise-critical system"
              (fun n => n ++ " provides enterprise-grade features "
                        ++ "and support that become crucial for mission-critical applications.") in
          Ok (highScale ++ enterprise)%list
      end
  end.

Definition generateAlternativeScenarios (result : EvaluationResult)
  (constraints : UserConstraints) : Result (list AlternativeScenario) :=
  match rankings result with
  | [] => Ok []
  | _ :: _ =>
      if (List.length (rankings result) <? 2)%nat then Ok []
      else
        let priorityScenarios := generatePriorityBasedScenarios result constraints in
        let contextScenarios := generateContextBasedScenarios result constraints in
        match generateScaleBasedScenarios result constraints with
        | Throw msg => Throw msg
        | Ok scaleScenarios =>
            Ok (firstn 4 (priorityScenarios ++ contextScenarios ++ scaleScenarios)%list)
        end
  end.

End OutputGenerator.

(** ** [components/ConstraintCollector.ts]

    The constraints are typed: the checks of a missing field, of a value
    outside of an enumeration and of a value that is not a number or not
    an array never fire and are left out. *)

Module ConstraintCollector.
Import JS.

Definition result (errors : list ValidationError) (warnings : list string)
  : ValidationResult :=
  {| isValid := match errors with [] => true | _ => false end;
     errors := errors; warnings := warnings |}.

Definition validateBudget (budget : Budget) : ValidationResult := result [] [].

Definition validateScale (scale : Scale) : ValidationResult :=
  result
    (if ltb (users scale) 0 then
       [ {| field := "scale.users"; message := "User count cannot be negative";
            code := "USERS_NEGATIVE" |} ]
     else [])
    (if ltb (users scale) 0 then []
     else if Qeq_bool (users scale) 0 then
       [ "User count is zero - consider if this is realistic for your use case" ]
     else if ltb 1000000 (users scale) then
       [ "Very high user count detected - ensure scalability is prioritized" ]
     else []).

(** [team.experience.forEach((tech, index) => ...)] *)
Fixpoint experienceErrors (experience : list string) (index : nat)
  : list ValidationError :=
  match experience with
  | [] => []
  | tech :: rest =>
      (if trim_is_empty tech then
         [ {| field := "team.experience[" ++ ComparisonEngine.showIndex index ++ "]";
              message := "Experience entries must be non-empty strings";
              code := "EXPERIENCE_ENTRY_INVALID" |} ]
       else [])
      ++ experienceErrors rest (S index)
  end%list.

Definition validateTeam (team : Team) : ValidationResult :=
  result
    (experienceErrors (experience team) 0)
    (match experience team, skillLevel team with
     | [], Junior =>
         [ "Junior team with no listed experience - consider prioritizing ease of use" ]
     | _, _ => []
     end).

Definition validateTimeline (timeline : Timeline) : ValidationResult :=
  result []
    (match timeline with
     | Immediate =>
         [ "Immediate timeline may limit technology options - consider prioritizing ease of use" ]
     | _ => []
     end).

(** [Object.values(priorities)] *)
Definition priorityValues (priorities : Priorities) : list Q :=
  [ cost priorities; performance priorities; easeOfUse priorities;
    scalability priorities; vendorLockIn priorities ].

(** The loop over [requiredPriorities]. *)
Definition priorityErrors (priorities : Priorities) : list ValidationError :=
  flat_map
    (fun pv =>
       if ltb (snd pv) 1 || ltb 5 (snd pv) then
         [ {| field := "priorities." ++ fst pv;
              message := fst pv ++ " priority must be between 1 and 5";
              code := "PRIORITY_OUT_OF_RANGE" |} ]
       else [])
    [ ("cost", cost priorities); ("performance", performance priorities);
      ("easeOfUse", easeOfUse priorities); ("scalability", scalability priorities);
      ("vendorLockIn", vendorLockIn priorities) ].

Definition validatePriorities (priorities : Priorities) : ValidationResult :=
  let values := priorityValues priorities in
  result
    (priorityErrors priorities)
    ((if forallb (fun v => Qeq_bool v (cost priorities)) values then
        [ "All priorities have the same weight - consider differentiating based on your specific needs" ]
      else [])
     ++ (if forallb (fun v => Qeq_bool v 1) values then
           [ "All priorities set to minimum - this may not provide meaningful differentiation" ]
         else if forallb (fun v => Qeq_bool v 5) values then
           [ "All priorities set to maximum - consider which factors are most important" ]
         else []))%list.

Definition validateConstraints (constraints : UserConstraints) : ValidationResult :=
  let budgetValidation := validateBudget (budget constraints) in
  let scaleValidation := validateScale (scale constraints) in
  let teamValidation := validateTeam (team constraints) in
  let timelineValidation := validateTimeline (timeline constraints) in
  let prioritiesValidation := validatePriorities (priorities constraints) in
  result
    (errors budgetValidation ++ errors scaleValidation ++ errors teamValidation
     ++ errors timelineValidation ++ errors prioritiesValidation)%list
    (warnings budgetValidation ++ warnings scaleValidation ++ warnings teamValidation
     ++ warnings timelineValidation ++ warnings prioritiesValidation)%list.

End ConstraintCollector.

(** ** The merge of [components/ConstraintUpdateManager.ts]

    [UserConstraintUpdates]: a field of an update is absent ([None]) or
    holds a value of its type. *)

Module ConstraintUpdateManager.

Record ScaleUpdates := {
  upd_users : option Q;
  upd_traffic : option Traffic
}.

Record TeamUpdates := {
  upd_skillLevel : option SkillLevel;
  upd_experience : option (list string)
}.

Record PriorityUpdates := {
  upd_cost : option Q;
  upd_performance : option Q;
  upd_easeOfUse : option Q;
  upd_scalability : option Q;
  upd_vendorLockIn : option Q
}.

Record UserConstraintUpdates := {
  upd_budget : option Budget;
  upd_scale : option ScaleUpdates;
  upd_team : option TeamUpdates;
  upd_timeline : option Timeline;
  upd_priorities : option PriorityUpdates
}.

(** One field of [{ ...current, ...updates }]. *)
Definition spread {A} (current : A) (update : option A) : A :=
  match update with
  | Some v => v
  | None => current
  end.

Definition mergeConstraints (current : UserConstraints)
  (updates : UserConstraintUpdates) : UserConstraints :=
  {| budget := spread (budget current) (upd_budget updates);
     scale :=
       match upd_scale updates with
       | Some s =>
           {| users := spread (users (scale current)) (upd_users s);
              traffic := spread (traffic (scale current)) (upd_traffic s) |}
       | None => scale current
       end;
     team :=
       match upd_team updates with
       | Some t =>
           {| skillLevel := spread (skillLevel (team current)) (upd_skillLevel t);
              experience := spread (experience (team current)) (upd_experience t) |}
       | None => team current
       end;
     timeline := spread (timeline current) (upd_timeline updates);
     priorities :=
       match upd_priorities updates with
       | Some p =>
           {| cost := spread (cost (priorities current)) (upd_cost p);
              performance :=
                spread (performance (priorities current)) (upd_performance p);
              easeOfUse := spread (easeOfUse (priorities current)) (upd_easeOfUse p);
              scalability :=
                spread (scalability (priorities current)) (upd_scalability p);
              vendorLockIn :=
                spread (vendorLockIn (priorities current)) (upd_vendorLockIn p) |}
       | None => priorities current
       end |}.

(** [if (x !== undefined) fields.push(name)]; the keys of
    [updates.priorities] are visited in the order in which the type
    declares them. *)
Definition named {A} (update : option A) (fieldName : string) : list string :=
  match update with
  | Some _ => [fieldName]
  | None => []
  end.

Definition getModifiedFields (updates : UserConstraintUpdates) : list string :=
  (named (upd_budget updates) "budget"
   ++ named (upd_timeline updates) "timeline"
   ++ match upd_scale updates with
      | Some s => named (upd_users s) "scale.users"
                  ++ named (upd_traffic s) "scale.traffic"
      | None => []
      end
   ++ match upd_team updates with
      | Some t => named (upd_skillLevel t) "team.skillLevel"
                  ++ named (upd_experience t) "team.experience"
      | None => []
      end
   ++ match upd_priorities updates with
      | Some p => named (upd_cost p) "priorities.cost"
                  ++ named (upd_performance p) "priorities.performance"
                  ++ named (upd_easeOfUse p) "priorities.easeOfUse"
                  ++ named (upd_scalability p) "priorities.scalability"
                  ++ named (upd_vendorLockIn p) "priorities.vendorLockIn"
      | None => []
      end)%list.

(** The empty objects [{}] that [extractPreviousValues] starts from. *)
Definition noUpdates : UserConstraintUpdates :=
  {| upd_budget := None; upd_scale := None; upd_team := None;
     upd_timeline := None; upd_priorities := None |}.

Definition noScale : ScaleUpdates := {| upd_users := None; upd_traffic := None |}.

Definition noTeam : TeamUpdates :=
  {| upd_skillLevel := None; upd_experience := None |}.

Definition noPriorities : PriorityUpdates :=
  {| upd_cost := None; upd_performance := None; upd_easeOfUse := None;
     upd_scalability := None; upd_vendorLockIn := None |}.

(** [field.split('.')[1]] for a field that holds a dot. *)
Fixpoint untilDot (s : string) : string :=
  match s with
  | EmptyString => EmptyString
  | String c r => if Ascii.eqb c "." then EmptyString else String c (untilDot r)
  end.

Fixpoint secondPart (field : string) : string :=
  match field with
  | EmptyString => EmptyString
  | String c r => if Ascii.eqb c "." then untilDot r else secondPart r
  end.

(** [previous.priorities[priorityKey] = constraints.priorities[priorityKey]];
    a key that is none of the five would copy [undefined]. *)
Definition copyPriority (previous : PriorityUpdates) (priorityKey : string)
  (current : Priorities) : PriorityUpdates :=
  if String.eqb priorityKey "cost" then
    {| upd_cost := Some (cost current);
       upd_performance := upd_performance previous;
       upd_easeOfUse := upd_easeOfUse previous;
       upd_scalability := upd_scalability previous;
       upd_vendorLockIn := upd_vendorLockIn previous |}
  else if String.eqb priorityKey "performance" then
    {| upd_cost := upd_cost previous;
       upd_performance := Some (performance current);
       upd_easeOfUse := upd_easeOfUse previous;
       upd_scalability := upd_scalability previous;
       upd_vendorLockIn := upd_vendorLockIn previous |}
  else if String.eqb priorityKey "easeOfUse" then
    {| upd_cost := upd_cost previous;
       upd_performance := upd_performance previous;
       upd_easeOfUse := Some (easeOfUse current);
       upd_scalability := upd_scalability previous;
       upd_vendorLockIn := upd_vendorLockIn previous |}
  else if String.eqb priorityKey "scalability" then
    {| upd_cost := upd_cost previous;
       upd_performance := upd_performance previous;
       upd_easeOfUse := upd_easeOfUse previous;
       upd_scalability := Some (scalability current);
       upd_vendorLockIn := upd_vendorLockIn previous |}
  else if String.eqb priorityKey "vendorLockIn" then
    {| upd_cost := upd_cost previous;
       upd_performance := upd_performance previous;
       upd_easeOfUse := upd_easeOfUse previous;
       upd_scalability := upd_scalability previous;
       upd_vendorLockIn := Some (vendorLockIn current) |}
  else previous.

(** The callback of [modifiedFields.forEach] in [extractPreviousValues]. *)
Definition extractField (constraints : UserConstraints)
  (previous : UserConstraintUpdates) (field : string) : UserConstraintUpdates :=
  if String.eqb field "budget" then
    {| upd_budget := Some (budget constraints); upd_scale := upd_scale previous;
       upd_team := upd_team previous; upd_timeline := upd_timeline previous;
       upd_priorities := upd_priorities previous |}
  else if String.eqb field "timeline" then
    {| upd_budget := upd_budget previous; upd_scale := upd_scale previous;
       upd_team := upd_team previous; upd_timeline := Some (timeline constraints);
       upd_priorities := upd_priorities previous |}
  else if String.prefix "scale." field then
    let s := match upd_scale previous with Some s => s | None => noScale end in
    let s :=
      if String.eqb field "scale.users" then
        {| upd_users := Some (users (scale constraints));
           upd_traffic := upd_traffic s |}
      else s in
    let s :=
      if String.eqb field "scale.traffic" then
        {| upd_users := upd_users s;
           upd_traffic := Some (traffic (scale constraints)) |}
      else s in
    {| upd_budget := upd_budget previous; upd_scale := Some s;
       upd_team := upd_team previous; upd_timeline := upd_timeline previous;
       upd_priorities := upd_priorities previous |}
  else if String.prefix "team." field then
    let t := match upd_team previous with Some t => t | None => noTeam end in
    let t :=
      if String.eqb field "team.skillLevel" then
        {| upd_skillLevel := Some (skillLevel (team constraints));
           upd_experience := upd_experience t |}
      else t in
    let t :=
      if String.eqb field "team.experience" then
        {| upd_skillLevel := upd_skillLevel t;
           upd_experience := Some (experience (team constraints)) |}
      else t in
    {| upd_budget := upd_budget previous; upd_scale := upd_scale previous;
       upd_team := Some t; upd_timeline := upd_timeline previous;
       upd_priorities := upd_priorities previous |}
  else if String.prefix "priorities." field then
    let p := match upd_priorities previous with Some p => p | None => noPriorities end in
    let priorityKey := secondPart field in
    {| upd_budget := upd_budget previous; upd_scale := upd_scale previous;
       upd_team := upd_team previous; upd_timeline := upd_timeline previous;
       upd_priorities := Some (copyPriority p priorityKey (priorities constraints)) |}
  else previous.

Definition extractPreviousValues (constraints : UserConstraints)
  (modifiedFields : list string) : UserConstraintUpdates :=
  fold_left (extractField constraints) modifiedFields noUpdates.

End ConstraintUpdateManager.

(** ** The sources on free-form values

    [types/core.ts] declares [metadata: Record<string, any>], and
    [validateSingleOption] checks at run time what a caller outside of the
    type checker may pass as an option or as its name.  This module embeds
    the validation, [processOption], the backend framework table and the
    scoring of one option on such values.  A score is then a rational or
    NaN.  Symbols, BigInts and objects with methods of their own are not
    represented. *)

Module Untyped.
Import JS.

(** *** Numbers *)

Inductive Number :=
| Fin (q : Q)
| NaN.

(** [a + b] and [a * b]: NaN as soon as an operand is NaN. *)
Definition add (a b : Number) : Number :=
  match a, b with
  | Fin x, Fin y => Fin (x + y)
  | _, _ => NaN
  end.

Definition mul (a b : Number) : Number :=
  match a, b with
  | Fin x, Fin y => Fin (x * y)
  | _, _ => NaN
  end.

(** [a / b] for a rational [b] other than 0. *)
Definition div (a : Number) (b : Q) : Number :=
  match a with
  | Fin x => Fin (x / b)
  | NaN => NaN
  end.

(** [a >= b] and [a > b]: a comparison with NaN is false. *)
Definition geb (a : Number) (b : Q) : bool :=
  match a with
  | Fin x => leb b x
  | NaN => false
  end.

Definition gtb (a : Number) (b : Q) : bool :=
  match a with
  | Fin x => ltb b x
  | NaN => false
  end.

(** [Math.min(100, Math.max(0, x))]: [Math.max] and [Math.min] return NaN
    when an argument is NaN. *)
Definition clamp (x : Number) : Number :=
  match x with
  | Fin q => Fin (JS.clamp q)
  | NaN => NaN
  end.

(** [Math.round]. *)
Definition round (x : Number) : Number :=
  match x with
  | Fin q => Fin (inject_Z (JS.round q))
  | NaN => NaN
  end.

(** A score within the bounds of section 8; NaN is not. *)
Definition inBounds (x : Number) : Prop :=
  match x with
  | Fin q => 0 <= q <= 100
  | NaN => False
  end.

(** *** Values

    A JavaScript value, by what the sources observe of it: the answer of
    [typeof], its truthiness, the number that [*], [>=] and [>] take it
    for, and the text that a template string prints.  A value whose
    [typeof] is [string] is the string [toString]. *)
Record Value := {
  typeof : string;
  toBoolean : bool;
  toNumber : Number;
  toString : string
}.

Definition undefined : Value :=
  {| typeof := "undefined"; toBoolean := false; toNumber := NaN;
     toString := "undefined" |}.

(** A natural number below 10^21. *)
Definition number (n : N) : Value :=
  {| typeof := "number"; toBoolean := negb (N.eqb n 0);
     toNumber := Fin (inject_Z (Z.of_N n));
     toString := DecimalString.NilZero.string_of_uint (N.to_uint n) |}.

(** A string that is neither blank nor the text of a number: [Number(s)]
    is NaN. *)
Definition word (s : string) : Value :=
  {| typeof := "string"; toBoolean := negb (String.eqb s ""); toNumber := NaN;
     toString := s |}.

(** The empty array [[]]. *)
Definition emptyArray : Value :=
  {| typeof := "object"; toBoolean := true; toNumber := Fin 0; toString := "" |}.

(** [true]. *)
Definition yes : Value :=
  {| typeof := "boolean"; toBoolean := true; toNumber := Fin 1; toString := "true" |}.

(** [v === undefined]. *)
Definition isUndefined (v : Value) : bool := String.eqb (typeof v) "undefined".

(** [v === lit] for a string literal. *)
Definition strIs (v : Value) (lit : string) : bool :=
  String.eqb (typeof v) "string" && String.eqb (toString v) lit.

(** [v && p(v)] on the number that the comparison takes [v] for. *)
Definition andNum (v : Value) (p : Number -> bool) : bool :=
  toBoolean v && p (toNumber v).

(** [o[k]] for a key [k] that is no property of [Object.prototype]. *)
Definition prop (o : list (string * Value)) (k : string) : Value :=
  match Obj.get o k with
  | Some v => v
  | None => undefined
  end.

(** [{ ...target, ...source }]. *)
Definition spread (target source : list (string * Value)) : list (string * Value) :=
  fold_left (fun o kv => Obj.set o (fst kv) (snd kv)) source target.

(** [TechnicalOption] as [types/core.ts] declares it; [None] is a
    missing, [undefined] or [null] metadata. *)
Record TechnicalOption := {
  name : string;
  category : string;
  metadata : option (list (string * Value))
}.

Record EvaluationCriteria := {
  crit_name : string;
  weight : Q;
  scoringFunction : TechnicalOption -> Result Number
}.

Record ScoringRule := {
  rule_name : string;
  condition : TechnicalOption -> Result bool;
  scoreAdjustment : Q;
  affectedCriteria : list string
}.

Record DomainKnowledge := {
  dk_category : string;
  criteria : list EvaluationCriteria;
  scoringRules : list ScoringRule
}.

Record OptionScore := {
  option_ : TechnicalOption;
  criteriaScores : list (string * Number);
  weightedScore : Number;
  normalizedScore : Number
}.

(** *** Backend framework scoring functions *)

(** [if (!data) return 50;] followed by the body of a scoring function. *)
Definition withData (option : TechnicalOption)
  (body : list (string * Value) -> Number) : Number :=
  match metadata option with
  | None => Fin 50
  | Some data => body data
  end.

Definition scoreBackendCost (option : TechnicalOption) : Number :=
  withData option (fun data =>
    let language := prop data "language" in
    let developmentSpeed := prop data "developmentSpeed" in
    let score := Fin 50 in
    let score := add score (Fin 15) in
    let score := add score (Fin
      (if strIs language "javascript" || strIs language "python" then 10
       else if strIs language "java" || strIs language "c#" then 5 else 0)) in
    let score := add score (Fin
      (if andNum developmentSpeed (fun n => geb n 8) then 15
       else if andNum developmentSpeed (fun n => geb n 6) then 10 else 0)) in
    clamp score).

Definition scoreBackendPerformance (option : TechnicalOption) : Number :=
  withData option (fun data =>
    let performanceRating := prop data "performanceRating" in
    let score := Fin 30 in
    let score :=
      if toBoolean performanceRating
      then add score (mul (toNumber performanceRating) (Fin 7))
      else score in
    clamp score).

Definition scoreBackendScalability (option : TechnicalOption) : Number :=
  withData option (fun data =>
    let performanceRating := prop data "performanceRating" in
    let enterpriseAdoption := prop data "enterpriseAdoption" in
    let score := Fin 50 in
    let score := add score (Fin
      (if andNum performanceRating (fun n => geb n 8) then 20
       else if andNum performanceRating (fun n => geb n 6) then 15
       else if andNum performanceRating (fun n => geb n 4) then 10 else 0)) in
    let score := add score (Fin
      (if andNum enterpriseAdoption (fun n => geb n 8) then 15
       else if andNum enterpriseAdoption (fun n => geb n 6) then 10 else 0)) in
    clamp score).

Definition scoreBackendLearningCurve (option : TechnicalOption) : Number :=
  withData option (fun data =>
    let developmentSpeed := prop data "developmentSpeed" in
    let learningCurve := prop data "learningCurve" in
    let score := Fin 30 in
    let score :=
      if toBoolean developmentSpeed
      then add score (mul (toNumber developmentSpeed) (Fin 5))
      else score in
    let score := add score (Fin
      (if strIs learningCurve "low" then 20
       else if strIs learningCurve "medium" then 10 else 0)) in
    clamp score).

Definition scoreBackendVendorLockIn (option : TechnicalOption) : Number :=
  withData option (fun data =>
    let language := prop data "language" in
    let packageEcosystem := prop data "packageEcosystem" in
    let score := Fin 70 in
    let score := add score (Fin
      (if strIs language "javascript" || strIs language "python"
          || strIs language "java" then 15 else 0)) in
    let score := add score (Fin
      (if andNum packageEcosystem (fun n => gtb n 100000) then 15
       else if andNum packageEcosystem (fun n => gtb n 50000) then 10 else 0)) in
    clamp score).

Definition scoreBackendMaintainability (option : TechnicalOption) : Number :=
  withData option (fun data =>
    let communitySize := prop data "communitySize" in
    let enterpriseAdoption := prop data "enterpriseAdoption" in
    let packageEcosystem := prop data "packageEcosystem" in
    let score := Fin 30 in
    let score := add score (Fin
      (if andNum communitySize (fun n => gtb n 100000) then 25
       else if andNum communitySize (fun n => gtb n 50000) then 20
       else if andNum communitySize (fun n => gtb n 10000) then 15 else 0)) in
    let score := add score (Fin
      (if andNum enterpriseAdoption (fun n => geb n 8) then 20
       else if andNum enterpriseAdoption (fun n => geb n 6) then 15
       else if andNum enterpriseAdoption (fun n => geb n 4) then 10 else 0)) in
    let score := add score (Fin
      (if andNum packageEcosystem (fun n => gtb n 100000) then 15
       else if andNum packageEcosystem (fun n => gtb n 50000) then 10 else 0)) in
    clamp score).

(** [data && data.field >= bound], coerced to a boolean by the caller's
    [if]. *)
Definition hasHighDevelopmentSpeed (option : TechnicalOption) : bool :=
  match metadata option with
  | None => false
  | Some data => geb (toNumber (prop data "developmentSpeed")) 8
  end.

Definition hasLargeCommunity (option : TechnicalOption) : bool :=
  match metadata option with
  | None => false
  | Some data => gtb (toNumber (prop data "communitySize")) 50000
  end.

Definition hasEnterpriseAdoption (option : TechnicalOption) : bool :=
  match metadata option with
  | None => false
  | Some data => geb (toNumber (prop data "enterpriseAdoption")) 7
  end.

Definition mkCriteria (fs : list (string * (TechnicalOption -> Number)))
  : list EvaluationCriteria :=
  map (fun nf => {| crit_name := fst nf; weight := 1;
                    scoringFunction := fun option => Ok (snd nf option) |}) fs.

Definition createBackendFrameworkKnowledge : DomainKnowledge :=
  {| dk_category := "backend";
     criteria := mkCriteria
       [ (COST, scoreBackendCost); (PERFORMANCE, scoreBackendPerformance);
         (SCALABILITY, scoreBackendScalability);
         (LEARNING_CURVE, scoreBackendLearningCurve);
         (VENDOR_LOCK_IN, scoreBackendVendorLockIn);
         (MAINTAINABILITY, scoreBackendMaintainability) ];
     scoringRules :=
       [ {| rule_name := "High Development Speed Bonus";
            condition := fun option => Ok (hasHighDevelopmentSpeed option);
            scoreAdjustment := 10;
            affectedCriteria := [LEARNING_CURVE] |};
         {| rule_name := "Large Community Bonus";
            condition := fun option => Ok (hasLargeCommunity option);
            scoreAdjustment := 8;
            affectedCriteria := [MAINTAINABILITY; LEARNING_CURVE] |};
         {| rule_name := "Enterprise Adoption Bonus";
            condition := fun option => Ok (hasEnterpriseAdoption option);
            scoreAdjustment := 6;
            affectedCriteria := [MAINTAINABILITY] |} ] |}.

Definition getGenericCriteria : list EvaluationCriteria :=
  mkCriteria
    [ (COST, fun _ => Fin 50); (PERFORMANCE, fun _ => Fin 50);
      (SCALABILITY, fun _ => Fin 50); (LEARNING_CURVE, fun _ => Fin 50);
      (VENDOR_LOCK_IN, fun _ => Fin 50); (MAINTAINABILITY, fun _ => Fin 50) ].

Definition getFallbackMetadata (category : string) : list (string * Value) :=
  if String.eqb category "cloud" then
    [ ("name", word "Unknown Cloud Provider");
      ("pricingModel", word "pay-as-you-go");
      ("serviceCount", number 50);
      ("enterpriseFeatures", emptyArray);
      ("learningCurve", word "medium");
      ("marketShare", number 5);
      ("regions", number 5);
      ("certifications", emptyArray) ]
  else if String.eqb category "backend" then
    [ ("name", word "Unknown Backend Framework");
      ("language", word "unknown");
      ("developmentSpeed", number 5);
      ("communitySize", number 10000);
      ("enterpriseAdoption", number 5);
      ("performanceRating", number 5);
      ("learningCurve", word "medium");
      ("packageEcosystem", number 10000) ]
  else if String.eqb category "database" then
    [ ("name", word "Unknown Database");
      ("type", word "relational");
      ("schemaFlexibility", word "rigid");
      ("queryComplexity", word "moderate");
      ("horizontalScaling", word "good");
      ("consistencyModel", word "strong");
      ("acidCompliance", yes);
      ("performanceRating", number 5) ]
  else [].

(** *** Metadata validation (warnings of [validateSingleOption]) *)

(** [for (const field of required) if (metadata[field] === undefined) ...] *)
Definition missingFields (metadata : list (string * Value)) (required : list string)
  : list string :=
  map (fun field => "Missing required field: " ++ field)
      (filter (fun field => isUndefined (prop metadata field)) required).

(** [for (const field of numericFields)
      if (metadata[field] !== undefined && typeof metadata[field] !== 'number') ...] *)
Definition notNumeric (metadata : list (string * Value)) (numericFields : list string)
  : list string :=
  map (fun field => "Field " ++ field ++ " must be numeric")
      (filter (fun field =>
                 negb (isUndefined (prop metadata field))
                 && negb (String.eqb (typeof (prop metadata field)) "number"))
              numericFields).

(** [v && !allowed.includes(v)]. *)
Definition invalidEnum (v : Value) (allowed : list string) : bool :=
  toBoolean v && negb (existsb (strIs v) allowed).

Definition validateCloudProviderMetadata (metadata : list (string * Value))
  : list string :=
  missingFields metadata
    ["pricingModel"; "serviceCount"; "learningCurve"; "marketShare"; "regions"]
  ++ (if invalidEnum (prop metadata "pricingModel") ["pay-as-you-go"; "reserved"; "hybrid"]
      then ["Invalid pricing model"] else [])
  ++ (if invalidEnum (prop metadata "learningCurve") ["low"; "medium"; "high"]
      then ["Invalid learning curve value"] else []).

Definition validateBackendFrameworkMetadata (metadata : list (string * Value))
  : list string :=
  missingFields metadata
    ["language"; "developmentSpeed"; "communitySize"; "enterpriseAdoption";
     "performanceRating"]
  ++ notNumeric metadata
       ["developmentSpeed"; "communitySize"; "enterpriseAdoption"; "performanceRating"].

Definition validateDatabaseMetadata (metadata : list (string * Value))
  : list string :=
  missingFields metadata
    ["type"; "schemaFlexibility"; "queryComplexity"; "horizontalScaling";
     "consistencyModel"; "performanceRating"]
  ++ (if invalidEnum (prop metadata "type")
           ["relational"; "document"; "key-value"; "graph"; "columnar"]
      then ["Invalid database type"] else [])
  ++ (if invalidEnum (prop metadata "schemaFlexibility")
           ["rigid"; "flexible"; "schemaless"]
      then ["Invalid schema flexibility value"] else []).

(** Returns the [errors] array; [isValid] is [errors.length === 0]. *)
Definition validateOptionMetadata (option : TechnicalOption) : list string :=
  match metadata option with
  | None => ["Option metadata is missing"]
  | Some metadata =>
      if String.eqb (category option) "cloud" then
        validateCloudProviderMetadata metadata
      else if String.eqb (category option) "backend" then
        validateBackendFrameworkMetadata metadata
      else if String.eqb (category option) "database" then
        validateDatabaseMetadata metadata
      else []
  end.

(** *** The validation of [evaluate] *)

(** An element of the [options] array as a caller may pass it: [null],
    [undefined], or an object whose [name] is any value.  The category is
    a string (empty when it is missing) and the metadata an object or
    nothing. *)
Inductive Input :=
| Null
| Undefined
| Object (name : Value) (category : string)
         (metadata : option (list (string * Value))).

Definition validateOptionCount (options : list Input) : ValidationResult :=
  ComparisonEngine.mkResult
    (if (List.length options <? 2)%nat then
       [ {| field := "options";
            message := "At least 2 options are required for comparison";
            code := "OPTIONS_TOO_FEW" |} ]
     else if (3 <? List.length options)%nat then
       [ {| field := "options";
            message := "Maximum 3 options allowed for comparison";
            code := "OPTIONS_TOO_MANY" |} ]
     else [])
    [].

Definition optionNull (index : nat) : ValidationResult :=
  {| isValid := false;
     errors := [ {| field := "options[" ++ ComparisonEngine.showIndex index ++ "]";
                    message := "Option cannot be null or undefined";
                    code := "OPTION_NULL" |} ];
     warnings := [] |}.

Definition validateSingleOption (option : Input) (index : nat) : ValidationResult :=
  match option with
  | Null => optionNull index
  | Undefined => optionNull index
  | Object name category metadata =>
      let nameErrors :=
        if negb (String.eqb (typeof name) "string") then
          [ {| field := "options[" ++ ComparisonEngine.showIndex index ++ "].name";
               message := "Option name is required and must be a string";
               code := "OPTION_NAME_INVALID" |} ]
        else if trim_is_empty (toString name) then
          [ {| field := "options[" ++ ComparisonEngine.showIndex index ++ "].name";
               message := "Option name cannot be empty";
               code := "OPTION_NAME_EMPTY" |} ]
        else [] in
      let categoryErrors :=
        if String.eqb category "" then
          [ {| field := "options[" ++ ComparisonEngine.showIndex index ++ "].category";
               message := "Option category is required and must be a string";
               code := "OPTION_CATEGORY_INVALID" |} ]
        else [] in
      let categoryWarnings :=
        if String.eqb category "" then []
        else if arrIncludes ComparisonEngine.validCategories category then []
        else [ "Option " ++ toString name ++ " has unknown category '"
               ++ category ++ "' - will use generic evaluation" ] in
      let metadataWarnings :=
        match metadata with
        | None => [ "Option " ++ toString name
                    ++ " has no metadata - will use fallback values" ]
        | Some _ =>
            map (fun error => "Option " ++ toString name ++ " metadata issue: " ++ error)
                (validateOptionMetadata
                   {| name := toString name; category := category;
                      metadata := metadata |})
        end in
      ComparisonEngine.mkResult (nameErrors ++ categoryErrors)%list
                                (categoryWarnings ++ metadataWarnings)%list
  end.

(** The [forEach] of [validateNoDuplicates]: [option.name.toLowerCase()]
    throws a [TypeError] on a truthy name that is not a string. *)
Fixpoint duplicateErrors (options : list Input) (index : nat) (seen : list string)
  : Result (list ValidationError) :=
  match options with
  | [] => Ok []
  | Object name category _ :: rest =>
      if toBoolean name then
        if negb (String.eqb (typeof name) "string") then
          Throw "option.name.toLowerCase is not a function"
        else
          let key := toLowerCase (toString name) ++ "-" ++ category in
          if arrIncludes seen key then
            match duplicateErrors rest (S index) seen with
            | Ok errors =>
                Ok ({| field := "options[" ++ ComparisonEngine.showIndex index ++ "]";
                       message := "Duplicate option detected: " ++ toString name
                                  ++ " (" ++ category ++ ")";
                       code := "OPTION_DUPLICATE" |} :: errors)
            | Throw msg => Throw msg
            end
          else duplicateErrors rest (S index) (seen ++ [key])%list
      else duplicateErrors rest (S index) seen
  | _ :: rest => duplicateErrors rest (S index) seen
  end.

Definition validateNoDuplicates (options : list Input) : Result ValidationResult :=
  match duplicateErrors options 0 [] with
  | Ok errors => Ok (ComparisonEngine.mkResult errors [])
  | Throw msg => Throw msg
  end.

(** [options.map(option => option.category)]: reading the category of
    [null] or [undefined] throws a [TypeError]. *)
Fixpoint categoriesOf (options : list Input) : Result (list string) :=
  match options with
  | [] => Ok []
  | Null :: _ => Throw "Cannot read properties of null (reading 'category')"
  | Undefined :: _ => Throw "Cannot read properties of undefined (reading 'category')"
  | Object _ category _ :: rest =>
      match categoriesOf rest with
      | Ok categories => Ok (category :: categories)
      | Throw msg => Throw msg
      end
  end.

Definition validateCategoryConsistency (options : list Input)
  : Result ValidationResult :=
  match categoriesOf options with
  | Throw msg => Throw msg
  | Ok all =>
      let categories :=
        ComparisonEngine.newSet (filter (fun c => negb (String.eqb c "")) all) in
      Ok (ComparisonEngine.mkResult []
            (if (1 <? List.length categories)%nat then
               [ "Mixed categories detected: " ++ join ", " categories ++ ". "
                 ++ "Comparisons are most meaningful when all options are from the same category." ]
             else []))
  end.

Fixpoint validateEach (options : list Input) (index : nat) : list ValidationResult :=
  match options with
  | [] => []
  | option :: rest => validateSingleOption option index :: validateEach rest (S index)
  end.

Definition validateTechnicalOptions (options : list Input) : Result ValidationResult :=
  let countValidation := validateOptionCount options in
  if negb (isValid countValidation) then
    Ok {| isValid := false; errors := errors countValidation;
          warnings := warnings countValidation |}
  else
    let each := validateEach options 0 in
    match validateNoDuplicates options with
    | Throw msg => Throw msg
    | Ok duplicateValidation =>
        match validateCategoryConsistency options with
        | Throw msg => Throw msg
        | Ok categoryValidation =>
            Ok (ComparisonEngine.mkResult
                  (errors countValidation ++ flat_map errors each
                   ++ errors duplicateValidation ++ errors categoryValidation)%list
                  (warnings countValidation ++ flat_map warnings each
                   ++ warnings duplicateValidation ++ warnings categoryValidation)%list)
        end
    end.

(** The options that an accepted array hands to [processOptions]: each
    name is then a string. *)
Definition accepted (options : list Input) : list TechnicalOption :=
  flat_map
    (fun option =>
       match option with
       | Object name category metadata =>
           [ {| name := toString name; category := category; metadata := metadata |} ]
       | _ => []
       end)
    options.

(** [evaluate] up to its call of [processOptions]: the error that leaves
    it, or the options that go on to be scored. *)
Definition validated (options : list Input) : Result (list TechnicalOption) :=
  match validateTechnicalOptions options with
  | Throw msg => Throw msg
  | Ok optionValidation =>
      if negb (isValid optionValidation) then
        Throw ("Invalid options: " ++ join ", " (map message (errors optionValidation)))
      else Ok (accepted options)
  end.

(** *** Scoring one option *)

Section Registry.

(** The scoring functions and the rules of the cloud provider and of the
    database table read arrays and booleans out of the metadata; these two
    tables are left open, and what follows holds whatever they compute. *)
Variables createCloudProviderKnowledge createDatabaseKnowledge : DomainKnowledge.

(** The map filled by [initializeKnowledgeBase]. *)
Definition domainKnowledge : list (string * DomainKnowledge) :=
  Obj.set (Obj.set (Obj.set [] "cloud" createCloudProviderKnowledge)
                   "backend" createBackendFrameworkKnowledge)
          "database" createDatabaseKnowledge.

Definition getCriteriaForCategory (category : string) : list EvaluationCriteria :=
  match Obj.get domainKnowledge category with
  | None => getGenericCriteria
  | Some knowledge => criteria knowledge
  end.

Definition getScoringRulesForCategory (category : string) : list ScoringRule :=
  match Obj.get domainKnowledge category with
  | None => []
  | Some knowledge => scoringRules knowledge
  end.

Definition hasSpecificTechnologyData (option : TechnicalOption) : bool :=
  arrIncludes (KnowledgeBase.getKnownTechnologiesForCategory (category option))
              (toLowerCase (name option)).

Definition isKnownTechnology (option : TechnicalOption) : bool :=
  match Obj.get domainKnowledge (category option) with
  | None => false
  | Some _ => hasSpecificTechnologyData option
  end.

Definition getTechnologyMetadata (option : TechnicalOption)
  : Datatypes.option (list (string * Value)) :=
  if isKnownTechnology option then metadata option
  else Some (getFallbackMetadata (category option)).

(** [{ ...option, metadata: { ...fallbackMetadata, ...option.metadata } }];
    spreading [undefined] adds nothing. *)
Definition processOption (option : TechnicalOption) : TechnicalOption :=
  if isKnownTechnology option then option
  else
    let fallbackMetadata :=
      match getTechnologyMetadata option with Some m => m | None => [] end in
    let own := match metadata option with Some m => m | None => [] end in
    {| name := name option; category := category option;
       metadata := Some (spread (spread [] fallbackMetadata) own) |}.

(** A scoring function that throws is caught and counts 50. *)
Definition evaluateOption (option : TechnicalOption) : list (string * Number) :=
  fold_left
    (fun scores criterion =>
       Obj.set scores (crit_name criterion)
               (match scoringFunction criterion option with
                | Ok score => score
                | Throw _ => Fin 50
                end))
    (getCriteriaForCategory (category option)) [].

(** The inner loop of [applyScoreAdjustments] over [rule.affectedCriteria]. *)
Definition applyRule (rule : ScoringRule) (adjustedScores : list (string * Number))
  : list (string * Number) :=
  fold_left
    (fun scores criterionName =>
       match Obj.get scores criterionName with
       | Some v =>
           Obj.set scores criterionName (clamp (add v (Fin (scoreAdjustment rule))))
       | None => scores
       end)
    (affectedCriteria rule) adjustedScores.

(** A rule whose condition throws is skipped. *)
Definition applyScoreAdjustments (option : TechnicalOption)
  (baseScores : list (string * Number)) : list (string * Number) :=
  fold_left
    (fun adjustedScores rule =>
       match condition rule option with
       | Ok true => applyRule rule adjustedScores
       | _ => adjustedScores
       end)
    (getScoringRulesForCategory (category option)) baseScores.

Definition getComprehensiveEvaluation (option : TechnicalOption)
  : list (string * Number) :=
  applyScoreAdjustments option (evaluateOption option).

(** The loop of [calculateWeightedScore]: the pair is
    [(weightedSum, totalWeight)]; a score that is NaN is not [undefined]
    and enters the sum. *)
Definition accumulate (criteriaScores : list (string * Number))
  (mapping : list (string * Q)) : Number * Q :=
  fold_left
    (fun acc cw =>
       match Obj.get criteriaScores (fst cw) with
       | Some s => (add (fst acc) (mul s (Fin (snd cw))), snd acc + snd cw)
       | None => acc
       end)
    mapping (Fin 0, 0).

Definition calculateWeightedScore (criteriaScores : list (string * Number))
  (priorities : Priorities) : Number :=
  let normalizedPriorities := ComparisonEngine.normalizePriorities priorities in
  let emphasizedWeights :=
    ComparisonEngine.applyPriorityEmphasis normalizedPriorities priorities in
  let '(weightedSum, totalWeight) :=
    accumulate criteriaScores (ComparisonEngine.criteriaMapping emphasizedWeights) in
  if ltb 0 totalWeight then div weightedSum totalWeight else Fin 50.

Definition calculateOptionScore (option : TechnicalOption)
  (constraints : UserConstraints) : OptionScore :=
  let baseScores := getComprehensiveEvaluation option in
  let weightedScore := calculateWeightedScore baseScores (priorities constraints) in
  {| option_ := option; criteriaScores := baseScores;
     weightedScore := weightedScore; normalizedScore := round weightedScore |}.

Definition calculateScores (options : list TechnicalOption)
  (constraints : UserConstraints) : list OptionScore :=
  map (fun option => calculateOptionScore option constraints) options.

Definition calculateContextualAdjustments (option : TechnicalOption)
  (constraints : UserConstraints) : list (string * Q) :=
  let adjustments : list (string * Q) := [] in
  let adjustments :=
    match budget constraints with
    | BudgetLow => Obj.set adjustments COST 10
    | BudgetHigh => Obj.set adjustments PERFORMANCE 5
    | BudgetMedium => adjustments
    end in
  let adjustments :=
    match timeline constraints with
    | Immediate => Obj.set adjustments LEARNING_CURVE 15
    | Long => Obj.set adjustments SCALABILITY 10
    | _ => adjustments
    end in
  let adjustments :=
    match skillLevel (team constraints) with
    | Junior => Obj.set (Obj.set adjustments LEARNING_CURVE 10) MAINTAINABILITY 5
    | Senior => Obj.set adjustments PERFORMANCE 5
    | Mixed => adjustments
    end in
  let adjustments :=
    if existsb (fun exp => includes (toLowerCase exp) (toLowerCase (name option)))
               (experience (team constraints))
    then Obj.set (Obj.set adjustments LEARNING_CURVE 20) MAINTAINABILITY 10
    else adjustments in
  let adjustments :=
    if ltb 100000 (users (scale constraints))
       || match traffic (scale constraints) with TrafficHigh => true | _ => false end
    then Obj.set (Obj.set adjustments SCALABILITY 15) PERFORMANCE 10
    else adjustments in
  adjustments.

(** The loop of [applyContextualAdjustments] over
    [Object.entries(adjustments)]. *)
Definition adjustCriteria (criteriaScores : list (string * Number))
  (adjustments : list (string * Q)) : list (string * Number) :=
  fold_left
    (fun cs ca =>
       match Obj.get cs (fst ca) with
       | Some v => Obj.set cs (fst ca) (clamp (add v (Fin (snd ca))))
       | None => cs
       end)
    adjustments criteriaScores.

Definition applyContextualAdjustments (scores : list OptionScore)
  (constraints : UserConstraints) : list OptionScore :=
  map
    (fun score =>
       let adjustments := calculateContextualAdjustments (option_ score) constraints in
       let adjusted := adjustCriteria (criteriaScores score) adjustments in
       let weightedScore := calculateWeightedScore adjusted (priorities constraints) in
       {| option_ := option_ score; criteriaScores := adjusted;
          weightedScore := weightedScore;
          normalizedScore := round weightedScore |})
    scores.

End Registry.

End Untyped.

(** ** The specification's wording, for the comparisons below *)

Module Spec.
Import JS.

(** Section 4.4: the impact tier of a product [(scoreGap/100) * priority]. *)
Definition classify (impactScore : Q) : Impact :=
  if ltb (15 # 100) impactScore then ImpactHigh
  else if ltb (8 # 100) impactScore then ImpactMedium
  else ImpactLow.

(** Section 4.4: the scores of the options with another name on
    [criterion] (a missing score counts 0). *)
Definition otherScoresOn (optionScore : OptionScore) (allScores : list OptionScore)
  (criterion : string) : list Q :=
  map (fun s => ComparisonEngine.scoreOrZero (criteriaScores s) criterion)
      (filter (fun s => negb (String.eqb (name (option_ s))
                                         (name (option_ optionScore))))
              allScores).

(** Section 4.3: the contextual rules as data, in the order of the
    source: does the rule fire, the criterion it touches, its delta. *)
Definition familiar (option : TechnicalOption) (constraints : UserConstraints) : bool :=
  existsb (fun exp => includes (toLowerCase exp) (toLowerCase (name option)))
          (experience (team constraints)).

Definition atScale (constraints : UserConstraints) : bool :=
  ltb 100000 (users (scale constraints))
  || match traffic (scale constraints) with TrafficHigh => true | _ => false end.

Definition contextualRules (option : TechnicalOption) (constraints : UserConstraints)
  : list (bool * string * Q) :=
  let b := budget constraints in
  let t := timeline constraints in
  let s := skillLevel (team constraints) in
  [ (match b with BudgetLow => true | _ => false end, COST, 10);
    (match b with BudgetHigh => true | _ => false end, PERFORMANCE, 5);
    (match t with Immediate => true | _ => false end, LEARNING_CURVE, 15);
    (match t with Long => true | _ => false end, SCALABILITY, 10);
    (match s with Junior => true | _ => false end, LEARNING_CURVE, 10);
    (match s with Junior => true | _ => false end, MAINTAINABILITY, 5);
    (match s with Senior => true | _ => false end, PERFORMANCE, 5);
    (familiar option constraints, LEARNING_CURVE, 20);
    (familiar option constraints, MAINTAINABILITY, 10);
    (atScale constraints, SCALABILITY, 15);
    (atScale constraints, PERFORMANCE, 10) ].

(** Assignment of the deltas in rule order, [adjustments[criterion] = delta]
    for each rule that fires. *)
Definition assignRules (rules : list (bool * string * Q))
  (adjustments : list (string * Q)) : list (string * Q) :=
  fold_left
    (fun (adj : list (string * Q)) (r : bool * string * Q) =>
       if fst (fst r) then Obj.set adj (snd (fst r)) (snd r) else adj)
    rules adjustments.

(** The deltas of the rules that fire on [criterion], in source order. *)
Definition firing (rules : list (bool * string * Q)) (criterion : string) : list Q :=
  map snd (filter (fun r => fst (fst r) && String.eqb criterion (snd (fst r))) rules).

(** "Stack before clamping": the sum of the deltas that fire. *)
Definition stackedDelta (rules : list (bool * string * Q)) (criterion : string) : Q :=
  fold_right Qplus 0 (firing rules criterion).

(** The delta of the last rule that fires, if any does. *)
Definition lastDelta (rules : list (bool * string * Q)) (criterion : string)
  : Datatypes.option Q :=
  last (map Some (firing rules criterion)) None.

(** Section 4.2, step 2: the emphasis factor of a raw priority. *)
Definition emphasisFactor (raw : Q) : Q :=
  if Qeq_bool raw 1 then 5 # 10
  else if Qeq_bool raw 2 then 8 # 10
  else if Qeq_bool raw 3 then 1
  else if Qeq_bool raw 4 then 12 # 10
  else 15 # 10.

Definition sum5 (p : Priorities) : Q :=
  cost p + performance p + easeOfUse p + scalability p + vendorLockIn p.

(** Step 1: the raw priorities divided by their sum. *)
Definition normalized (raw : Priorities) : Priorities :=
  {| cost := cost raw / sum5 raw; performance := performance raw / sum5 raw;
     easeOfUse := easeOfUse raw / sum5 raw; scalability := scalability raw / sum5 raw;
     vendorLockIn := vendorLockIn raw / sum5 raw |}.

(** Step 2: each normalized weight times its factor, re-normalized. *)
Definition scaled (raw : Priorities) : Priorities :=
  let n := normalized raw in
  {| cost := cost n * emphasisFactor (cost raw);
     performance := performance n * emphasisFactor (performance raw);
     easeOfUse := easeOfUse n * emphasisFactor (easeOfUse raw);
     scalability := scalability n * emphasisFactor (scalability raw);
     vendorLockIn := vendorLockIn n * emphasisFactor (vendorLockIn raw) |}.

Definition emphasized (raw : Priorities) : Priorities :=
  let e := scaled raw in
  {| cost := cost e / sum5 e; performance := performance e / sum5 e;
     easeOfUse := easeOfUse e / sum5 e; scalability := scalability e / sum5 e;
     vendorLockIn := vendorLockIn e / sum5 e |}.

(** Step 3: the weights of the six criteria. *)
Definition criterionWeights (raw : Priorities) : list (string * Q) :=
  let e := emphasized raw in
  [ (COST, cost e); (PERFORMANCE, performance e); (SCALABILITY, scalability e);
    (LEARNING_CURVE, easeOfUse e); (VENDOR_LOCK_IN, vendorLockIn e);
    (MAINTAINABILITY, (3 # 10) * cost e + (2 # 10) * performance e) ].

(** Step 4: the weighted mean over the criteria present in the scores map. *)
Definition present (criteriaScores : list (string * Q)) (weights : list (string * Q))
  : list (Q * Q) :=
  flat_map (fun cw => match Obj.get criteriaScores (fst cw) with
                      | Some s => [(s, snd cw)]
                      | None => []
                      end) weights.

Definition sumProducts (sw : list (Q * Q)) : Q :=
  fold_right Qplus 0 (map (fun x => fst x * snd x) sw).

Definition sumWeights (sw : list (Q * Q)) : Q :=
  fold_right Qplus 0 (map snd sw).

Definition weightedMean (criteriaScores : list (string * Q)) (raw : Priorities) : Q :=
  match present criteriaScores (criterionWeights raw) with
  | [] => 50
  | sw => sumProducts sw / sumWeights sw
  end.

(** Two weight tables with the same keys and equal weights. *)
Definition sameWeights (m m' : list (string * Q)) : Prop :=
  Forall2 (fun a b => fst a = fst b /\ snd a == snd b) m m'.

(** A raw priority is one of 1, 2, 3, 4, 5. *)
Definition validPriority (p : Q) : Prop :=
  p == 1 \/ p == 2 \/ p == 3 \/ p == 4 \/ p == 5.

Definition validPriorities (p : Priorities) : Prop :=
  validPriority (cost p) /\ validPriority (performance p)
  /\ validPriority (easeOfUse p) /\ validPriority (scalability p)
  /\ validPriority (vendorLockIn p).

(** The data model's invariant on priorities, as a range. *)
Definition inRange15 (p : Priorities) : Prop :=
  (1 <= cost p <= 5) /\ (1 <= performance p <= 5) /\ (1 <= easeOfUse p <= 5)
  /\ (1 <= scalability p <= 5) /\ (1 <= vendorLockIn p <= 5).

(** Section 6: the name+category pair that identifies an option, the
    name up to letter case. *)
Definition identity (option : TechnicalOption) : string * string :=
  (toLowerCase (name option), category option).


(** No priority is negative. *)
Definition nonNegative (p : Priorities) : Prop :=
  0 <= cost p /\ 0 <= performance p /\ 0 <= easeOfUse p
  /\ 0 <= scalability p /\ 0 <= vendorLockIn p.

(** A score within the bounds of section 8. *)
Definition inBounds (x : Q) : Prop := 0 <= x <= 100.

Definition allInBounds (criteriaScores : list (string * Q)) : Prop :=
  Forall (fun cs => inBounds (snd cs)) criteriaScores.

(** The same level [k] on the five priorities. *)
Definition uniform (k : Q) : Priorities :=
  {| cost := k; performance := k; easeOfUse := k; scalability := k;
     vendorLockIn := k |}.

(** The six standard criteria, in the order of the knowledge tables. *)
Definition sixCriteria : list string :=
  [COST; PERFORMANCE; SCALABILITY; LEARNING_CURVE; VENDOR_LOCK_IN; MAINTAINABILITY].

(** Two score maps with the same keys in the same order, the scores of
    the second at least those of the first. *)
Definition raised (cs cs' : list (string * Q)) : Prop :=
  Forall2 (fun a b => fst a = fst b /\ snd a <= snd b) cs cs'.

(** Two options that differ at most in the letter case of their names. *)
Definition sameUpToCase (a b : TechnicalOption) : Prop :=
  toLowerCase (name a) = toLowerCase (name b)
  /\ category a = category b /\ metadata a = metadata b.

(** A field that holds a value in [x] holds the same value in [y]. *)
Definition kept {A} (x y : Datatypes.option A) : Prop :=
  forall v, x = Some v -> y = Some v.

(** Every field of [own] that holds a value holds it in [merged] too. *)
Definition keepsFields (own merged : Metadata) : Prop :=
  kept (pricingModel own) (pricingModel merged)
  /\ kept (serviceCount own) (serviceCount merged)
  /\ kept (enterpriseFeatures own) (enterpriseFeatures merged)
  /\ kept (learningCurve own) (learningCurve merged)
  /\ kept (marketShare own) (marketShare merged)
  /\ kept (regions own) (regions merged)
  /\ kept (certifications own) (certifications merged)
  /\ kept (language own) (language merged)
  /\ kept (developmentSpeed own) (developmentSpeed merged)
  /\ kept (communitySize own) (communitySize merged)
  /\ kept (enterpriseAdoption own) (enterpriseAdoption merged)
  /\ kept (performanceRating own) (performanceRating merged)
  /\ kept (packageEcosystem own) (packageEcosystem merged)
  /\ kept (type own) (type merged)
  /\ kept (schemaFlexibility own) (schemaFlexibility merged)
  /\ kept (queryComplexity own) (queryComplexity merged)
  /\ kept (horizontalScaling own) (horizontalScaling merged)
  /\ kept (consistencyModel own) (consistencyModel merged)
  /\ kept (acidCompliance own) (acidCompliance merged).

(** The tiers of impact in increasing order. *)
Definition impactLevel (i : Impact) : nat :=
  match i with
  | ImpactLow => 0
  | ImpactMedium => 1
  | ImpactHigh => 2
  end.

(** An update that names priorities only. *)
Definition onlyPriorities (u : ConstraintUpdateManager.UserConstraintUpdates) : Prop :=
  ConstraintUpdateManager.upd_budget u = None
  /\ ConstraintUpdateManager.upd_scale u = None
  /\ ConstraintUpdateManager.upd_team u = None
  /\ ConstraintUpdateManager.upd_timeline u = None.

(** Section 8, validation: an input that is [null] or [undefined], or an
    option whose name is no string. *)
Definition nameless (i : Untyped.Input) : Prop :=
  match i with
  | Untyped.Object name _ _ => Untyped.typeof name <> "string"
  | _ => True
  end.



End Spec.

(** ** Fixtures: the concrete inputs of the examples *)

Module Fixtures.

(** The neutral score map of section 4.1. *)
Definition neutralScores : list (string * Q) :=
  [ (COST, 50); (PERFORMANCE, 50); (SCALABILITY, 50); (LEARNING_CURVE, 50);
    (VENDOR_LOCK_IN, 50); (MAINTAINABILITY, 50) ].

Definition svelte : TechnicalOption :=
  {| name := "Svelte"; category := "frontend"; metadata := None |}.

(** The default priorities (3 everywhere) in a neutral context. *)
Definition defaultConstraints : UserConstraints :=
  {| budget := BudgetMedium;
     scale := {| users := 1000; traffic := TrafficMedium |};
     team := {| skillLevel := Mixed; experience := [] |};
     timeline := MediumTerm;
     priorities := {| cost := 3; performance := 3; easeOfUse := 3;
                      scalability := 3; vendorLockIn := 3 |} |}.

(** Two options 21 points apart on cost, for a user who rates cost 1. *)
Definition mkOption (n : string) : TechnicalOption :=
  {| name := n; category := "frontend"; metadata := None |}.

Definition trailing : OptionScore :=
  {| option_ := mkOption "React"; criteriaScores := [(COST, 50)];
     weightedScore := 50; normalizedScore := 50 |}.

Definition leading : OptionScore :=
  {| option_ := mkOption "Vue"; criteriaScores := [(COST, 71)];
     weightedScore := 71; normalizedScore := 71 |}.

Definition lowPriorities : UserConstraints :=
  {| budget := BudgetMedium;
     scale := {| users := 1000; traffic := TrafficMedium |};
     team := {| skillLevel := Mixed; experience := [] |};
     timeline := MediumTerm;
     priorities := {| cost := 1; performance := 1; easeOfUse := 1;
                      scalability := 1; vendorLockIn := 1 |} |}.

(** The compromise that [identifyCompromises] emits for [trailing]. *)
Definition costCompromise : Compromise :=
  {| description := "Choosing React means accepting weaker cost performance";
     impact := ImpactHigh;
     compromise_affectedCriteria := [COST] |}.

(** An immediate timeline and a junior team: two rules on learningCurve. *)
Definition rushedJuniors : UserConstraints :=
  {| budget := BudgetMedium;
     scale := {| users := 1000; traffic := TrafficMedium |};
     team := {| skillLevel := Junior; experience := [] |};
     timeline := Immediate;
     priorities := {| cost := 3; performance := 3; easeOfUse := 3;
                      scalability := 3; vendorLockIn := 3 |} |}.

Definition neutralSvelte : OptionScore :=
  {| option_ := svelte; criteriaScores := neutralScores;
     weightedScore := 50; normalizedScore := 50 |}.

(** Two of the sample technologies of [getSampleTechnologies]. *)
Definition cloudMetadata (pricing : string) (services : Q)
  (features : list string) (curve : string) (share regionCount : Q)
  (certs : list string) : Metadata :=
  {| pricingModel := Some pricing; serviceCount := Some services;
     enterpriseFeatures := Some features; learningCurve := Some curve;
     marketShare := Some share; regions := Some regionCount;
     certifications := Some certs;
     language := None; developmentSpeed := None; communitySize := None;
     enterpriseAdoption := None; performanceRating := None;
     packageEcosystem := None; type := None; schemaFlexibility := None;
     queryComplexity := None; horizontalScaling := None;
     consistencyModel := None; acidCompliance := None |}.

Definition aws : TechnicalOption :=
  {| name := "AWS"; category := "cloud";
     metadata := Some (cloudMetadata "pay-as-you-go" 200
       ["IAM"; "CloudTrail"; "Config"; "Organizations"; "Control Tower"; "Security Hub"]
       "high" 32 25 ["SOC"; "ISO"; "HIPAA"; "PCI DSS"]) |}.

Definition gcp : TechnicalOption :=
  {| name := "GCP"; category := "cloud";
     metadata := Some (cloudMetadata "pay-as-you-go" 100
       ["IAM"; "Cloud Audit Logs"; "Resource Manager"; "Security Command Center"]
       "medium" 9 24 ["SOC"; "ISO"; "HIPAA"]) |}.

(** An option of a category unknown to the engine, without metadata. *)
Definition flutter : TechnicalOption :=
  {| name := "Flutter"; category := "mobile"; metadata := None |}.

(** [aws] again, in another letter case. *)
Definition awsLower : TechnicalOption :=
  {| name := "aws"; category := "cloud"; metadata := None |}.

(** Two options of different names and categories with one [duplicateKey]. *)
Definition hyphenA : TechnicalOption :=
  {| name := "a-b"; category := "c"; metadata := None |}.

Definition hyphenB : TechnicalOption :=
  {| name := "a"; category := "b-c"; metadata := None |}.

(** A store with one [OptionScore] object, at reference 0, whose
    [criteriaScores] is the object at reference 0 of the score maps. *)
Definition oneScore : ComparisonEngineHeap.Heap :=
  {| ComparisonEngineHeap.optionScoreObjs :=
       [ {| ComparisonEngineHeap.obj_option := svelte;
            ComparisonEngineHeap.obj_criteriaScores := 0%nat;
            ComparisonEngineHeap.obj_weightedScore := 50;
            ComparisonEngineHeap.obj_normalizedScore := 50 |} ];
     ComparisonEngineHeap.scoreMaps := [neutralScores] |}.

(** Two options whose six criterion scores are all 78 and all 77: their
    weighted scores are 78 and 77 under any priorities. *)
Definition flat (n : string) (v : Q) (r : Z) : OptionScore :=
  {| option_ := mkOption n;
     criteriaScores := [ (COST, v); (PERFORMANCE, v); (SCALABILITY, v);
                         (LEARNING_CURVE, v); (VENDOR_LOCK_IN, v);
                         (MAINTAINABILITY, v) ];
     weightedScore := v; normalizedScore := r |}.

Definition closeScores : list OptionScore := [flat "React" 78 78; flat "Vue" 77 77].

Definition closeResult : EvaluationResult :=
  {| scores := closeScores;
     rankings := ComparisonEngine.rankOptions closeScores;
     tradeOffs :=
       ComparisonEngine.generateTradeOffAnalysis closeScores defaultConstraints |}.

(** A result record with ranking scores 90 and 55 whose top option has a
    spiky profile: 1 on the five weighted criteria, 100 on
    maintainability. *)
Definition spiky : OptionScore :=
  {| option_ := mkOption "React";
     criteriaScores := [ (COST, 1); (PERFORMANCE, 1); (SCALABILITY, 1);
                         (LEARNING_CURVE, 1); (VENDOR_LOCK_IN, 1);
                         (MAINTAINABILITY, 100) ];
     weightedScore := 90; normalizedScore := 90 |}.

Definition wideScores : list OptionScore := [spiky; flat "Vue" 55 55].

Definition wideResult : EvaluationResult :=
  {| scores := wideScores;
     rankings := ComparisonEngine.rankOptions wideScores;
     tradeOffs :=
       ComparisonEngine.generateTradeOffAnalysis wideScores defaultConstraints |}.

(** The inputs of the test 'should apply priority emphasis correctly'. *)
Definition awsReserved : TechnicalOption :=
  {| name := "AWS"; category := "cloud";
     metadata := Some {| pricingModel := Some "reserved"; serviceCount := Some 200;
                         enterpriseFeatures := None; learningCurve := Some "high";
                         marketShare := Some 32; regions := Some 25;
                         certifications := None; language := None;
                         developmentSpeed := None; communitySize := None;
                         enterpriseAdoption := None; performanceRating := None;
                         packageEcosystem := None; type := None;
                         schemaFlexibility := None; queryComplexity := None;
                         horizontalScaling := None; consistencyModel := None;
                         acidCompliance := None |} |}.

Definition digitalOcean : TechnicalOption :=
  {| name := "DigitalOcean"; category := "cloud";
     metadata := Some {| pricingModel := Some "pay-as-you-go"; serviceCount := Some 50;
                         enterpriseFeatures := None; learningCurve := Some "low";
                         marketShare := Some 3; regions := Some 8;
                         certifications := None; language := None;
                         developmentSpeed := None; communitySize := None;
                         enterpriseAdoption := None; performanceRating := None;
                         packageEcosystem := None; type := None;
                         schemaFlexibility := None; queryComplexity := None;
                         horizontalScaling := None; consistencyModel := None;
                         acidCompliance := None |} |}.

Definition costFocused : UserConstraints :=
  {| budget := BudgetLow;
     scale := {| users := 100; traffic := TrafficLow |};
     team := {| skillLevel := Junior; experience := [] |};
     timeline := Immediate;
     priorities := {| cost := 5; performance := 1; easeOfUse := 5;
                      scalability := 1; vendorLockIn := 1 |} |}.

Definition performanceFocused : UserConstraints :=
  {| budget := BudgetHigh;
     scale := {| users := 100000; traffic := TrafficHigh |};
     team := {| skillLevel := Senior; experience := ["AWS"] |};
     timeline := Long;
     priorities := {| cost := 1; performance := 5; easeOfUse := 1;
                      scalability := 5; vendorLockIn := 1 |} |}.

(** The names of the ranked options of an evaluation. *)
Definition rankedNames (r : Result EvaluationResult) : list string :=
  match r with
  | Ok result => map (fun ranked => name (ranked_option ranked)) (rankings result)
  | Throw _ => []
  end.

(** A backend framework that the knowledge base has no entry for,
    submitted without metadata. *)
Definition phoenix : TechnicalOption :=
  {| name := "Phoenix"; category := "backend"; metadata := None |}.

(** [awsLower] in upper case. *)
Definition awsUpper : TechnicalOption :=
  {| name := "AWS"; category := "cloud"; metadata := None |}.

(** A hand-built result whose top-ranked option has an empty score map. *)
Definition noScores : EvaluationResult :=
  {| scores := [ {| option_ := mkOption "React"; criteriaScores := [];
                    weightedScore := 50; normalizedScore := 50 |};
                 flat "Vue" 40 40 ];
     rankings := [ {| ranked_option := mkOption "React"; rank := 1; score := 50 |};
                   {| ranked_option := mkOption "Vue"; rank := 2; score := 40 |} ];
     tradeOffs := {| strongestOption := []; weakestOption := []; compromises := [] |} |}.

(** A front-end option with metadata, scoring [c] on cost and [v] on the
    five other criteria. *)
Definition frontend (n : string) (c v : Q) (w : Q) : OptionScore :=
  {| option_ := {| name := n; category := "frontend";
                   metadata := Some emptyMetadata |};
     criteriaScores := [ (COST, c); (PERFORMANCE, v); (SCALABILITY, v);
                         (LEARNING_CURVE, v); (VENDOR_LOCK_IN, v);
                         (MAINTAINABILITY, v) ];
     weightedScore := w; normalizedScore := JS.round w |}.

(** React leads overall, Vue leads on cost. *)
Definition costLeader : EvaluationResult :=
  {| scores := [frontend "React" 40 80 74; frontend "Vue" 90 60 65];
     rankings := ComparisonEngine.rankOptions
                   [frontend "React" 40 80 74; frontend "Vue" 90 60 65];
     tradeOffs := ComparisonEngine.generateTradeOffAnalysis
                    [frontend "React" 40 80 74; frontend "Vue" 90 60 65]
                    defaultConstraints |}.

(** An update of two priorities. *)
Definition costFirst : ConstraintUpdateManager.UserConstraintUpdates :=
  {| ConstraintUpdateManager.upd_budget := None;
     ConstraintUpdateManager.upd_scale := None;
     ConstraintUpdateManager.upd_team := None;
     ConstraintUpdateManager.upd_timeline := None;
     ConstraintUpdateManager.upd_priorities :=
       Some {| ConstraintUpdateManager.upd_cost := Some 5;
               ConstraintUpdateManager.upd_performance := Some 1;
               ConstraintUpdateManager.upd_easeOfUse := None;
               ConstraintUpdateManager.upd_scalability := None;
               ConstraintUpdateManager.upd_vendorLockIn := None |} |}.

(** A backend framework that the knowledge base does not know, with a
    [performanceRating] that is a word:
    [{ name: 'Phoenix', category: 'backend',
       metadata: { performanceRating: 'fast' } }]. *)
Definition phoenixFast : Untyped.TechnicalOption :=
  {| Untyped.name := "Phoenix"; Untyped.category := "backend";
     Untyped.metadata := Some [ ("performanceRating", Untyped.word "fast") ] |}.

(** [{ name: 'Django', category: 'backend', metadata: {} }]. *)
Definition djangoPlain : Untyped.TechnicalOption :=
  {| Untyped.name := "Django"; Untyped.category := "backend";
     Untyped.metadata := Some [] |}.

Definition phoenixFastInput : Untyped.Input :=
  Untyped.Object (Untyped.word "Phoenix") "backend"
                 (Some [ ("performanceRating", Untyped.word "fast") ]).

Definition djangoInput : Untyped.Input :=
  Untyped.Object (Untyped.word "Django") "backend" (Some []).

(** [{ category: 'backend', metadata: {} }] and
    [{ name: 5, category: 'backend', metadata: {} }]. *)
Definition nameless : Untyped.Input :=
  Untyped.Object Untyped.undefined "backend" (Some []).

Definition numbered : Untyped.Input :=
  Untyped.Object (Untyped.number 5) "backend" (Some []).

End Fixtures.
Import Fixtures.

(** * Verification *)

(** ** Numbers and objects *)

Section Basics.

Lemma ltb_spec (a b : Q) : JS.ltb a b = true <-> a < b.
Proof.
  unfold JS.ltb. rewrite negb_true_iff.
  split; intro H.
  - apply Qnot_le_lt. intro Hle. apply Qle_bool_iff in Hle. congruence.
  - destruct (Qle_bool b a) eqn:E; [|reflexivity].
    apply Qle_bool_iff in E. exfalso. apply (Qlt_not_le _ _ H E).
Qed.

Lemma ltb_false (a b : Q) : JS.ltb a b = false <-> b <= a.
Proof.
  unfold JS.ltb. rewrite negb_false_iff. apply Qle_bool_iff.
Qed.

Lemma clamp_bounds (x : Q) : Spec.inBounds (JS.clamp x).
Proof.
  unfold Spec.inBounds, JS.clamp. split.
  - apply Q.min_glb; [discriminate | apply Q.le_max_l].
  - apply Q.le_min_l.
Qed.

Lemma clamp_id (x : Q) : Spec.inBounds x -> JS.clamp x == x.
Proof.
  intros [H0 H1]. unfold JS.clamp.
  rewrite (Q.max_r 0 x H0). apply Q.min_r. exact H1.
Qed.

Lemma fifty_bounds : Spec.inBounds 50.
Proof. split; discriminate. Qed.

Context {V : Type}.

Lemma get_set (o : list (string * V)) (k k' : string) (v : V) :
  Obj.get (Obj.set o k v) k' = if String.eqb k' k then Some v else Obj.get o k'.
Proof.
  induction o as [|[k0 v0] o IH]; simpl.
  - reflexivity.
  - destruct (String.eqb k k0) eqn:E; simpl.
    + apply String.eqb_eq in E. subst k0.
      destruct (String.eqb k' k); reflexivity.
    + destruct (String.eqb k' k0) eqn:E'.
      * apply String.eqb_eq in E'. subst k0.
        rewrite String.eqb_sym, E. reflexivity.
      * exact IH.
Qed.

Lemma get_set_same (o : list (string * V)) (k : string) (v : V) :
  Obj.get (Obj.set o k v) k = Some v.
Proof. rewrite get_set, String.eqb_refl. reflexivity. Qed.

Lemma keys_set_present (o : list (string * V)) (k : string) (v v0 : V) :
  Obj.get o k = Some v0 -> Obj.keys (Obj.set o k v) = Obj.keys o.
Proof.
  unfold Obj.keys.
  induction o as [|[k0 w] o IH]; simpl; [discriminate|].
  destruct (String.eqb k k0) eqn:E; simpl.
  - reflexivity.
  - intro H. rewrite (IH H). reflexivity.
Qed.

Lemma get_In (o : list (string * V)) (k : string) (v : V) :
  Obj.get o k = Some v -> In (k, v) o.
Proof.
  induction o as [|[k0 w] o IH]; simpl; [discriminate|].
  destruct (String.eqb k k0) eqn:E.
  - apply String.eqb_eq in E. intros [= ->]. left. congruence.
  - intro H. right. exact (IH H).
Qed.

Lemma In_get (o : list (string * V)) (k : string) (v : V) :
  In (k, v) o -> exists w, Obj.get o k = Some w.
Proof.
  induction o as [|[k0 w] o IH]; simpl; [contradiction|].
  intros [H|H].
  - injection H as -> ->. rewrite String.eqb_refl. eauto.
  - destruct (String.eqb k k0); eauto.
Qed.

(** Writing a value that satisfies [P] keeps [P] on all the values. *)
Lemma Forall_set (P : V -> Prop) (o : list (string * V)) (k : string) (v : V) :
  Forall (fun kv => P (snd kv)) o -> P v ->
  Forall (fun kv => P (snd kv)) (Obj.set o k v).
Proof.
  intros Ho Hv. induction Ho as [|[k0 w] o Hw Ho IH]; simpl.
  - constructor; [exact Hv | constructor].
  - destruct (String.eqb k k0); constructor; auto.
Qed.

End Basics.

(** ** Unknown categories (C6) *)

Section UnknownCategory.

Lemma unknown_category_lookup (c : string) :
  ~ In c ["cloud"; "backend"; "database"] ->
  Obj.get KnowledgeBase.domainKnowledge c = None.
Proof.
  intro H.
  unfold KnowledgeBase.domainKnowledge. simpl.
  destruct (String.eqb c "cloud") eqn:E1.
  { apply String.eqb_eq in E1. subst c. exfalso. apply H. simpl. tauto. }
  destruct (String.eqb c "backend") eqn:E2.
  { apply String.eqb_eq in E2. subst c. exfalso. apply H. simpl. tauto. }
  destruct (String.eqb c "database") eqn:E3.
  { apply String.eqb_eq in E3. subst c. exfalso. apply H. simpl. tauto. }
  reflexivity.
Qed.

Lemma processOption_category (o : TechnicalOption) :
  category (ComparisonEngine.processOption o) = category o.
Proof.
  unfold ComparisonEngine.processOption.
  destruct (KnowledgeBase.isKnownTechnology o); [reflexivity|].
  destruct (KnowledgeBase.getTechnologyMetadata o); reflexivity.
Qed.

Lemma processOption_name (o : TechnicalOption) :
  name (ComparisonEngine.processOption o) = name o.
Proof.
  unfold ComparisonEngine.processOption.
  destruct (KnowledgeBase.isKnownTechnology o); [reflexivity|].
  destruct (KnowledgeBase.getTechnologyMetadata o); reflexivity.
Qed.

Lemma unknown_category_evaluation (o : TechnicalOption) :
  ~ In (category o) ["cloud"; "backend"; "database"] ->
  KnowledgeBase.getComprehensiveEvaluation o = neutralScores.
Proof.
  intro H. apply unknown_category_lookup in H.
  unfold KnowledgeBase.getComprehensiveEvaluation,
    KnowledgeBase.applyScoreAdjustments, KnowledgeBase.evaluateOption,
    KnowledgeBase.getScoringRulesForCategory,
    KnowledgeBase.getCriteriaForCategory.
  rewrite H. reflexivity.
Qed.

(** C6: an option whose category has no entry in the knowledge base gets
    no scoring rule, every criterion's scoring function answers 50 on it,
    and its six criterion scores are exactly 50 when [evaluate] scores it
    (after [processOption], before the contextual adjustments). *)
Theorem C6_unknown_category_scores_fifty
    (o : TechnicalOption) (constraints : UserConstraints) :
  ~ In (category o) ["cloud"; "backend"; "database"] ->
  KnowledgeBase.getScoringRulesForCategory (category o) = []
  /\ map crit_name (KnowledgeBase.getCriteriaForCategory (category o))
     = [COST; PERFORMANCE; SCALABILITY; LEARNING_CURVE; VENDOR_LOCK_IN; MAINTAINABILITY]
  /\ Forall (fun c => forall o', scoringFunction c o' = 50)
            (KnowledgeBase.getCriteriaForCategory (category o))
  /\ KnowledgeBase.getComprehensiveEvaluation o = neutralScores
  /\ criteriaScores
       (ComparisonEngine.calculateOptionScore (ComparisonEngine.processOption o)
                                              constraints)
     = neutralScores.
Proof.
  intro H. pose proof (unknown_category_lookup _ H) as Hget.
  unfold KnowledgeBase.getScoringRulesForCategory,
    KnowledgeBase.getCriteriaForCategory.
  rewrite Hget. repeat split.
  - repeat constructor.
  - apply unknown_category_evaluation. exact H.
  - simpl. apply unknown_category_evaluation.
    rewrite processOption_category. exact H.
Qed.

Lemma C6_witness :
  ~ In (category svelte) ["cloud"; "backend"; "database"]
  /\ KnowledgeBase.getComprehensiveEvaluation svelte = neutralScores.
Proof.
  assert (H : ~ In (category svelte) ["cloud"; "backend"; "database"]).
  { simpl. intros [H|[H|[H|[]]]]; discriminate H. }
  split; [exact H|].
  exact (proj1 (proj2 (proj2 (proj2
    (C6_unknown_category_scores_fifty svelte defaultConstraints H))))).
Defined.

End UnknownCategory.

(** ** Compromises and their impact (C2, C10) *)

Section Compromises.
Import ComparisonEngine.

Lemma determineImpact_classify (d p : Q) :
  determineImpact d p = Spec.classify ((d / 100) * p).
Proof. reflexivity. Qed.

(** Every compromise comes from one criterion of the option on which the
    best other option is more than 20 points ahead. *)
Lemma compromise_inv (optionScore : OptionScore) (allScores : list OptionScore)
    (constraints : UserConstraints) (c : Compromise) :
  In c (identifyCompromises optionScore allScores constraints) ->
  exists criterion s maxOther,
    In (criterion, s) (criteriaScores optionScore)
    /\ mathMax (Spec.otherScoresOn optionScore allScores criterion) = Some maxOther
    /\ 20 < maxOther - s
    /\ impact c = determineImpact (maxOther - s)
                    (getCriterionPriority criterion (priorities constraints))
    /\ compromise_affectedCriteria c = [criterion].
Proof.
  unfold identifyCompromises. intro H.
  apply in_flat_map in H. destruct H as [[criterion s] [Hin Hc]].
  simpl in Hc. fold (Spec.otherScoresOn optionScore allScores criterion) in Hc.
  destruct (mathMax (Spec.otherScoresOn optionScore allScores criterion))
    as [m|] eqn:Hmax; [|contradiction].
  destruct (JS.ltb 20 (m - s)) eqn:Hgap; [|contradiction].
  destruct Hc as [Hc|[]]. subst c. simpl.
  exists criterion, s, m. repeat split; auto.
  apply ltb_spec. exact Hgap.
Qed.

Lemma priority_at_least_one (criterion : string) (p : Priorities) :
  Spec.inRange15 p -> 1 <= getCriterionPriority criterion p.
Proof.
  intros (Hc & Hp & He & Hs & Hv). unfold getCriterionPriority.
  repeat match goal with
         | |- context [if ?b then _ else _] => destruct b
         end; try tauto.
  - apply Qle_trans with (cost p); [tauto | apply Q.le_max_l].
  - discriminate.
Qed.

Lemma gap_over_20_is_high (d p : Q) :
  20 <= d -> 1 <= p -> determineImpact d p = ImpactHigh.
Proof.
  intros Hd Hp. unfold determineImpact.
  assert (H : 15 # 100 < d / 100 * p).
  { apply Qlt_le_trans with (20 / 100 * 1); [reflexivity|].
    apply Qle_trans with (d / 100 * 1).
    - apply Qmult_le_compat_r; [|discriminate].
      unfold Qdiv. apply Qmult_le_compat_r; [exact Hd | discriminate].
    - apply Qmult_le_l; [|exact Hp].
      apply Qlt_le_trans with (20 / 100); [reflexivity|].
      unfold Qdiv. apply Qmult_le_compat_r; [exact Hd | discriminate]. }
  apply ltb_spec in H. rewrite H. reflexivity.
Qed.

(** Statement C2 fails on its example: a 20-point gap on a criterion of
    priority 1 is classified high, not low; so is the 21-point gap of an
    emitted compromise. *)
Lemma C2_counterexample :
  determineImpact 20 1 = ImpactHigh
  /\ determineImpact 20 1 <> ImpactLow
  /\ map impact (identifyCompromises trailing [trailing; leading] lowPriorities)
     = [ImpactHigh].
Proof. repeat split. discriminate. Qed.

(** C2, amended: every compromise emitted by [identifyCompromises] comes
    from a criterion on which the option trails the best other option by
    more than 20 points, and its impact is the tier of
    (scoreGap / 100) x priority (high above 0.15, medium above 0.08, low
    otherwise); a 20-point gap is classified high for every priority of
    at least 1, the lowest priority included. *)
Theorem C2_impact_is_classified_product
    (optionScore : OptionScore) (allScores : list OptionScore)
    (constraints : UserConstraints) (c : Compromise) :
  In c (identifyCompromises optionScore allScores constraints) ->
  (exists criterion s maxOther,
     In (criterion, s) (criteriaScores optionScore)
     /\ mathMax (Spec.otherScoresOn optionScore allScores criterion) = Some maxOther
     /\ 20 < maxOther - s
     /\ impact c = Spec.classify
                     (((maxOther - s) / 100)
                      * getCriterionPriority criterion (priorities constraints)))
  /\ (forall p, 1 <= p -> determineImpact 20 p = ImpactHigh).
Proof.
  intro H. split.
  - destruct (compromise_inv _ _ _ _ H) as (k & s & m & H1 & H2 & H3 & H4 & _).
    exists k, s, m. rewrite <- determineImpact_classify. auto.
  - intros p Hp. apply gap_over_20_is_high; [discriminate | exact Hp].
Qed.

Lemma C2_witness :
  In costCompromise (identifyCompromises trailing [trailing; leading] lowPriorities)
  /\ forall p, 1 <= p -> determineImpact 20 p = ImpactHigh.
Proof.
  assert (H : In costCompromise
                 (identifyCompromises trailing [trailing; leading] lowPriorities)).
  { left. reflexivity. }
  split; [exact H|].
  exact (proj2 (C2_impact_is_classified_product
                  trailing [trailing; leading] lowPriorities costCompromise H)).
Defined.

(** C10: when the five priorities lie in [1,5], every compromise emitted
    by [identifyCompromises] has impact high. *)
Theorem C10_compromises_are_always_high
    (optionScore : OptionScore) (allScores : list OptionScore)
    (constraints : UserConstraints) :
  Spec.inRange15 (priorities constraints) ->
  Forall (fun c => impact c = ImpactHigh)
         (identifyCompromises optionScore allScores constraints).
Proof.
  intro Hp. apply Forall_forall. intros c Hc.
  destruct (compromise_inv _ _ _ _ Hc) as (k & s & m & _ & _ & Hgap & Himp & _).
  rewrite Himp. apply gap_over_20_is_high.
  - apply Qlt_le_weak. exact Hgap.
  - apply priority_at_least_one. exact Hp.
Qed.

Lemma C10_witness :
  Spec.inRange15 (priorities lowPriorities)
  /\ Forall (fun c => impact c = ImpactHigh)
            (identifyCompromises trailing [trailing; leading] lowPriorities).
Proof.
  assert (H : Spec.inRange15 (priorities lowPriorities)).
  { unfold Spec.inRange15. simpl. repeat split; discriminate. }
  split; [exact H|].
  exact (C10_compromises_are_always_high trailing [trailing; leading] lowPriorities H).
Defined.

End Compromises.

(** ** Contextual adjustments (C1) *)

Section ContextualAdjustments.
Import ComparisonEngine.

Lemma adjustments_as_rules (o : TechnicalOption) (c : UserConstraints) :
  calculateContextualAdjustments o c
  = Spec.assignRules (Spec.contextualRules o c) [].
Proof.
  unfold calculateContextualAdjustments, Spec.assignRules, Spec.contextualRules,
    Spec.familiar, Spec.atScale.
  destruct (budget c), (timeline c), (skillLevel (team c));
    destruct (existsb _ (experience (team c)));
    destruct (JS.ltb 100000 (users (scale c)) || _);
    reflexivity.
Qed.

Lemma lastDelta_cons (r : bool * string * Q) (rules : list (bool * string * Q))
    (k : string) :
  Spec.lastDelta (r :: rules) k
  = match Spec.lastDelta rules k with
    | Some d => Some d
    | None => if fst (fst r) && String.eqb k (snd (fst r)) then Some (snd r) else None
    end.
Proof.
  unfold Spec.lastDelta, Spec.firing. simpl.
  set (l := map Some (map snd (filter _ rules))).
  assert (Hl : l = [] \/ exists d, last l None = Some d).
  { subst l. induction (map snd _) as [|x xs IH]; [left; reflexivity|].
    right. destruct IH as [E|[d E]].
    - destruct xs; [|discriminate]. exists x. reflexivity.
    - simpl map. destruct (map Some xs) eqn:Exs.
      + destruct xs; discriminate.
      + exists d. exact E. }
  destruct (fst (fst r) && String.eqb k (snd (fst r))); simpl; fold l.
  - destruct Hl as [->|[d E]]; [reflexivity|].
    destruct l; [discriminate|]. rewrite E. reflexivity.
  - destruct Hl as [->|[d E]]; [reflexivity|]. rewrite E. reflexivity.
Qed.

(** A key holds the delta of the last rule that fired on it. *)
Lemma get_assignRules (rules : list (bool * string * Q)) (adj : list (string * Q))
    (k : string) :
  Obj.get (Spec.assignRules rules adj) k
  = match Spec.lastDelta rules k with
    | Some d => Some d
    | None => Obj.get adj k
    end.
Proof.
  revert adj. induction rules as [|[[b c] d] rules IH]; intro adj.
  - reflexivity.
  - rewrite lastDelta_cons. unfold Spec.assignRules in *. simpl.
    rewrite IH. destruct (Spec.lastDelta rules k); [reflexivity|].
    destruct b; simpl; [|reflexivity].
    rewrite get_set. destruct (String.eqb k c); reflexivity.
Qed.

Lemma get_None_not_key {V} (o : list (string * V)) (k : string) :
  Obj.get o k = None <-> ~ In k (Obj.keys o).
Proof.
  unfold Obj.keys. induction o as [|[k0 v] o IH]; simpl.
  - tauto.
  - destruct (String.eqb k k0) eqn:E.
    + apply String.eqb_eq in E. subst. split; [discriminate | tauto].
    + apply String.eqb_neq in E. rewrite IH. split; [|tauto].
      intros H [H'|H']; [congruence | tauto].
Qed.

Lemma keys_set_absent {V} (o : list (string * V)) (k : string) (v : V) :
  Obj.get o k = None -> Obj.keys (Obj.set o k v) = (Obj.keys o ++ [k])%list.
Proof.
  unfold Obj.keys. induction o as [|[k0 w] o IH]; simpl; [reflexivity|].
  destruct (String.eqb k k0); [discriminate|].
  intro H. simpl. rewrite (IH H). reflexivity.
Qed.

Lemma NoDup_keys_set {V} (o : list (string * V)) (k : string) (v : V) :
  NoDup (Obj.keys o) -> NoDup (Obj.keys (Obj.set o k v)).
Proof.
  intro H. destruct (Obj.get o k) as [w|] eqn:E.
  - rewrite (keys_set_present _ _ _ _ E). exact H.
  - rewrite (keys_set_absent _ _ _ E).
    apply get_None_not_key in E.
    apply NoDup_app; [exact H | repeat constructor; simpl; tauto |].
    intros x Hx [<-|[]]. tauto.
Qed.

Lemma NoDup_keys_assignRules (rules : list (bool * string * Q))
    (adj : list (string * Q)) :
  NoDup (Obj.keys adj) -> NoDup (Obj.keys (Spec.assignRules rules adj)).
Proof.
  revert adj. induction rules as [|[[b c] d] rules IH]; intros adj H.
  - exact H.
  - unfold Spec.assignRules in *. simpl. apply IH.
    destruct b; [apply NoDup_keys_set|]; exact H.
Qed.

(** One pass over adjustments with distinct keys adds each delta once. *)
Lemma get_adjustCriteria (adj cs : list (string * Q)) (k : string) :
  NoDup (Obj.keys adj) ->
  Obj.get (adjustCriteria cs adj) k
  = match Obj.get cs k with
    | None => None
    | Some v =>
        match Obj.get adj k with
        | Some d => Some (JS.clamp (v + d))
        | None => Some v
        end
    end.
Proof.
  revert cs. induction adj as [|[k0 d0] adj IH]; intros cs Hnd.
  - simpl. destruct (Obj.get cs k); reflexivity.
  - unfold Obj.keys in Hnd. simpl in Hnd. inversion Hnd as [|? ? Hnotin Hnd']. subst.
    apply get_None_not_key in Hnotin.
    change (adjustCriteria cs ((k0, d0) :: adj))
      with (adjustCriteria
              (match Obj.get cs k0 with
               | Some v => Obj.set cs k0 (JS.clamp (v + d0))
               | None => cs
               end) adj).
    rewrite (IH _ Hnd').
    change (Obj.get ((k0, d0) :: adj) k)
      with (if String.eqb k k0 then Some d0 else Obj.get adj k).
    destruct (String.eqb k k0) eqn:E.
    + apply String.eqb_eq in E. subst k0. rewrite Hnotin.
      destruct (Obj.get cs k) as [v|] eqn:Ecs.
      * rewrite get_set_same. reflexivity.
      * rewrite Ecs. reflexivity.
    + destruct (Obj.get cs k0) as [v0|] eqn:Ecs0; [|reflexivity].
      rewrite get_set, E. reflexivity.
Qed.

(** Statement C1 fails: with an immediate timeline and a junior team
    the rules +15 and +10 on learningCurve would stack to +25, the code
    keeps the +10 of the later rule, and a score of 50 becomes 60. *)
Lemma C1_counterexample :
  Spec.stackedDelta (Spec.contextualRules svelte rushedJuniors) LEARNING_CURVE == 25
  /\ Obj.get (calculateContextualAdjustments svelte rushedJuniors) LEARNING_CURVE
     = Some 10
  /\ map (fun s => Obj.get (criteriaScores s) LEARNING_CURVE)
         (applyContextualAdjustments [neutralSvelte] rushedJuniors)
     = [Some 60]
  /\ ~ 60 == JS.clamp (50 + Spec.stackedDelta
                                (Spec.contextualRules svelte rushedJuniors)
                                LEARNING_CURVE).
Proof.
  repeat split. vm_compute. intro H. discriminate H.
Qed.

(** C1, amended: the contextual rules overlap without stacking.  For
    every option score and constraints, a criterion of the score map on
    which at least one rule fires receives the delta of the last such
    rule in source order (budget, timeline, team skill, team experience,
    scale), added once and clamped to [0,100]; the other criteria keep
    their score, and no criterion is added. *)
Theorem C1_last_firing_rule_wins
    (scores : list OptionScore) (constraints : UserConstraints) :
  map option_ (applyContextualAdjustments scores constraints) = map option_ scores
  /\ Forall2
       (fun score adjusted =>
          forall criterion,
            Obj.get (criteriaScores adjusted) criterion
            = match Obj.get (criteriaScores score) criterion with
              | None => None
              | Some v =>
                  match Spec.lastDelta
                          (Spec.contextualRules (option_ score) constraints)
                          criterion with
                  | Some d => Some (JS.clamp (v + d))
                  | None => Some v
                  end
              end)
       scores (applyContextualAdjustments scores constraints).
Proof.
  unfold applyContextualAdjustments. split.
  - rewrite map_map. reflexivity.
  - induction scores as [|s scores IH]; simpl; constructor; [|exact IH].
    intro k. simpl.
    rewrite adjustments_as_rules.
    rewrite get_adjustCriteria
      by (apply NoDup_keys_assignRules; constructor).
    rewrite get_assignRules. simpl Obj.get at 3.
    destruct (Obj.get (criteriaScores s) k); [|reflexivity].
    destruct (Spec.lastDelta _ k); reflexivity.
Qed.

End ContextualAdjustments.

(** ** Ranking (C7) *)

Section Ranking.
Import ComparisonEngine.

(** Non-increasing weighted scores. *)
Let desc (a b : OptionScore) : Prop := weightedScore b <= weightedScore a.

Lemma insertByScore_perm (a : OptionScore) (l : list OptionScore) :
  Permutation (insertByScore a l) (a :: l).
Proof.
  induction l as [|b l IH]; simpl.
  - apply Permutation_refl.
  - destruct (Qle_bool (weightedScore b - weightedScore a) 0).
    + apply Permutation_refl.
    + apply perm_trans with (b :: a :: l).
      * apply perm_skip. exact IH.
      * apply perm_swap.
Qed.

Lemma sortByScore_perm (l : list OptionScore) : Permutation (sortByScore l) l.
Proof.
  induction l as [|a l IH]; simpl.
  - apply perm_nil.
  - apply perm_trans with (a :: sortByScore l).
    + apply insertByScore_perm.
    + apply perm_skip. exact IH.
Qed.

Lemma comparator_le (a b : OptionScore) :
  Qle_bool (weightedScore b - weightedScore a) 0 = true <-> desc a b.
Proof.
  unfold desc. rewrite Qle_bool_iff. split; intro H; lra.
Qed.

Lemma insertByScore_sorted (a : OptionScore) (l : list OptionScore) :
  StronglySorted desc l -> StronglySorted desc (insertByScore a l).
Proof.
  induction 1 as [|b l Hl IH Hb]; simpl.
  - repeat constructor.
  - destruct (Qle_bool (weightedScore b - weightedScore a) 0) eqn:E.
    + apply comparator_le in E. constructor.
      * constructor; assumption.
      * constructor; [exact E|].
        eapply Forall_impl; [|exact Hb].
        intros c Hc. unfold desc in *. lra.
    + assert (Hba : desc b a).
      { unfold desc. destruct (Qlt_le_dec (weightedScore b) (weightedScore a)) as [Hlt|Hle].
        - exfalso. assert (H' : desc a b) by (unfold desc; lra).
          apply comparator_le in H'. congruence.
        - exact Hle. }
      constructor; [exact IH|].
      apply (Permutation_Forall (Permutation_sym (insertByScore_perm a l))).
      constructor; assumption.
Qed.

Lemma sortByScore_sorted (l : list OptionScore) : StronglySorted desc (sortByScore l).
Proof.
  induction l as [|a l IH]; simpl.
  - constructor.
  - apply insertByScore_sorted. exact IH.
Qed.

(** Stability: the options of any given score keep their input order. *)
Lemma insertByScore_stable (q : Q) (a : OptionScore) (l : list OptionScore) :
  filter (fun s => Qeq_bool (weightedScore s) q) (insertByScore a l)
  = filter (fun s => Qeq_bool (weightedScore s) q) (a :: l).
Proof.
  induction l as [|b l IH]; [reflexivity|].
  simpl insertByScore.
  destruct (Qle_bool (weightedScore b - weightedScore a) 0) eqn:E; [reflexivity|].
  simpl in *. rewrite IH.
  destruct (Qeq_bool (weightedScore a) q) eqn:Ea; [|reflexivity].
  destruct (Qeq_bool (weightedScore b) q) eqn:Eb; [|reflexivity].
  exfalso. apply Qeq_bool_iff in Ea, Eb.
  assert (H : desc a b) by (unfold desc; lra).
  apply comparator_le in H. congruence.
Qed.

Lemma sortByScore_stable (q : Q) (l : list OptionScore) :
  filter (fun s => Qeq_bool (weightedScore s) q) (sortByScore l)
  = filter (fun s => Qeq_bool (weightedScore s) q) l.
Proof.
  induction l as [|a l IH]; [reflexivity|].
  simpl sortByScore. rewrite insertByScore_stable.
  simpl. rewrite IH. reflexivity.
Qed.

Lemma mapi_rank (l : list OptionScore) (i : nat) :
  map rank
      (mapi (fun score index =>
               {| ranked_option := option_ score; rank := index + 1;
                  score := weightedScore score |}) l i)
  = seq (i + 1) (List.length l).
Proof.
  revert i. induction l as [|a l IH]; intro i; simpl; [reflexivity|].
  rewrite IH. replace (S i + 1)%nat with (S (i + 1)) by lia. reflexivity.
Qed.

Lemma mapi_as_map (l : list OptionScore) (i : nat) (A : Type) (g : TechnicalOption -> Q -> A) :
  map (fun r => g (ranked_option r) (score r))
      (mapi (fun score index =>
               {| ranked_option := option_ score; rank := index + 1;
                  score := weightedScore score |}) l i)
  = map (fun s => g (option_ s) (weightedScore s)) l.
Proof.
  revert i. induction l as [|a l IH]; intro i; simpl; [reflexivity|].
  rewrite IH. reflexivity.
Qed.

Lemma mapi_filter (l : list OptionScore) (i : nat) (q : Q) :
  map ranked_option
      (filter (fun r => Qeq_bool (score r) q)
         (mapi (fun score index =>
                  {| ranked_option := option_ score; rank := index + 1;
                     score := weightedScore score |}) l i))
  = map option_ (filter (fun s => Qeq_bool (weightedScore s) q) l).
Proof.
  revert i. induction l as [|a l IH]; intro i; simpl; [reflexivity|].
  destruct (Qeq_bool (weightedScore a) q); simpl; rewrite IH; reflexivity.
Qed.

Lemma mapi_In (l : list OptionScore) (i : nat) (r : RankedOption) :
  In r (mapi (fun score index =>
                {| ranked_option := option_ score; rank := index + 1;
                   score := weightedScore score |}) l i) ->
  exists s, In s l /\ score r = weightedScore s /\ ranked_option r = option_ s.
Proof.
  revert i. induction l as [|a l IH]; intro i; simpl; [contradiction|].
  intros [<-|H].
  - exists a. simpl. auto.
  - destruct (IH _ H) as [s [Hs Hr]]. exists s. auto.
Qed.

Lemma mapi_sorted (l : list OptionScore) (i : nat) :
  StronglySorted desc l ->
  StronglySorted (fun a b => score b <= score a)
    (mapi (fun score index =>
             {| ranked_option := option_ score; rank := index + 1;
                score := weightedScore score |}) l i).
Proof.
  intro H. revert i. induction H as [|a l Hl IH Ha]; intro i; simpl.
  - constructor.
  - constructor; [apply IH|].
    apply Forall_forall. intros r Hr.
    destruct (mapi_In _ _ _ Hr) as [s [Hin [Hs _]]].
    rewrite Forall_forall in Ha. specialize (Ha s Hin).
    unfold desc in Ha. simpl. rewrite Hs. exact Ha.
Qed.

Lemma ranks_are_positions (scores : list OptionScore) :
  map rank (rankOptions scores) = seq 1 (List.length scores)
  /\ List.length (rankOptions scores) = List.length scores.
Proof.
  unfold rankOptions. rewrite mapi_rank.
  rewrite (Permutation_length (sortByScore_perm scores)). split; [reflexivity|].
  rewrite <- (length_map rank (mapi _ _ _)), mapi_rank, length_seq.
  apply (Permutation_length (sortByScore_perm scores)).
Qed.

(** C7: [rankOptions] returns, for every list of option scores, the
    options of the input (each once) with the ranks 1..N in this order,
    by non-increasing weighted score, the options of equal weighted score
    in their input order. *)
Theorem C7_rankOptions_dense_ordered_stable (scores : list OptionScore) :
  map rank (rankOptions scores) = seq 1 (List.length scores)
  /\ Permutation (map (fun r => (ranked_option r, score r)) (rankOptions scores))
                 (map (fun s => (option_ s, weightedScore s)) scores)
  /\ StronglySorted (fun a b => score b <= score a) (rankOptions scores)
  /\ forall q,
       map ranked_option (filter (fun r => Qeq_bool (score r) q) (rankOptions scores))
       = map option_ (filter (fun s => Qeq_bool (weightedScore s) q) scores).
Proof.
  unfold rankOptions. repeat split.
  - rewrite mapi_rank.
    rewrite (Permutation_length (sortByScore_perm scores)). reflexivity.
  - rewrite (mapi_as_map _ 0%nat _ (fun o q => (o, q))).
    apply Permutation_map. apply sortByScore_perm.
  - apply mapi_sorted. apply sortByScore_sorted.
  - intro q. rewrite mapi_filter, sortByScore_stable. reflexivity.
Qed.

End Ranking.

(** ** The weighting engine (C4) *)

Section Weighting.
Import ComparisonEngine.

Ltac split_qeq :=
  repeat match goal with
         | |- context [Qeq_bool ?a ?b] =>
             let E := fresh "E" in
             destruct (Qeq_bool a b) eqn:E;
             [apply Qeq_bool_iff in E | apply Qeq_bool_neq in E]
         end.

Lemma validPriority_range (x : Q) : Spec.validPriority x -> 1 <= x <= 5.
Proof. intros [H|[H|[H|[H|H]]]]; rewrite H; split; discriminate. Qed.

Lemma getEmphasisFactor_table :
  getEmphasisFactor 1 == 5 # 10 /\ getEmphasisFactor 2 == 8 # 10
  /\ getEmphasisFactor 3 == 1 /\ getEmphasisFactor 4 == 12 # 10
  /\ getEmphasisFactor 5 == 15 # 10.
Proof. repeat split. Qed.

Lemma getEmphasisFactor_spec (x : Q) :
  Spec.validPriority x -> getEmphasisFactor x == Spec.emphasisFactor x.
Proof.
  intro H. unfold getEmphasisFactor, Spec.emphasisFactor.
  split_qeq; try reflexivity;
    destruct H as [H|[H|[H|[H|H]]]]; try contradiction; exfalso; lra.
Qed.

Lemma getEmphasisFactor_pos (x : Q) : 0 < getEmphasisFactor x.
Proof. unfold getEmphasisFactor. split_qeq; reflexivity. Qed.

Lemma div_pos (a t : Q) : 0 < a -> 0 < t -> 0 < a / t.
Proof. intros Ha Ht. apply Qlt_shift_div_l; [exact Ht | lra]. Qed.

Lemma div_nonneg (a t : Q) : 0 <= a -> 0 < t -> 0 <= a / t.
Proof. intros Ha Ht. apply Qle_shift_div_l; [exact Ht | lra]. Qed.

Lemma mul_pos (a b : Q) : 0 < a -> 0 < b -> 0 < a * b.
Proof. intros Ha Hb. rewrite <- (Qmult_0_l b). apply Qmult_lt_compat_r; assumption. Qed.

Lemma mul_nonneg (a b : Q) : 0 <= a -> 0 <= b -> 0 <= a * b.
Proof. intros Ha Hb. apply Qmult_le_0_compat; assumption. Qed.

(** With a positive sum the source normalizes as the specification says. *)
Lemma normalizePriorities_spec (p : Priorities) :
  0 < Spec.sum5 p -> normalizePriorities p = Spec.normalized p.
Proof.
  intro H. unfold normalizePriorities, Spec.normalized.
  fold (Spec.sum5 p).
  destruct (Qeq_bool (Spec.sum5 p) 0) eqn:E; [|reflexivity].
  apply Qeq_bool_iff in E. exfalso. lra.
Qed.

Lemma valid_sum_pos (p : Priorities) : Spec.validPriorities p -> 0 < Spec.sum5 p.
Proof.
  intros (Hc & Hp & He & Hs & Hv).
  apply validPriority_range in Hc, Hp, He, Hs, Hv.
  unfold Spec.sum5. lra.
Qed.

Lemma emphasisFactor_pos (x : Q) : 0 < Spec.emphasisFactor x.
Proof. unfold Spec.emphasisFactor. split_qeq; reflexivity. Qed.

Lemma scaled_pos (p : Priorities) :
  Spec.validPriorities p ->
  0 < cost (Spec.scaled p) /\ 0 < performance (Spec.scaled p)
  /\ 0 < easeOfUse (Spec.scaled p) /\ 0 < scalability (Spec.scaled p)
  /\ 0 < vendorLockIn (Spec.scaled p).
Proof.
  intro H. pose proof (valid_sum_pos p H) as Hsum.
  destruct H as (Hc & Hp & He & Hs & Hv).
  apply validPriority_range in Hc, Hp, He, Hs, Hv.
  unfold Spec.scaled, Spec.normalized. simpl.
  repeat split; apply mul_pos; try apply emphasisFactor_pos; apply div_pos; lra.
Qed.

(** The weights computed by the source are the emphasized weights of the
    specification. *)
Lemma applyPriorityEmphasis_spec (p : Priorities) :
  Spec.validPriorities p ->
  let e := applyPriorityEmphasis (normalizePriorities p) p in
  cost e == cost (Spec.emphasized p)
  /\ performance e == performance (Spec.emphasized p)
  /\ easeOfUse e == easeOfUse (Spec.emphasized p)
  /\ scalability e == scalability (Spec.emphasized p)
  /\ vendorLockIn e == vendorLockIn (Spec.emphasized p).
Proof.
  intro H. pose proof (valid_sum_pos p H) as Hsum.
  pose proof (scaled_pos p H) as (Sc & Sp & Se & Ss & Sv).
  destruct H as (Hc & Hp & He & Hs & Hv).
  rewrite (normalizePriorities_spec p Hsum).
  unfold applyPriorityEmphasis. cbn [cost performance easeOfUse scalability vendorLockIn].
  set (total := _ + _ + _ + _ + _).
  assert (Htotal : total == Spec.sum5 (Spec.scaled p)).
  { subst total. unfold Spec.sum5, Spec.scaled.
    cbn [cost performance easeOfUse scalability vendorLockIn].
    rewrite !getEmphasisFactor_spec by assumption. reflexivity. }
  assert (Hpos : JS.ltb 0 total = true).
  { apply ltb_spec. rewrite Htotal. unfold Spec.sum5. lra. }
  rewrite Hpos. unfold Spec.emphasized.
  cbn [cost performance easeOfUse scalability vendorLockIn].
  rewrite Htotal.
  unfold Spec.scaled at 1 3 5 7 9.
  cbn [cost performance easeOfUse scalability vendorLockIn].
  rewrite !getEmphasisFactor_spec by assumption.
  repeat split; reflexivity.
Qed.

Lemma emphasized_pos (p : Priorities) :
  Spec.validPriorities p ->
  0 < cost (Spec.emphasized p) /\ 0 < performance (Spec.emphasized p)
  /\ 0 < easeOfUse (Spec.emphasized p) /\ 0 < scalability (Spec.emphasized p)
  /\ 0 < vendorLockIn (Spec.emphasized p).
Proof.
  intro H. pose proof (scaled_pos p H) as (Sc & Sp & Se & Ss & Sv).
  unfold Spec.emphasized. cbn [cost performance easeOfUse scalability vendorLockIn].
  assert (0 < Spec.sum5 (Spec.scaled p)) by (unfold Spec.sum5; lra).
  repeat split; apply div_pos; assumption.
Qed.

Lemma emphasized_sum_one (p : Priorities) :
  Spec.validPriorities p -> Spec.sum5 (Spec.emphasized p) == 1.
Proof.
  intro H. pose proof (scaled_pos p H) as (Sc & Sp & Se & Ss & Sv).
  unfold Spec.emphasized.
  assert (Hne : ~ Spec.sum5 (Spec.scaled p) == 0) by (unfold Spec.sum5; lra).
  unfold Spec.sum5 at 1. cbn [cost performance easeOfUse scalability vendorLockIn].
  set (t := Spec.sum5 (Spec.scaled p)) in *.
  transitivity ((cost (Spec.scaled p) + performance (Spec.scaled p)
                 + easeOfUse (Spec.scaled p) + scalability (Spec.scaled p)
                 + vendorLockIn (Spec.scaled p)) / t).
  - field. exact Hne.
  - change (t / t == 1). field. exact Hne.
Qed.

(** *** The weighted mean *)

Import Spec.

Lemma sumProducts_cons (s w : Q) (sw : list (Q * Q)) :
  sumProducts ((s, w) :: sw) = s * w + sumProducts sw.
Proof. reflexivity. Qed.

Lemma sumWeights_cons (s w : Q) (sw : list (Q * Q)) :
  sumWeights ((s, w) :: sw) = w + sumWeights sw.
Proof. reflexivity. Qed.

Lemma accumulate_from (cs m : list (string * Q)) (acc : Q * Q) :
  let r := fold_left
             (fun acc cw =>
                match Obj.get cs (fst cw) with
                | Some s => (fst acc + s * snd cw, snd acc + snd cw)
                | None => acc
                end) m acc in
  fst r == fst acc + sumProducts (Spec.present cs m)
  /\ snd r == snd acc + sumWeights (Spec.present cs m).
Proof.
  revert acc. induction m as [|[k w] m IH]; intro acc.
  - simpl. unfold sumProducts, sumWeights. simpl. split; ring.
  - cbn [fold_left fst snd].
    destruct (IH (match Obj.get cs k with
                  | Some s => (fst acc + s * w, snd acc + w)
                  | None => acc
                  end)) as [IH1 IH2].
    cbv zeta. split.
    + rewrite IH1. unfold Spec.present. cbn [flat_map fst snd].
      fold (Spec.present cs m).
      destruct (Obj.get cs k) as [s|]; cbn [app fst snd].
      * rewrite sumProducts_cons. ring.
      * reflexivity.
    + rewrite IH2. unfold Spec.present. cbn [flat_map fst snd].
      fold (Spec.present cs m).
      destruct (Obj.get cs k) as [s|]; cbn [app fst snd].
      * rewrite sumWeights_cons. ring.
      * reflexivity.
Qed.

Lemma accumulate_spec (cs m : list (string * Q)) :
  fst (accumulate cs m) == sumProducts (Spec.present cs m)
  /\ snd (accumulate cs m) == sumWeights (Spec.present cs m).
Proof.
  destruct (accumulate_from cs m (0, 0)) as [H1 H2].
  cbv zeta in H1, H2. cbn [fst snd] in H1, H2.
  unfold accumulate. split.
  - rewrite H1. ring.
  - rewrite H2. ring.
Qed.

Lemma present_compat (cs m m' : list (string * Q)) :
  sameWeights m m' ->
  sumProducts (Spec.present cs m) == sumProducts (Spec.present cs m')
  /\ sumWeights (Spec.present cs m) == sumWeights (Spec.present cs m')
  /\ (Spec.present cs m = [] <-> Spec.present cs m' = []).
Proof.
  induction 1 as [|[k w] [k' w'] m m' [Hk Hw] Hm (IH1 & IH2 & IH3)].
  - repeat split; auto; reflexivity.
  - cbn [fst snd] in Hk, Hw. subst k'.
    unfold Spec.present. cbn [flat_map fst snd].
    fold (Spec.present cs m). fold (Spec.present cs m').
    destruct (Obj.get cs k) as [s|]; cbn [app].
    + rewrite !sumProducts_cons, !sumWeights_cons.
      split; [|split].
      * rewrite IH1, Hw. reflexivity.
      * rewrite IH2, Hw. reflexivity.
      * split; discriminate.
    + auto.
Qed.

Lemma present_weights_pos (cs m : list (string * Q)) :
  Forall (fun cw => 0 < snd cw) m ->
  Spec.present cs m <> [] -> 0 < sumWeights (Spec.present cs m).
Proof.
  intro H.
  assert (Hnn : 0 <= sumWeights (Spec.present cs m)
                /\ (Spec.present cs m <> [] -> 0 < sumWeights (Spec.present cs m))).
  { induction H as [|[k w] m Hw Hm [IH1 IH2]].
    - split; [discriminate | intro Hn; exfalso; apply Hn; reflexivity].
    - cbn [snd] in Hw. unfold Spec.present. cbn [flat_map fst snd].
      fold (Spec.present cs m).
      destruct (Obj.get cs k) as [s|]; cbn [app].
      + rewrite sumWeights_cons. split; [lra | intros _; lra].
      + auto. }
  tauto.
Qed.

Lemma present_nil_accumulate (cs m : list (string * Q)) :
  Spec.present cs m = [] -> accumulate cs m = (0, 0).
Proof.
  unfold accumulate. generalize (0, 0). induction m as [|[k w] m IH]; intros acc; simpl.
  - reflexivity.
  - destruct (Obj.get cs k) as [s|]; simpl; [discriminate|]. apply IH.
Qed.

Lemma calculateWeightedScore_unfold (cs : list (string * Q)) (p : Priorities) :
  calculateWeightedScore cs p
  = let acc := accumulate cs (criteriaMapping
                                (applyPriorityEmphasis (normalizePriorities p) p)) in
    if JS.ltb 0 (snd acc) then fst acc / snd acc else 50.
Proof.
  unfold calculateWeightedScore. cbv zeta.
  destruct (accumulate cs _). reflexivity.
Qed.

Lemma criteriaMapping_spec (p : Priorities) :
  Spec.validPriorities p ->
  sameWeights (criteriaMapping (applyPriorityEmphasis (normalizePriorities p) p))
              (Spec.criterionWeights p).
Proof.
  intro H. pose proof (applyPriorityEmphasis_spec p H) as He. cbv zeta in He.
  destruct He as (Hc & Hp & He & Hs & Hv).
  unfold criteriaMapping, Spec.criterionWeights, sameWeights.
  repeat constructor; cbn [fst snd]; try assumption.
  rewrite Hc, Hp. ring.
Qed.

Lemma criterionWeights_pos (p : Priorities) :
  Spec.validPriorities p -> Forall (fun cw => 0 < snd cw) (Spec.criterionWeights p).
Proof.
  intro H. destruct (emphasized_pos p H) as (Hc & Hp & He & Hs & Hv).
  unfold Spec.criterionWeights. repeat constructor; cbn [fst snd]; try assumption. lra.
Qed.

(** C4: for priorities taken from 1..5, [getEmphasisFactor] is the table
    1 -> 0.5, 2 -> 0.8, 3 -> 1.0, 4 -> 1.2, 5 -> 1.5; the weights that
    [calculateWeightedScore] uses are the normalized priorities times
    their factors, re-normalized to sum 1; maintainability weighs
    0.3 x cost + 0.2 x performance of these; the result is the weighted
    mean of the criteria present in the scores map, and exactly 50 when
    none of the six criteria is present. *)
Theorem C4_calculateWeightedScore_implements_weighting
    (criteriaScores : list (string * Q)) (p : Priorities) :
  Spec.validPriorities p ->
  let e := applyPriorityEmphasis (normalizePriorities p) p in
  (getEmphasisFactor 1 == 5 # 10 /\ getEmphasisFactor 2 == 8 # 10
   /\ getEmphasisFactor 3 == 1 /\ getEmphasisFactor 4 == 12 # 10
   /\ getEmphasisFactor 5 == 15 # 10)
  /\ (cost e == cost (Spec.emphasized p)
      /\ performance e == performance (Spec.emphasized p)
      /\ easeOfUse e == easeOfUse (Spec.emphasized p)
      /\ scalability e == scalability (Spec.emphasized p)
      /\ vendorLockIn e == vendorLockIn (Spec.emphasized p))
  /\ cost e + performance e + easeOfUse e + scalability e + vendorLockIn e == 1
  /\ Obj.get (criteriaMapping e) MAINTAINABILITY
     = Some (cost e * (3 # 10) + performance e * (2 # 10))
  /\ calculateWeightedScore criteriaScores p == Spec.weightedMean criteriaScores p
  /\ (Spec.present criteriaScores (Spec.criterionWeights p) = [] ->
      calculateWeightedScore criteriaScores p = 50).
Proof.
  intros H e. subst e.
  pose proof (applyPriorityEmphasis_spec p H) as He. cbv zeta in He.
  pose proof (criteriaMapping_spec p H) as Hsame.
  destruct (present_compat criteriaScores _ _ Hsame) as (Hprod & Hw & Hnil).
  destruct (accumulate_spec criteriaScores
              (criteriaMapping (applyPriorityEmphasis (normalizePriorities p) p)))
    as [A1 A2].
  assert (Hfifty : Spec.present criteriaScores (Spec.criterionWeights p) = [] ->
                   calculateWeightedScore criteriaScores p = 50).
  { intro Hn. apply Hnil in Hn. rewrite calculateWeightedScore_unfold. cbv zeta.
    rewrite (present_nil_accumulate _ _ Hn). reflexivity. }
  split; [exact getEmphasisFactor_table|].
  split; [exact He|].
  split.
  { destruct He as (Hc & Hp & Hu & Hs & Hv).
    rewrite Hc, Hp, Hu, Hs, Hv. apply (emphasized_sum_one p H). }
  split; [reflexivity|].
  split; [|exact Hfifty].
  unfold Spec.weightedMean.
  remember (Spec.present criteriaScores (Spec.criterionWeights p)) as swl eqn:Epres.
  destruct swl as [|sw0 sw].
  - rewrite (Hfifty eq_refl). reflexivity.
  - rewrite calculateWeightedScore_unfold. cbv zeta.
    assert (Hpos : 0 < sumWeights (sw0 :: sw)).
    { rewrite Epres. apply present_weights_pos; [apply criterionWeights_pos; exact H|].
      rewrite <- Epres. discriminate. }
    assert (Hlt : JS.ltb 0 (snd (accumulate criteriaScores
                                   (criteriaMapping
                                      (applyPriorityEmphasis (normalizePriorities p) p))))
                  = true).
    { apply ltb_spec. rewrite A2, Hw. exact Hpos. }
    rewrite Hlt. rewrite A1, A2, Hprod, Hw. reflexivity.
Qed.

Lemma C4_witness :
  Spec.validPriorities (priorities defaultConstraints)
  /\ calculateWeightedScore neutralScores (priorities defaultConstraints)
     == Spec.weightedMean neutralScores (priorities defaultConstraints).
Proof.
  assert (H : Spec.validPriorities (priorities defaultConstraints)).
  { unfold Spec.validPriorities, Spec.validPriority. simpl.
    repeat split; right; right; left; reflexivity. }
  split; [exact H|].
  exact (proj1 (proj2 (proj2 (proj2 (proj2
    (C4_calculateWeightedScore_implements_weighting
       neutralScores (priorities defaultConstraints) H)))))).
Defined.

End Weighting.



(** ** Score bounds on metadata of the declared types *)

Section ScoreBounds.
Import ComparisonEngine.

Lemma domainKnowledge_entries :
  KnowledgeBase.domainKnowledge
  = [ ("cloud", KnowledgeBase.createCloudProviderKnowledge);
      ("backend", KnowledgeBase.createBackendFrameworkKnowledge);
      ("database", KnowledgeBase.createDatabaseKnowledge) ].
Proof. reflexivity. Qed.

Lemma scoring_in_bounds (cat : string) (o : TechnicalOption) :
  Forall (fun c => Spec.inBounds (scoringFunction c o))
         (KnowledgeBase.getCriteriaForCategory cat).
Proof.
  unfold KnowledgeBase.getCriteriaForCategory.
  rewrite domainKnowledge_entries. cbn [Obj.get].
  destruct (String.eqb cat "cloud"); [|destruct (String.eqb cat "backend");
    [|destruct (String.eqb cat "database")]];
    cbn [criteria KnowledgeBase.createCloudProviderKnowledge
           KnowledgeBase.createBackendFrameworkKnowledge
           KnowledgeBase.createDatabaseKnowledge KnowledgeBase.getGenericCriteria
           KnowledgeBase.mkCriteria map fst snd];
    repeat apply Forall_cons; try apply Forall_nil; cbn [scoringFunction];
    try apply fifty_bounds;
    match goal with
    | |- Spec.inBounds (?f o) => unfold f, KnowledgeBase.withData
    end;
    destruct (metadata o); try apply fifty_bounds; apply clamp_bounds.
Qed.

Lemma evaluateOption_in_bounds (o : TechnicalOption) :
  Spec.allInBounds (KnowledgeBase.evaluateOption o).
Proof.
  unfold KnowledgeBase.evaluateOption, Spec.allInBounds.
  assert (H : Forall (fun kv : string * Q => Spec.inBounds (snd kv)) []) by constructor.
  revert H. generalize (@nil (string * Q)).
  induction (scoring_in_bounds (category o) o) as [|c l Hc Hl IH]; intros acc Hacc.
  - exact Hacc.
  - simpl. apply IH. apply Forall_set; assumption.
Qed.

(** Adding a delta to a Spec.present key and clamping keeps the bounds. *)
Lemma bump_in_bounds (cs : list (string * Q)) (k : string) (d : Q) :
  Spec.allInBounds cs ->
  Spec.allInBounds (match Obj.get cs k with
               | Some v => Obj.set cs k (JS.clamp (v + d))
               | None => cs
               end).
Proof.
  intro H. destruct (Obj.get cs k); [|exact H].
  apply Forall_set; [exact H | apply clamp_bounds].
Qed.

Lemma applyRule_in_bounds (rule : ScoringRule) (cs : list (string * Q)) :
  Spec.allInBounds cs -> Spec.allInBounds (KnowledgeBase.applyRule rule cs).
Proof.
  unfold KnowledgeBase.applyRule. revert cs.
  induction (affectedCriteria rule) as [|k ks IH]; intros cs H.
  - exact H.
  - simpl. apply IH. apply bump_in_bounds. exact H.
Qed.

Lemma applyScoreAdjustments_in_bounds (o : TechnicalOption) (cs : list (string * Q)) :
  Spec.allInBounds cs -> Spec.allInBounds (KnowledgeBase.applyScoreAdjustments o cs).
Proof.
  unfold KnowledgeBase.applyScoreAdjustments. revert cs.
  induction (KnowledgeBase.getScoringRulesForCategory (category o)) as [|r rs IH];
    intros cs H.
  - exact H.
  - simpl. apply IH. destruct (condition r o); [apply applyRule_in_bounds|]; exact H.
Qed.

Lemma getComprehensiveEvaluation_in_bounds (o : TechnicalOption) :
  Spec.allInBounds (KnowledgeBase.getComprehensiveEvaluation o).
Proof.
  apply applyScoreAdjustments_in_bounds, evaluateOption_in_bounds.
Qed.

Lemma adjustCriteria_in_bounds (cs adj : list (string * Q)) :
  Spec.allInBounds cs -> Spec.allInBounds (adjustCriteria cs adj).
Proof.
  unfold adjustCriteria. revert cs. induction adj as [|[k d] adj IH]; intros cs H.
  - exact H.
  - simpl. apply IH. apply bump_in_bounds. exact H.
Qed.

Lemma round_in_bounds (x : Q) : Spec.inBounds x -> (0 <= JS.round x <= 100)%Z.
Proof.
  intros [H0 H1]. unfold JS.round. split.
  - change 0%Z with (Qfloor (0 + (1 # 2))). apply Qfloor_resp_le. lra.
  - change 100%Z with (Qfloor (100 + (1 # 2))). apply Qfloor_resp_le. lra.
Qed.

(** *** The weighted score *)

Lemma normalizePriorities_nonneg (p : Priorities) :
  Spec.nonNegative p -> Spec.nonNegative (normalizePriorities p).
Proof.
  intros (Hc & Hp & He & Hs & Hv). unfold normalizePriorities.
  destruct (Qeq_bool _ 0) eqn:E.
  - unfold Spec.nonNegative. cbn [cost performance easeOfUse scalability vendorLockIn].
    repeat split; discriminate.
  - apply Qeq_bool_neq in E.
    assert (Ht : 0 < cost p + performance p + easeOfUse p + scalability p
                     + vendorLockIn p).
    { apply Qnot_le_lt. intro Hle. apply E. lra. }
    unfold Spec.nonNegative. cbn [cost performance easeOfUse scalability vendorLockIn].
    repeat split; apply div_nonneg; assumption.
Qed.

Lemma applyPriorityEmphasis_nonneg (n p : Priorities) :
  Spec.nonNegative n -> Spec.nonNegative (applyPriorityEmphasis n p).
Proof.
  intros (Hc & Hp & He & Hs & Hv). unfold applyPriorityEmphasis.
  cbn [cost performance easeOfUse scalability vendorLockIn].
  pose proof (fun x y H => mul_nonneg x (getEmphasisFactor y) H
                             (Qlt_le_weak _ _ (getEmphasisFactor_pos y))) as Hm.
  destruct (JS.ltb 0 _) eqn:E; unfold Spec.nonNegative;
    cbn [cost performance easeOfUse scalability vendorLockIn].
  - apply ltb_spec in E. repeat split; apply div_nonneg; auto.
  - repeat split; auto.
Qed.

Lemma criteriaMapping_nonneg (e : Priorities) :
  Spec.nonNegative e -> Forall (fun cw => 0 <= snd cw) (criteriaMapping e).
Proof.
  intros (Hc & Hp & He & Hs & Hv). unfold criteriaMapping.
  repeat apply Forall_cons; try apply Forall_nil; cbn [snd]; try assumption. lra.
Qed.

Lemma weighted_mean_bounds (cs m : list (string * Q)) :
  Forall (fun cw => 0 <= snd cw) m -> Spec.allInBounds cs ->
  0 <= Spec.sumWeights (Spec.present cs m)
  /\ 0 <= Spec.sumProducts (Spec.present cs m)
  /\ Spec.sumProducts (Spec.present cs m) <= 100 * Spec.sumWeights (Spec.present cs m).
Proof.
  intros Hm Hcs. induction Hm as [|[k w] m Hw Hm IH].
  - unfold Spec.present, Spec.sumProducts, Spec.sumWeights. simpl. repeat split; discriminate.
  - cbn [snd] in Hw. unfold Spec.present. cbn [flat_map fst snd]. fold (Spec.present cs m).
    destruct (Obj.get cs k) as [s|] eqn:E; cbn [app]; [|exact IH].
    apply get_In in E. unfold Spec.allInBounds in Hcs. rewrite Forall_forall in Hcs.
    destruct (Hcs _ E) as [Hs0 Hs1]. cbn [snd] in Hs0, Hs1.
    rewrite sumProducts_cons, sumWeights_cons.
    destruct IH as (IH0 & IH1 & IH2).
    pose proof (mul_nonneg s w Hs0 Hw) as H1.
    pose proof (Qmult_le_compat_r s 100 w Hs1 Hw) as H2.
    repeat split; lra.
Qed.

Lemma calculateWeightedScore_in_bounds (cs : list (string * Q)) (p : Priorities) :
  Spec.nonNegative p -> Spec.allInBounds cs -> Spec.inBounds (calculateWeightedScore cs p).
Proof.
  intros Hp Hcs. rewrite calculateWeightedScore_unfold. cbv zeta.
  set (m := criteriaMapping _).
  assert (Hm : Forall (fun cw => 0 <= snd cw) m).
  { apply criteriaMapping_nonneg, applyPriorityEmphasis_nonneg,
      normalizePriorities_nonneg, Hp. }
  destruct (weighted_mean_bounds cs m Hm Hcs) as (_ & H0 & H1).
  destruct (accumulate_spec cs m) as [A1 A2].
  destruct (JS.ltb 0 (snd (accumulate cs m))) eqn:E; [|apply fifty_bounds].
  apply ltb_spec in E. split.
  - apply div_nonneg; [|exact E]. rewrite A1. exact H0.
  - apply Qle_shift_div_r; [exact E|]. rewrite A1, A2. exact H1.
Qed.

End ScoreBounds.



(** ** Validation: fatal errors and warnings *)

Section Validation.
Import ComparisonEngine.

Lemma arrIncludes_In (arr : list string) (x : string) :
  JS.arrIncludes arr x = true <-> In x arr.
Proof.
  unfold JS.arrIncludes. rewrite existsb_exists. split.
  - intros [y [Hy E]]. apply String.eqb_eq in E. subst. exact Hy.
  - intro H. exists x. split; [exact H | apply String.eqb_refl].
Qed.

Lemma arrIncludes_not_In (arr : list string) (x : string) :
  JS.arrIncludes arr x = false <-> ~ In x arr.
Proof.
  rewrite <- arrIncludes_In. destruct (JS.arrIncludes arr x); split; congruence.
Qed.


(** *** What makes [evaluate] throw *)


Lemma evaluate_returns (options : list TechnicalOption) (c : UserConstraints) :
  isValid (validateTechnicalOptions options) = true ->
  exists result,
    evaluate options c = Ok result
    /\ map option_ (scores result) = processOptions options
    /\ rankings result = rankOptions (scores result)
    /\ tradeOffs result = generateTradeOffAnalysis (scores result) c.
Proof.
  intro H. unfold evaluate. rewrite H. simpl. eexists. split; [reflexivity|].
  cbn [scores rankings tradeOffs]. repeat split.
  unfold applyContextualAdjustments, calculateScores.
  rewrite !map_map. cbn [option_]. apply map_id.
Qed.

Lemma count_valid (options : list TechnicalOption) :
  isValid (validateOptionCount options) = true
  <-> (2 <= List.length options <= 3)%nat.
Proof.
  unfold validateOptionCount, mkResult. cbn [isValid].
  destruct (List.length options <? 2)%nat eqn:E2.
  - apply Nat.ltb_lt in E2. split; [discriminate | lia].
  - apply Nat.ltb_ge in E2.
    destruct (3 <? List.length options)%nat eqn:E3.
    + apply Nat.ltb_lt in E3. split; [discriminate | lia].
    + apply Nat.ltb_ge in E3. split; [lia | reflexivity].
Qed.

Lemma count_valid_no_errors (options : list TechnicalOption) :
  isValid (validateOptionCount options) = true ->
  errors (validateOptionCount options) = []
  /\ warnings (validateOptionCount options) = [].
Proof.
  unfold validateOptionCount, mkResult. cbn [isValid errors warnings].
  destruct (List.length options <? 2)%nat; [discriminate|].
  destruct (3 <? List.length options)%nat; [discriminate|]. auto.
Qed.

(** The errors of the whole validation, once the count is accepted. *)
Lemma validation_errors (options : list TechnicalOption) :
  isValid (validateOptionCount options) = true ->
  errors (validateTechnicalOptions options)
  = (flat_map errors (validateEach options 0) ++ duplicateErrors options 0 [])%list
  /\ warnings (validateTechnicalOptions options)
     = (flat_map warnings (validateEach options 0)
        ++ warnings (validateCategoryConsistency options))%list
  /\ isValid (validateTechnicalOptions options)
     = match (flat_map errors (validateEach options 0)
              ++ duplicateErrors options 0 [])%list with
       | [] => true
       | _ => false
       end.
Proof.
  intro H. destruct (count_valid_no_errors _ H) as [He Hw].
  unfold validateTechnicalOptions. rewrite H. cbn [negb].
  rewrite He, Hw. unfold mkResult. cbn [errors warnings isValid app].
  unfold validateNoDuplicates, validateCategoryConsistency, mkResult.
  cbn [errors warnings]. rewrite !app_nil_r. auto.
Qed.

Lemma count_invalid (options : list TechnicalOption) :
  isValid (validateOptionCount options) = false ->
  isValid (validateTechnicalOptions options) = false.
Proof.
  intro H. unfold validateTechnicalOptions. rewrite H. reflexivity.
Qed.

Lemma single_errors (o : TechnicalOption) (i : nat) :
  errors (validateSingleOption o i) = []
  <-> JS.trim_is_empty (name o) = false /\ category o <> "".
Proof.
  unfold validateSingleOption, mkResult. cbn [errors].
  destruct (JS.trim_is_empty (name o)) eqn:T;
    destruct (String.eqb (category o) "") eqn:E; cbn [app]; split; intro H;
    try discriminate H; try (apply proj1 in H; discriminate H).
  - destruct H as [_ H]. apply String.eqb_eq in E. contradiction.
  - split; [reflexivity | apply String.eqb_neq; exact E].
  - reflexivity.
Qed.

Lemma each_errors (options : list TechnicalOption) (i : nat) :
  flat_map errors (validateEach options i) = []
  <-> Forall (fun o => JS.trim_is_empty (name o) = false /\ category o <> "") options.
Proof.
  revert i. induction options as [|o options IH]; intro i; cbn [validateEach flat_map].
  - split; [constructor | reflexivity].
  - split.
    + intro H. apply app_eq_nil in H. destruct H as [H1 H2].
      constructor; [apply (single_errors o i), H1 | apply (IH (S i)), H2].
    + intro H. inversion H as [|? ? Ho Hrest]. subst.
      apply (single_errors o i) in Ho. apply (IH (S i)) in Hrest.
      rewrite Ho, Hrest. reflexivity.
Qed.

(** *** Duplicates *)



Lemma no_duplicate_errors (options : list TechnicalOption) (i : nat)
    (seen : list string) :
  NoDup (map duplicateKey options) ->
  (forall o, In o options -> ~ In (duplicateKey o) seen) ->
  duplicateErrors options i seen = [].
Proof.
  revert i seen. induction options as [|x options IH]; intros i seen Hnd Hseen.
  - reflexivity.
  - simpl in Hnd. inversion Hnd as [|? ? Hx Hnd']. subst.
    cbn [duplicateErrors].
    destruct (String.eqb (name x) "").
    + apply IH; [exact Hnd'|]. intros o Ho. apply Hseen. right. exact Ho.
    + assert (Hx' : JS.arrIncludes seen (duplicateKey x) = false).
      { apply arrIncludes_not_In. apply Hseen. left. reflexivity. }
      rewrite Hx'. apply IH; [exact Hnd'|].
      intros o Ho Hin. apply in_app_or in Hin. destruct Hin as [Hin|[Hin|[]]].
      * apply (Hseen o); [right; exact Ho | exact Hin].
      * apply Hx. rewrite Hin. apply in_map. exact Ho.
Qed.

(** *** Warnings *)


Lemma In_newSet (l : list string) (x : string) : In x l -> In x (newSet l).
Proof.
  unfold newSet.
  assert (H : forall acc, In x acc \/ In x l ->
              In x (fold_left (fun seen y => if JS.arrIncludes seen y then seen
                                             else (seen ++ [y])%list) l acc)).
  { induction l as [|y l IH]; intros acc [H|H]; simpl.
    - exact H.
    - contradiction.
    - apply IH. left. destruct (JS.arrIncludes acc y); [exact H|].
      apply in_or_app. left. exact H.
    - destruct H as [->|H].
      + apply IH. left. destruct (JS.arrIncludes acc x) eqn:E.
        * apply arrIncludes_In. exact E.
        * apply in_or_app. right. left. reflexivity.
      + apply IH. right. exact H. }
  intro Hx. apply H. right. exact Hx.
Qed.







(** *** The duplicate key and the name+category pair *)




(** *** A collision of duplicate keys *)

(** With a hyphen in a category two different pairs can meet in one key,
    and [evaluate] reports a duplicate. *)
Example hyphen_collision :
  Spec.identity hyphenA <> Spec.identity hyphenB
  /\ evaluate [hyphenA; hyphenB] defaultConstraints
     = Throw "Invalid options: Duplicate option detected: a (b-c)".
Proof. split; [discriminate | reflexivity]. Qed.

End Validation.



(** ** Mutation of the scores given to [applyContextualAdjustments] (C3) *)

Section Mutation.
Import ComparisonEngineHeap.

Lemma write_length {A} (l : list A) (i : nat) (x : A) :
  List.length (write l i x) = List.length l.
Proof.
  revert i. induction l as [|y l IH]; intros [|i]; simpl; auto.
Qed.

Lemma write_other {A} (l : list A) (i r : nat) (x : A) :
  r <> i -> nth_error (write l i x) r = nth_error l r.
Proof.
  revert i r. induction l as [|y l IH]; intros [|i] [|r] H; simpl; auto.
  contradiction.
Qed.

Lemma write_same {A} (l : list A) (i : nat) (x : A) :
  (i < List.length l)%nat -> nth_error (write l i x) i = Some x.
Proof.
  revert i. induction l as [|y l IH]; intros [|i] H; simpl in *; try lia; auto.
  apply IH. lia.
Qed.

Lemma adjustThrough_objs (cs : ref) (adj : list (string * Q)) (h : Heap) :
  optionScoreObjs (adjustThrough cs adj h) = optionScoreObjs h
  /\ List.length (scoreMaps (adjustThrough cs adj h)) = List.length (scoreMaps h).
Proof.
  unfold adjustThrough. revert h. induction adj as [|[k d] adj IH]; intro h; simpl.
  - auto.
  - destruct (IH (match readMap h cs with
                  | Some m =>
                      match Obj.get m k with
                      | Some v => writeMap h cs (Obj.set m k (JS.clamp (v + d)))
                      | None => h
                      end
                  | None => h
                  end)) as [IH1 IH2].
    rewrite IH1, IH2.
    destruct (readMap h cs) as [m|]; [|auto].
    destruct (Obj.get m k); [|auto].
    simpl. rewrite write_length. auto.
Qed.

(** The new object is the next one of the store, the objects already
    there keep their four fields, and no score map is allocated. *)
Lemma adjustOne_frame (c : UserConstraints) (r : ref) (h h' : Heap) (out : ref) :
  adjustOne c r h = Some (out, h') ->
  out = List.length (optionScoreObjs h)
  /\ List.length (optionScoreObjs h') = S (List.length (optionScoreObjs h))
  /\ List.length (scoreMaps h') = List.length (scoreMaps h)
  /\ forall r', (r' < List.length (optionScoreObjs h))%nat ->
                readObj h' r' = readObj h r'.
Proof.
  unfold adjustOne. destruct (readObj h r) as [o|]; [|discriminate].
  cbn [allocObj].
  set (h1 := {| optionScoreObjs := (optionScoreObjs h ++ [o])%list;
                scoreMaps := scoreMaps h |}).
  set (adj := ComparisonEngine.calculateContextualAdjustments (obj_option o) c).
  destruct (adjustThrough_objs (obj_criteriaScores o) adj h1) as [Hobjs Hmaps].
  destruct (readMap (adjustThrough (obj_criteriaScores o) adj h1)
                    (obj_criteriaScores o)) as [m|]; [|discriminate].
  intro E. injection E as <- <-.
  unfold writeObj, readObj. cbn [optionScoreObjs scoreMaps].
  rewrite Hobjs, Hmaps. subst h1. cbn [optionScoreObjs scoreMaps].
  repeat split.
  - rewrite write_length, length_app. simpl. lia.
  - intros r' Hr'. rewrite write_other by lia.
    apply nth_error_app1. exact Hr'.
Qed.

Lemma applyContextualAdjustments_frame (scores : list ref) (c : UserConstraints)
    (h h' : Heap) (out : list ref) :
  applyContextualAdjustments scores c h = Some (out, h') ->
  Forall (fun r => (List.length (optionScoreObjs h) <= r)%nat) out
  /\ (List.length (optionScoreObjs h) <= List.length (optionScoreObjs h'))%nat
  /\ List.length (scoreMaps h') = List.length (scoreMaps h)
  /\ forall r, (r < List.length (optionScoreObjs h))%nat -> readObj h' r = readObj h r.
Proof.
  revert h h' out. induction scores as [|s scores IH]; intros h h' out; simpl.
  - intro E. injection E as <- <-. repeat split; auto.
  - destruct (adjustOne c s h) as [[a h1]|] eqn:E1; [|discriminate].
    destruct (applyContextualAdjustments scores c h1) as [[rest h2]|] eqn:E2;
      [|discriminate].
    intro E. injection E as <- <-.
    destruct (adjustOne_frame _ _ _ _ _ E1) as (Ha & Hlen1 & Hmaps1 & Hold1).
    destruct (IH _ _ _ E2) as (Hrest & Hlen2 & Hmaps2 & Hold2).
    repeat split.
    + constructor; [lia|]. eapply Forall_impl; [|exact Hrest].
      intros r Hr. simpl in Hr. lia.
    + lia.
    + congruence.
    + intros r Hr. rewrite Hold2 by lia. apply Hold1. exact Hr.
Qed.

(** *** The values returned, when the inputs share no score map *)

Lemma adjustThrough_other (cs : ref) (adj : list (string * Q)) (h : Heap) (x : ref) :
  x <> cs -> readMap (adjustThrough cs adj h) x = readMap h x.
Proof.
  intro Hx. unfold adjustThrough. revert h.
  induction adj as [|[k d] adj IH]; intro h; [reflexivity|].
  cbn [fold_left fst snd]. rewrite IH.
  destruct (readMap h cs) as [m|]; [|reflexivity].
  destruct (Obj.get m k); [|reflexivity].
  unfold readMap, writeMap. cbn [scoreMaps]. apply write_other. exact Hx.
Qed.

Lemma adjustThrough_same (cs : ref) (adj : list (string * Q)) (h : Heap)
    (m : list (string * Q)) :
  readMap h cs = Some m ->
  readMap (adjustThrough cs adj h) cs = Some (ComparisonEngine.adjustCriteria m adj).
Proof.
  unfold adjustThrough, ComparisonEngine.adjustCriteria.
  revert h m. induction adj as [|[k d] adj IH]; intros h m Hm; [exact Hm|].
  cbn [fold_left fst snd]. rewrite Hm.
  destruct (Obj.get m k) as [v|]; [|apply IH; exact Hm].
  apply IH. unfold readMap, writeMap. cbn [scoreMaps]. apply write_same.
  apply nth_error_Some. unfold readMap in Hm. congruence.
Qed.

Lemma adjustOne_other (c : UserConstraints) (r : ref) (h h' : Heap) (out : ref)
    (o : OptionScoreObj) (x : ref) :
  adjustOne c r h = Some (out, h') -> readObj h r = Some o ->
  x <> obj_criteriaScores o -> readMap h' x = readMap h x.
Proof.
  unfold adjustOne. intros E Ho Hx. rewrite Ho in E. cbn [allocObj] in E.
  destruct (readMap (adjustThrough _ _ _) (obj_criteriaScores o)); [|discriminate].
  injection E as _ <-. unfold writeObj, readMap at 1. cbn [scoreMaps].
  fold (readMap (adjustThrough (obj_criteriaScores o)
                   (ComparisonEngine.calculateContextualAdjustments (obj_option o) c)
                   {| optionScoreObjs := (optionScoreObjs h ++ [o])%list;
                      scoreMaps := scoreMaps h |}) x).
  rewrite (adjustThrough_other _ _ _ _ Hx). reflexivity.
Qed.

Lemma valueOf_inv (h : Heap) (r : ref) (v : OptionScore) :
  valueOf h r = Some v ->
  exists o, readObj h r = Some o
            /\ readMap h (obj_criteriaScores o) = Some (criteriaScores v)
            /\ option_ v = obj_option o.
Proof.
  unfold valueOf. destruct (readObj h r) as [o|]; [|discriminate].
  destruct (readMap h (obj_criteriaScores o)) as [m|] eqn:Hm; [|discriminate].
  intro E. injection E as <-. exists o. simpl. repeat split. exact Hm.
Qed.

(** One call of the callback: the new object has the value that the
    function on values computes. *)
Lemma adjustOne_value (c : UserConstraints) (r : ref) (h : Heap) (v : OptionScore) :
  valueOf h r = Some v ->
  exists out h',
    adjustOne c r h = Some (out, h')
    /\ option_map (fun w => [w]) (valueOf h' out)
       = Some (ComparisonEngine.applyContextualAdjustments [v] c).
Proof.
  intro Hv. destruct (valueOf_inv _ _ _ Hv) as (o & Ho & Hm & Hopt).
  unfold adjustOne. rewrite Ho. cbn [allocObj].
  set (h1 := {| optionScoreObjs := (optionScoreObjs h ++ [o])%list;
                scoreMaps := scoreMaps h |}).
  set (adj := ComparisonEngine.calculateContextualAdjustments (obj_option o) c).
  assert (Hm1 : readMap h1 (obj_criteriaScores o) = Some (criteriaScores v)) by exact Hm.
  pose proof (adjustThrough_same _ adj _ _ Hm1) as Hsame.
  destruct (adjustThrough_objs (obj_criteriaScores o) adj h1) as [Hobjs _].
  rewrite Hsame. eexists. eexists. split; [reflexivity|].
  unfold valueOf, readObj, writeObj.
  cbn [optionScoreObjs scoreMaps]. rewrite Hobjs. subst h1.
  cbn [optionScoreObjs].
  rewrite write_same by (rewrite length_app; simpl; lia).
  cbn [obj_criteriaScores obj_option obj_weightedScore obj_normalizedScore].
  unfold readMap in *. cbn [scoreMaps] in *. rewrite Hsame. cbn [option_map].
  unfold ComparisonEngine.applyContextualAdjustments. cbn [map].
  subst adj. rewrite Hopt. reflexivity.
Qed.

Lemma readObj_valid (h : Heap) (r : ref) (o : OptionScoreObj) :
  readObj h r = Some o -> (r < List.length (optionScoreObjs h))%nat.
Proof.
  unfold readObj. intro H. apply nth_error_Some. congruence.
Qed.

Lemma mapsOf_frame (h h' : Heap) (rs : list ref) :
  (forall r, In r rs -> readObj h' r = readObj h r) -> mapsOf h' rs = mapsOf h rs.
Proof.
  unfold mapsOf. induction rs as [|r rs IH]; intro H; [reflexivity|].
  cbn [flat_map]. rewrite (H r) by (left; reflexivity).
  rewrite IH; [reflexivity|]. intros r' Hr'. apply H. right. exact Hr'.
Qed.

Lemma values_frame (h h' : Heap) (rs : list ref) (vs : list OptionScore) :
  Forall2 (fun r v => valueOf h r = Some v) rs vs ->
  (forall r, In r rs -> readObj h' r = readObj h r) ->
  (forall x, In x (mapsOf h rs) -> readMap h' x = readMap h x) ->
  Forall2 (fun r v => valueOf h' r = Some v) rs vs.
Proof.
  induction 1 as [|r v rs vs Hv Hrest IH]; intros Hobj Hmap; constructor.
  - destruct (valueOf_inv _ _ _ Hv) as (o & Ho & Hm & _).
    unfold valueOf in *. rewrite (Hobj r) by (left; reflexivity).
    rewrite Ho in *. rewrite Hmap; [exact Hv|].
    unfold mapsOf. cbn [flat_map]. rewrite Ho. left. reflexivity.
  - apply IH.
    + intros r' Hr'. apply Hobj. right. exact Hr'.
    + intros x Hx. apply Hmap. unfold mapsOf in *. cbn [flat_map].
      apply in_or_app. right. exact Hx.
Qed.

(** A call writes only to the score maps of the objects it is given. *)
Lemma applyContextualAdjustments_other (rs : list ref) (c : UserConstraints)
    (h h' : Heap) (out : list ref) (x : ref) :
  applyContextualAdjustments rs c h = Some (out, h') ->
  Forall (fun r => (r < List.length (optionScoreObjs h))%nat) rs ->
  ~ In x (mapsOf h rs) -> readMap h' x = readMap h x.
Proof.
  revert h h' out. induction rs as [|r rs IH]; intros h h' out E Hvalid Hx.
  - simpl in E. injection E as _ <-. reflexivity.
  - cbn [applyContextualAdjustments] in E.
    destruct (adjustOne c r h) as [[a h1]|] eqn:E1; [|discriminate].
    destruct (applyContextualAdjustments rs c h1) as [[rest h2]|] eqn:E2; [|discriminate].
    injection E as _ <-.
    inversion Hvalid as [|? ? Hr Hrs]. subst.
    destruct (adjustOne_frame _ _ _ _ _ E1) as (_ & Hlen & _ & Hold).
    assert (Hsame : forall r', In r' rs -> readObj h1 r' = readObj h r').
    { intros r' Hr'. apply Hold. rewrite Forall_forall in Hrs. apply Hrs, Hr'. }
    unfold mapsOf in Hx. cbn [flat_map] in Hx. fold (mapsOf h rs) in Hx.
    destruct (readObj h r) as [o|] eqn:Ho.
    + rewrite (IH _ _ _ E2).
      * apply (adjustOne_other _ _ _ _ _ _ _ E1 Ho).
        intro Heq. apply Hx. left. symmetry. exact Heq.
      * eapply Forall_impl; [|exact Hrs]. intros r' Hr'. simpl in Hr'. lia.
      * rewrite (mapsOf_frame _ _ _ Hsame). intro Hin. apply Hx. right. exact Hin.
    + unfold adjustOne in E1. rewrite Ho in E1. discriminate.
Qed.

(** X19: when the objects given hold pairwise distinct score maps, the
    objects returned have the values that
    [ComparisonEngine.applyContextualAdjustments] computes from the values
    of the objects given. *)
Theorem applyContextualAdjustments_values (rs : list ref) (c : UserConstraints)
    (h : Heap) (vs : list OptionScore) :
  Forall2 (fun r v => valueOf h r = Some v) rs vs ->
  NoDup (mapsOf h rs) ->
  exists out h',
    applyContextualAdjustments rs c h = Some (out, h')
    /\ Forall2 (fun r v => valueOf h' r = Some v) out
               (ComparisonEngine.applyContextualAdjustments vs c).
Proof.
  revert vs h. induction rs as [|r rs IH]; intros vs h H Hnd.
  - inversion H. subst. exists [], h. split; [reflexivity | constructor].
  - inversion H as [|? v ? vs' Hv Hrest]. subst.
    destruct (valueOf_inv _ _ _ Hv) as (o & Ho & Hm & _).
    destruct (adjustOne_value c r h v Hv) as (a & h1 & E1 & Hval).
    destruct (adjustOne_frame _ _ _ _ _ E1) as (_ & Hlen & _ & Hold).
    unfold mapsOf in Hnd. cbn [flat_map] in Hnd. fold (mapsOf h rs) in Hnd.
    rewrite Ho in Hnd. inversion Hnd as [|? ? Hnotin Hnd']. subst.
    assert (Hvalid : Forall (fun r' => (r' < List.length (optionScoreObjs h))%nat) rs).
    { clear - Hrest. induction Hrest as [|r' v' rs vs' Hv' _ IH']; constructor; [|exact IH'].
      destruct (valueOf_inv _ _ _ Hv') as (o' & Ho' & _). exact (readObj_valid _ _ _ Ho'). }
    assert (Hsame : forall r', In r' rs -> readObj h1 r' = readObj h r').
    { intros r' Hr'. apply Hold. rewrite Forall_forall in Hvalid. apply Hvalid, Hr'. }
    assert (Hrest1 : Forall2 (fun r' v' => valueOf h1 r' = Some v') rs vs').
    { apply (values_frame h h1 rs vs' Hrest Hsame).
      intros x Hx. apply (adjustOne_other _ _ _ _ _ _ x E1 Ho).
      intros ->. contradiction. }
    assert (Hnd1 : NoDup (mapsOf h1 rs)) by (rewrite (mapsOf_frame _ _ _ Hsame); exact Hnd').
    destruct (IH vs' h1 Hrest1 Hnd1) as (out & h2 & E2 & Hout).
    exists (a :: out), h2. split.
    + cbn [applyContextualAdjustments]. rewrite E1, E2. reflexivity.
    + unfold ComparisonEngine.applyContextualAdjustments in *. cbn [map].
      constructor; [|exact Hout].
      destruct (applyContextualAdjustments_frame _ _ _ _ _ E2) as (_ & _ & _ & Hold2).
      assert (Hvalid1 : Forall (fun r' => (r' < List.length (optionScoreObjs h1))%nat) rs).
      { eapply Forall_impl; [|exact Hvalid]. intros r' Hr'. simpl in Hr'. lia. }
      assert (Hmap2 : readMap h2 (obj_criteriaScores o) = readMap h1 (obj_criteriaScores o)).
      { apply (applyContextualAdjustments_other _ _ _ _ _ _ E2 Hvalid1).
        rewrite (mapsOf_frame _ _ _ Hsame). exact Hnotin. }
      assert (Hobj2 : readObj h2 a = readObj h1 a).
      { apply Hold2. rewrite (proj1 (adjustOne_frame _ _ _ _ _ E1)). lia. }
      unfold valueOf in Hval |- *. rewrite Hobj2.
      destruct (readObj h1 a) as [oa|] eqn:Hoa; [|discriminate].
      assert (Hcs : obj_criteriaScores oa = obj_criteriaScores o).
      { unfold adjustOne in E1. rewrite Ho in E1. cbn [allocObj] in E1.
        destruct (readMap (adjustThrough _ _ _) (obj_criteriaScores o)) as [m|];
          [|discriminate].
        injection E1 as <- <-. unfold readObj, writeObj in Hoa.
        cbn [optionScoreObjs] in Hoa.
        rewrite write_same in Hoa.
        - injection Hoa as <-. reflexivity.
        - destruct (adjustThrough_objs (obj_criteriaScores o)
                      (ComparisonEngine.calculateContextualAdjustments (obj_option o) c)
                      {| optionScoreObjs := (optionScoreObjs h ++ [o])%list;
                         scoreMaps := scoreMaps h |}) as [Hobjs _].
          rewrite Hobjs. cbn [optionScoreObjs]. rewrite length_app. simpl. lia. }
      rewrite Hcs in *. rewrite Hmap2.
      destruct (readMap h1 (obj_criteriaScores o)) as [m|]; [|discriminate].
      cbn [option_map map] in Hval.
      assert (Hinj : forall x y : OptionScore, Some [x] = Some [y] -> Some x = Some y)
        by (intros x y Hxy; congruence).
      apply Hinj. exact Hval.
Qed.

(** C3 fails on the score maps: [applyContextualAdjustments] returns a
    new object (reference 1) and leaves the weighted and the normalized
    score of the object it was given (reference 0) as they were, but the
    [criteriaScores] of that object are changed, because the copy
    [{ ...score }] shares them: learningCurve 50 becomes 60 and
    maintainability 50 becomes 55. *)
Theorem C3_input_criteriaScores_mutated :
  match applyContextualAdjustments [0%nat] rushedJuniors oneScore with
  | Some (returned, after) =>
      returned = [1%nat]
      /\ option_map criteriaScores (valueOf oneScore 0%nat) = Some neutralScores
      /\ option_map criteriaScores (valueOf after 0%nat)
         = Some [ (COST, 50); (PERFORMANCE, 50); (SCALABILITY, 50);
                  (LEARNING_CURVE, 60); (VENDOR_LOCK_IN, 50);
                  (MAINTAINABILITY, 55) ]
      /\ option_map weightedScore (valueOf after 0%nat) = Some 50
      /\ option_map normalizedScore (valueOf after 0%nat) = Some 50%Z
      /\ option_map criteriaScores (valueOf after 1%nat)
         = option_map criteriaScores (valueOf after 0%nat)
  | None => False
  end.
Proof. vm_compute. repeat split. Qed.

End Mutation.

(** ** Recommendation confidence (C8) *)

Section Confidence.
Import OutputGenerator.

Local Open Scope R_scope.

Lemma bonusOf_range (sd : R) : 0 <= bonusOf sd <= 2 / 10.
Proof.
  unfold bonusOf, Rmin, Rmax.
  destruct (Rle_dec 0 ((20 - sd) / 100)); destruct (Rle_dec _ _); lra.
Qed.

Lemma bonusOf_even : bonusOf 0 = 2 / 10.
Proof.
  unfold bonusOf, Rmin, Rmax.
  destruct (Rle_dec 0 ((20 - 0) / 100)); destruct (Rle_dec _ _); lra.
Qed.

Lemma bonusOf_spiky (sd : R) : 20 <= sd -> bonusOf sd = 0.
Proof.
  intro H. unfold bonusOf, Rmin, Rmax.
  destruct (Rle_dec 0 ((20 - sd) / 100)); destruct (Rle_dec _ _); lra.
Qed.

(** The last two steps: add the bonus, clamp to [0.1, 1]. *)
Lemma final_clamp (q bonus : R) :
  let c := Rmax (1 / 10) (Rmin 1 (Rmin 1 (q + bonus))) in
  (q + bonus <= 1 -> 1 / 10 <= q + bonus -> c = q + bonus)
  /\ (forall lo, lo <= 1 -> lo <= q + bonus -> lo <= c)
  /\ (forall hi, 1 / 10 <= hi -> q + bonus <= hi -> c <= hi).
Proof.
  cbv zeta. unfold Rmin, Rmax.
  repeat split; intros; repeat destruct (Rle_dec _ _); lra.
Qed.

(** *** Priority alignment *)

Lemma normalizePriorities_nonneg' (p : Priorities) :
  Spec.nonNegative p -> Spec.nonNegative (normalizePriorities p).
Proof.
  intros (Hc & Hp & He & Hs & Hv). unfold normalizePriorities. cbn [fold_left].
  destruct (Qeq_bool _ 0) eqn:E.
  - unfold Spec.nonNegative. cbn [cost performance easeOfUse scalability vendorLockIn].
    repeat split; discriminate.
  - apply Qeq_bool_neq in E.
    assert (Ht : (0 < 0 + cost p + performance p + easeOfUse p + scalability p
                      + vendorLockIn p)%Q).
    { apply Qnot_le_lt. intro Hle. apply E. lra. }
    unfold Spec.nonNegative. cbn [cost performance easeOfUse scalability vendorLockIn].
    repeat split; apply div_nonneg; assumption.
Qed.

Lemma scoreOrFifty_range (cs : list (string * Q)) (k : string) :
  Spec.allInBounds cs -> Spec.inBounds (scoreOrFifty cs k).
Proof.
  intro H. unfold scoreOrFifty.
  destruct (Obj.get cs k) as [v|] eqn:E; [|apply fifty_bounds].
  destruct (Qeq_bool v 0); [apply fifty_bounds|].
  apply get_In in E. unfold Spec.allInBounds in H. rewrite Forall_forall in H.
  apply (H _ E).
Qed.

Lemma share_of_weight (s w : Q) :
  Spec.inBounds s -> (0 <= w)%Q -> (0 <= s / 100 * w /\ s / 100 * w <= w)%Q.
Proof.
  intros [H0 H1] Hw.
  assert (Hs : (0 <= s / 100 /\ s / 100 <= 1)%Q).
  { split; [apply div_nonneg; [exact H0 | reflexivity]|].
    apply Qle_shift_div_r; [reflexivity | lra]. }
  split.
  - apply mul_nonneg; tauto.
  - rewrite <- (Qmult_1_l w) at 2. apply Qmult_le_compat_r; tauto.
Qed.

Lemma alignment_range (s : OptionScore) (c : UserConstraints) :
  Spec.nonNegative (priorities c) -> Spec.allInBounds (criteriaScores s) ->
  (0 <= calculatePriorityAlignment s c <= 1)%Q.
Proof.
  intros Hp Hcs. unfold calculatePriorityAlignment. cbv zeta.
  destruct (normalizePriorities_nonneg' _ Hp) as (Nc & Np & Ne & Ns & Nv).
  set (n := normalizePriorities (priorities c)) in *.
  unfold entries. cbn [fold_left fst snd].
  pose proof (share_of_weight _ _
    (scoreOrFifty_range _ (mapPriorityToCriterion "cost") Hcs) Nc) as [A1 B1].
  pose proof (share_of_weight _ _
    (scoreOrFifty_range _ (mapPriorityToCriterion "performance") Hcs) Np) as [A2 B2].
  pose proof (share_of_weight _ _
    (scoreOrFifty_range _ (mapPriorityToCriterion "easeOfUse") Hcs) Ne) as [A3 B3].
  pose proof (share_of_weight _ _
    (scoreOrFifty_range _ (mapPriorityToCriterion "scalability") Hcs) Ns) as [A4 B4].
  pose proof (share_of_weight _ _
    (scoreOrFifty_range _ (mapPriorityToCriterion "vendorLockIn") Hcs) Nv) as [A5 B5].
  destruct (JS.ltb 0 _) eqn:E.
  - apply ltb_spec in E. split.
    + apply div_nonneg; [lra | exact E].
    + apply Qle_shift_div_r; [exact E | lra].
  - split; discriminate.
Qed.

Lemma Q2R_const :
  Q2R (8 # 10) = 8 / 10 /\ Q2R (5 # 10) = 5 / 10 /\ Q2R (9 # 10) = 9 / 10
  /\ Q2R (4 # 10) = 4 / 10 /\ Q2R 0 = 0.
Proof. unfold Q2R. simpl. repeat split; lra. Qed.

Lemma baseConfidence_wide (top second : Q) :
  (top == 90)%Q -> (second == 55)%Q -> baseConfidence (top - second) = (9 # 10)%Q.
Proof.
  intros Ht Hs. unfold baseConfidence.
  assert (H : JS.ltb 20 (top - second) = true) by (apply ltb_spec; lra).
  rewrite H. reflexivity.
Qed.

Lemma baseConfidence_close (top second : Q) :
  (top == 78)%Q -> (second == 77)%Q -> baseConfidence (top - second) = (4 # 10)%Q.
Proof.
  intros Ht Hs. unfold baseConfidence.
  assert (H1 : JS.ltb 20 (top - second) = false) by (apply ltb_false; lra).
  assert (H2 : JS.ltb 10 (top - second) = false) by (apply ltb_false; lra).
  assert (H3 : JS.ltb 5 (top - second) = false) by (apply ltb_false; lra).
  rewrite H1, H2, H3. reflexivity.
Qed.

(** The alignment moves the base confidence by at most a tenth. *)
Lemma alignConfidence_range (result : EvaluationResult) (top : RankedOption)
    (c : UserConstraints) (base : Q) :
  Spec.nonNegative (priorities c) ->
  (forall s, findByName (scores result) (name (ranked_option top)) = Some s ->
             Spec.allInBounds (criteriaScores s)) ->
  (base <= 1)%Q ->
  Q2R base - 1 / 10 <= Q2R (alignConfidence result top c base) <= Q2R base + 1 / 10.
Proof.
  intros Hp Hs Hb. unfold alignConfidence.
  destruct (findByName _ _) as [s|]; [|lra].
  destruct (alignment_range s c Hp (Hs s eq_refl)) as [A0 A1].
  set (a := calculatePriorityAlignment s c) in *.
  assert (Hq : (base - (1 # 10) <= Qmin 1 (base + (a - (5 # 10)) * (2 # 10))
                /\ Qmin 1 (base + (a - (5 # 10)) * (2 # 10)) <= base + (1 # 10))%Q).
  { split.
    - apply Q.min_glb; lra.
    - eapply Qle_trans; [apply Q.le_min_r | lra]. }
  destruct Hq as [Hlo Hhi]. apply Qle_Rle in Hlo, Hhi.
  rewrite Q2R_minus in Hlo. rewrite Q2R_plus in Hhi.
  replace (Q2R (1 # 10)) with (1 / 10) in Hlo, Hhi by (unfold Q2R; simpl; lra).
  lra.
Qed.

(** *** The composite *)

Lemma confidence_found (result : EvaluationResult) (c : UserConstraints)
    (top second : RankedOption) (rest : list RankedOption) (s : OptionScore) :
  rankings result = top :: second :: rest ->
  findByName (scores result) (name (ranked_option top)) = Some s ->
  criteriaScores s <> [] ->
  calculateRecommendationConfidence result c
  = Some (Rmax (1 / 10)
            (Rmin 1
               (Rmin 1
                  (Q2R (alignConfidence result top c
                          (baseConfidence (score top - score second)))
                   + bonusOf (sqrt (Q2R (variance (Obj.values (criteriaScores s))))))))).
Proof.
  intros Hr Hf Hne.
  unfold calculateRecommendationConfidence, calculateConsistencyBonus.
  rewrite Hr, Hf. unfold Obj.values.
  destruct (criteriaScores s) as [|kv cs]; [contradiction|]. reflexivity.
Qed.

Lemma confidence_not_found (result : EvaluationResult) (c : UserConstraints)
    (top second : RankedOption) (rest : list RankedOption) :
  rankings result = top :: second :: rest ->
  findByName (scores result) (name (ranked_option top)) = None ->
  calculateRecommendationConfidence result c
  = Some (Rmax (1 / 10)
            (Rmin 1 (Rmin 1 (Q2R (baseConfidence (score top - score second)) + 0)))).
Proof.
  intros Hr Hf.
  unfold calculateRecommendationConfidence, calculateConsistencyBonus, alignConfidence.
  rewrite Hr, Hf. reflexivity.
Qed.

(** Statement C8 fails on both sides.  Two options with all six
    criterion scores at 78 and at 77 are ranked with the weighted scores
    78 and 77, and the confidence is 0.656, above 0.5.  For a result
    whose ranking scores are 90 and 55 and whose top option has the
    profile 1, 1, 1, 1, 1, 100, the confidence is 0.802, below 0.85. *)
Lemma C8_counterexample :
  (map score (rankings closeResult) = [78%Q; 77%Q]
   /\ Forall (fun s => (ComparisonEngine.calculateWeightedScore
                          (criteriaScores s) (priorities defaultConstraints)
                        == weightedScore s)%Q) closeScores
   /\ exists c, calculateRecommendationConfidence closeResult defaultConstraints = Some c
                /\ c = 656 / 1000 /\ ~ c <= 5 / 10)
  /\ (map score (rankings wideResult) = [90%Q; 55%Q]
      /\ exists c, calculateRecommendationConfidence wideResult defaultConstraints = Some c
                   /\ c = 802 / 1000 /\ ~ 85 / 100 <= c).
Proof.
  split.
  - split; [reflexivity|]. split; [repeat constructor|].
    eexists. split.
    + apply (confidence_found closeResult defaultConstraints
               {| ranked_option := mkOption "React"; rank := 1; score := 78 |}
               {| ranked_option := mkOption "Vue"; rank := 2; score := 77 |}
               [] (flat "React" 78 78)); [reflexivity | reflexivity | discriminate].
    + assert (Hq : Q2R (alignConfidence closeResult
                          {| ranked_option := mkOption "React"; rank := 1; score := 78 |}
                          defaultConstraints (baseConfidence (78 - 77)))
                   = 456 / 1000).
      { rewrite (Qeq_eqR _ (456 # 1000)) by (vm_compute; reflexivity).
        unfold Q2R. simpl. lra. }
      assert (Hv : Q2R (variance (Obj.values (criteriaScores (flat "React" 78 78)))) = 0).
      { rewrite (Qeq_eqR _ 0) by (vm_compute; reflexivity). apply Q2R_const. }
      cbn [score]. rewrite Hq, Hv, sqrt_0, bonusOf_even.
      assert (Hc : Rmax (1 / 10) (Rmin 1 (Rmin 1 (456 / 1000 + 2 / 10))) = 656 / 1000).
      { rewrite (proj1 (final_clamp (456 / 1000) (2 / 10))); lra. }
      rewrite Hc. split; [reflexivity | lra].
  - split; [reflexivity|].
    eexists. split.
    + apply (confidence_found wideResult defaultConstraints
               {| ranked_option := mkOption "React"; rank := 1; score := 90 |}
               {| ranked_option := mkOption "Vue"; rank := 2; score := 55 |}
               [] spiky); [reflexivity | reflexivity | discriminate].
    + assert (Hq : Q2R (alignConfidence wideResult
                          {| ranked_option := mkOption "React"; rank := 1; score := 90 |}
                          defaultConstraints (baseConfidence (90 - 55)))
                   = 802 / 1000).
      { rewrite (Qeq_eqR _ (802 # 1000)) by (vm_compute; reflexivity).
        unfold Q2R. simpl. lra. }
      assert (Hv : 20 <= sqrt (Q2R (variance (Obj.values (criteriaScores spiky))))).
      { rewrite <- (sqrt_square 20) by lra. apply sqrt_le_1_alt.
        rewrite (Qeq_eqR _ (136125 # 100)) by (vm_compute; reflexivity).
        unfold Q2R. simpl. lra. }
      cbn [score]. rewrite Hq, (bonusOf_spiky _ Hv).
      assert (Hc : Rmax (1 / 10) (Rmin 1 (Rmin 1 (802 / 1000 + 0))) = 802 / 1000).
      { rewrite (proj1 (final_clamp (802 / 1000) 0)); lra. }
      rewrite Hc. split; [reflexivity | lra].
Qed.

(** C8, amended: for every evaluation result with at least two ranked
    options, priorities that are not negative and a top option whose
    criterion scores are present and within [0,100], the confidence is
    defined; it is at least 0.8 when the rank-1 and rank-2 weighted
    scores are 90 and 55 (base 0.9, alignment at worst -0.1, bonus at
    least 0), and at most 0.7 when they are 78 and 77 (base 0.4,
    alignment at most +0.1, bonus at most 0.2). *)
Theorem C8_confidence_floor_and_ceiling
    (result : EvaluationResult) (constraints : UserConstraints)
    (top second : RankedOption) (rest : list RankedOption) :
  rankings result = top :: second :: rest ->
  Spec.nonNegative (priorities constraints) ->
  (forall s, findByName (scores result) (name (ranked_option top)) = Some s ->
             criteriaScores s <> [] /\ Spec.allInBounds (criteriaScores s)) ->
  exists c,
    calculateRecommendationConfidence result constraints = Some c
    /\ ((score top == 90)%Q -> (score second == 55)%Q -> 8 / 10 <= c)
    /\ ((score top == 78)%Q -> (score second == 77)%Q -> c <= 7 / 10).
Proof.
  intros Hr Hp Hs.
  assert (Hs' : forall s, findByName (scores result) (name (ranked_option top)) = Some s ->
                          Spec.allInBounds (criteriaScores s))
    by (intros s Hf; apply (Hs s Hf)).
  pose proof (fun base => alignConfidence_range result top constraints base Hp Hs')
    as Halign.
  destruct (findByName (scores result) (name (ranked_option top))) as [s|] eqn:Hf.
  - destruct (Hs s eq_refl) as [Hne _].
    rewrite (confidence_found _ constraints _ _ _ _ Hr Hf Hne).
    eexists. split; [reflexivity|].
    pose proof (bonusOf_range (sqrt (Q2R (variance (Obj.values (criteriaScores s))))))
      as [Hb0 Hb1].
    split; intros Ht Hsnd.
    + rewrite (baseConfidence_wide _ _ Ht Hsnd).
      specialize (Halign (9 # 10)%Q). destruct Halign as [Hlo _]; [discriminate|].
      replace (Q2R (9 # 10)) with (9 / 10) in Hlo by (symmetry; apply Q2R_const).
      apply (proj1 (proj2 (final_clamp _ _))); lra.
    + rewrite (baseConfidence_close _ _ Ht Hsnd).
      specialize (Halign (4 # 10)%Q). destruct Halign as [_ Hhi]; [discriminate|].
      replace (Q2R (4 # 10)) with (4 / 10) in Hhi by (symmetry; apply Q2R_const).
      apply (proj2 (proj2 (final_clamp _ _))); lra.
  - rewrite (confidence_not_found _ constraints _ _ _ Hr Hf).
    eexists. split; [reflexivity|].
    split; intros Ht Hsnd.
    + rewrite (baseConfidence_wide _ _ Ht Hsnd).
      replace (Q2R (9 # 10)) with (9 / 10) by (symmetry; apply Q2R_const).
      apply (proj1 (proj2 (final_clamp _ _))); lra.
    + rewrite (baseConfidence_close _ _ Ht Hsnd).
      replace (Q2R (4 # 10)) with (4 / 10) by (symmetry; apply Q2R_const).
      apply (proj2 (proj2 (final_clamp _ _))); lra.
Qed.

Lemma C8_witness :
  exists c,
    calculateRecommendationConfidence closeResult defaultConstraints = Some c
    /\ c <= 7 / 10.
Proof.
  assert (Hp : Spec.nonNegative (priorities defaultConstraints)).
  { unfold Spec.nonNegative. simpl. repeat split; discriminate. }
  assert (Hs : forall s,
             findByName (scores closeResult) "React" = Some s ->
             criteriaScores s <> [] /\ Spec.allInBounds (criteriaScores s)).
  { intros s Hf. cbv in Hf. injection Hf as <-. split; [discriminate|].
    unfold Spec.allInBounds.
    repeat (apply Forall_cons; [split; discriminate|]). apply Forall_nil. }
  destruct (C8_confidence_floor_and_ceiling closeResult defaultConstraints
              {| ranked_option := mkOption "React"; rank := 1; score := 78 |}
              {| ranked_option := mkOption "Vue"; rank := 2; score := 77 |}
              [] eq_refl Hp Hs) as [c [Hc [_ Hceil]]].
  exists c. split; [exact Hc|]. apply Hceil; reflexivity.
Defined.

End Confidence.





(** * Further properties of the sources *)

(** ** Further properties of the weighting *)

Section MoreWeighting.
Import ComparisonEngine.

Lemma total_as_sum5 (p : Priorities) :
  cost p + performance p + easeOfUse p + scalability p + vendorLockIn p
  = Spec.sum5 p.
Proof. reflexivity. Qed.

Lemma normalizePriorities_fields (p : Priorities) :
  let n := normalizePriorities p in
  (Spec.sum5 p == 0
   /\ cost n = 2 # 10 /\ performance n = 2 # 10 /\ easeOfUse n = 2 # 10
   /\ scalability n = 2 # 10 /\ vendorLockIn n = 2 # 10)
  \/ (~ Spec.sum5 p == 0
      /\ cost n = cost p / Spec.sum5 p
      /\ performance n = performance p / Spec.sum5 p
      /\ easeOfUse n = easeOfUse p / Spec.sum5 p
      /\ scalability n = scalability p / Spec.sum5 p
      /\ vendorLockIn n = vendorLockIn p / Spec.sum5 p).
Proof.
  unfold normalizePriorities. rewrite total_as_sum5.
  destruct (Qeq_bool (Spec.sum5 p) 0) eqn:E.
  - left. apply Qeq_bool_iff in E. cbn [cost performance easeOfUse scalability vendorLockIn].
    repeat split; try reflexivity. exact E.
  - right. apply Qeq_bool_neq in E.
    cbn [cost performance easeOfUse scalability vendorLockIn].
    repeat split; try reflexivity. exact E.
Qed.

(** *** The weighted score as a mean *)

Lemma ltb_compat (x y : Q) : x == y -> JS.ltb 0 x = JS.ltb 0 y.
Proof.
  intro H. destruct (JS.ltb 0 x) eqn:E1, (JS.ltb 0 y) eqn:E2; try reflexivity.
  - apply ltb_spec in E1. apply ltb_false in E2. rewrite H in E1. lra.
  - apply ltb_spec in E2. apply ltb_false in E1. rewrite H in E1. lra.
Qed.

Lemma calculateWeightedScore_mean (cs : list (string * Q)) (p : Priorities)
    (w : list (string * Q)) :
  Spec.sameWeights
    (criteriaMapping (applyPriorityEmphasis (normalizePriorities p) p)) w ->
  calculateWeightedScore cs p
  == if JS.ltb 0 (Spec.sumWeights (Spec.present cs w))
     then Spec.sumProducts (Spec.present cs w) / Spec.sumWeights (Spec.present cs w)
     else 50.
Proof.
  intro Hw. rewrite calculateWeightedScore_unfold. cbv zeta.
  destruct (accumulate_spec cs
              (criteriaMapping (applyPriorityEmphasis (normalizePriorities p) p)))
    as [Hf Hs].
  destruct (present_compat cs _ _ Hw) as (Hp & Hq & _).
  rewrite Hp in Hf. rewrite Hq in Hs.
  rewrite (ltb_compat _ _ Hs).
  destruct (JS.ltb 0 (Spec.sumWeights (Spec.present cs w))) eqn:E.
  - rewrite Hf, Hs. reflexivity.
  - reflexivity.
Qed.

Lemma sameWeights_refl (m : list (string * Q)) : Spec.sameWeights m m.
Proof.
  induction m as [|a m IH]; constructor; [split; reflexivity | exact IH].
Qed.

(** *** Equal priorities *)

Lemma uniform_normalized (k : Q) :
  let n := normalizePriorities (Spec.uniform k) in
  cost n == 1 # 5 /\ performance n == 1 # 5 /\ easeOfUse n == 1 # 5
  /\ scalability n == 1 # 5 /\ vendorLockIn n == 1 # 5.
Proof.
  intro n.
  destruct (normalizePriorities_fields (Spec.uniform k))
    as [(_ & H1 & H2 & H3 & H4 & H5) | (Hne & H1 & H2 & H3 & H4 & H5)];
    fold n in H1, H2, H3, H4, H5; rewrite H1, H2, H3, H4, H5.
  - repeat split; reflexivity.
  - unfold Spec.sum5, Spec.uniform in *.
    cbn [cost performance easeOfUse scalability vendorLockIn] in *.
    assert (Hk : ~ k == 0) by (intro Hk; apply Hne; rewrite Hk; reflexivity).
    repeat split; field; intro H; apply Hk; lra.
Qed.

Lemma uniform_emphasized (k : Q) :
  let e := applyPriorityEmphasis (normalizePriorities (Spec.uniform k))
                                 (Spec.uniform k) in
  cost e == 1 # 5 /\ performance e == 1 # 5 /\ easeOfUse e == 1 # 5
  /\ scalability e == 1 # 5 /\ vendorLockIn e == 1 # 5.
Proof.
  pose proof (uniform_normalized k) as (H1 & H2 & H3 & H4 & H5).
  pose proof (getEmphasisFactor_pos k) as Hf.
  cbv zeta in *.
  destruct (normalizePriorities (Spec.uniform k)) as [a b c d e].
  unfold applyPriorityEmphasis, Spec.uniform.
  cbn [cost performance easeOfUse scalability vendorLockIn] in *.
  assert (Ht : a * getEmphasisFactor k + b * getEmphasisFactor k
               + c * getEmphasisFactor k + d * getEmphasisFactor k
               + e * getEmphasisFactor k == getEmphasisFactor k).
  { rewrite H1, H2, H3, H4, H5. ring. }
  assert (Hpos : JS.ltb 0 (a * getEmphasisFactor k + b * getEmphasisFactor k
                           + c * getEmphasisFactor k + d * getEmphasisFactor k
                           + e * getEmphasisFactor k) = true).
  { apply ltb_spec. rewrite Ht. exact Hf. }
  rewrite Hpos. cbn [cost performance easeOfUse scalability vendorLockIn].
  rewrite Ht, H1, H2, H3, H4, H5.
  repeat split; field; intro H; rewrite H in Hf; lra.
Qed.

(** X2: when the five priorities are equal, whatever their common level,
    the emphasized weights are 1/5 each: the emphasis factor cancels, and
    the weighted score of any score map is the same under all such
    priorities (1,1,1,1,1 scores like 5,5,5,5,5). *)
Theorem equal_priorities_weigh_alike (cs : list (string * Q)) (k k' : Q) :
  let e := applyPriorityEmphasis (normalizePriorities (Spec.uniform k))
                                 (Spec.uniform k) in
  (cost e == 1 # 5 /\ performance e == 1 # 5 /\ easeOfUse e == 1 # 5
   /\ scalability e == 1 # 5 /\ vendorLockIn e == 1 # 5)
  /\ calculateWeightedScore cs (Spec.uniform k)
     == calculateWeightedScore cs (Spec.uniform k').
Proof.
  split; [apply uniform_emphasized|].
  assert (Hw : forall j,
             Spec.sameWeights
               (criteriaMapping (applyPriorityEmphasis
                                   (normalizePriorities (Spec.uniform j))
                                   (Spec.uniform j)))
               (criteriaMapping (Spec.uniform (1 # 5)))).
  { intro j. pose proof (uniform_emphasized j) as (H1 & H2 & H3 & H4 & H5).
    cbv zeta in *. unfold criteriaMapping, Spec.sameWeights, Spec.uniform.
    cbn [cost performance easeOfUse scalability vendorLockIn].
    repeat (apply Forall2_cons; [split; [reflexivity | cbn [snd]] |]);
      try apply Forall2_nil; try assumption.
    rewrite H1, H2. reflexivity. }
  rewrite (calculateWeightedScore_mean cs _ _ (Hw k)).
  rewrite (calculateWeightedScore_mean cs _ _ (Hw k')).
  reflexivity.
Qed.

(** *** Bounds and monotonicity of the mean *)

Lemma raised_get (cs cs' : list (string * Q)) (k : string) :
  Spec.raised cs cs' ->
  match Obj.get cs k, Obj.get cs' k with
  | Some v, Some v' => v <= v'
  | None, None => True
  | _, _ => False
  end.
Proof.
  intro H. induction H as [|[k1 v1] [k2 v2] cs cs' [Hk Hv] H IH]; cbn [Obj.get].
  - exact I.
  - cbn [fst snd] in Hk, Hv. subst k2.
    destruct (String.eqb k k1); [exact Hv | exact IH].
Qed.

Lemma present_raised (cs cs' m : list (string * Q)) :
  Spec.raised cs cs' -> Forall (fun cw => 0 <= snd cw) m ->
  Spec.sumWeights (Spec.present cs m) = Spec.sumWeights (Spec.present cs' m)
  /\ Spec.sumProducts (Spec.present cs m) <= Spec.sumProducts (Spec.present cs' m).
Proof.
  intros Hr Hm. induction Hm as [|[k w] m Hw Hm IH].
  - split; [reflexivity | apply Qle_refl].
  - unfold Spec.present. cbn [flat_map fst snd].
    fold (Spec.present cs m). fold (Spec.present cs' m).
    pose proof (raised_get cs cs' k Hr) as Hk.
    destruct (Obj.get cs k) as [v|], (Obj.get cs' k) as [v'|];
      try contradiction; cbn [app]; [|exact IH].
    rewrite !sumProducts_cons, !sumWeights_cons.
    destruct IH as [IH1 IH2]. cbn [snd] in Hw. split.
    + rewrite IH1. reflexivity.
    + nra.
Qed.

(** X4: under priorities that are not negative, raising criterion scores
    never lowers the weighted score: the score of a map whose entries are
    all at least those of another map with the same keys is at least the
    score of the other. *)
Theorem calculateWeightedScore_monotone (cs cs' : list (string * Q))
    (p : Priorities) :
  Spec.nonNegative p -> Spec.raised cs cs' ->
  calculateWeightedScore cs p <= calculateWeightedScore cs' p.
Proof.
  intros Hp Hr.
  set (m := criteriaMapping (applyPriorityEmphasis (normalizePriorities p) p)).
  assert (Hnn : Forall (fun cw => 0 <= snd cw) m).
  { apply criteriaMapping_nonneg, applyPriorityEmphasis_nonneg,
      normalizePriorities_nonneg, Hp. }
  destruct (present_raised cs cs' m Hr Hnn) as [Hw Hs].
  rewrite (calculateWeightedScore_mean cs p m (sameWeights_refl m)).
  rewrite (calculateWeightedScore_mean cs' p m (sameWeights_refl m)).
  rewrite <- Hw.
  destruct (JS.ltb 0 (Spec.sumWeights (Spec.present cs m))) eqn:E.
  - apply ltb_spec in E. unfold Qdiv.
    apply Qmult_le_compat_r; [exact Hs|].
    apply Qlt_le_weak, Qinv_lt_0_compat, E.
  - apply Qle_refl.
Qed.

Lemma calculateWeightedScore_monotone_witness :
  Spec.nonNegative (priorities costFocused)
  /\ calculateWeightedScore (criteriaScores (flat "Vue" 55 55)) (priorities costFocused)
     <= calculateWeightedScore (criteriaScores (flat "Vue" 77 77))
          (priorities costFocused).
Proof.
  assert (H : Spec.nonNegative (priorities costFocused)).
  { unfold Spec.nonNegative. cbn. repeat split; discriminate. }
  split; [exact H|].
  apply (calculateWeightedScore_monotone
           (criteriaScores (flat "Vue" 55 55))
           (criteriaScores (flat "Vue" 77 77)) (priorities costFocused) H).
  unfold Spec.raised. cbn.
  repeat (apply Forall2_cons; [split; [reflexivity | cbn; discriminate] |]).
  apply Forall2_nil.
Defined.

(** *** The order of the weights *)

Lemma getEmphasisFactor_compat (x y : Q) :
  x == y -> getEmphasisFactor x = getEmphasisFactor y.
Proof.
  intro H. unfold getEmphasisFactor.
  assert (Hk : forall k, Qeq_bool x k = Qeq_bool y k).
  { intro k. destruct (Qeq_bool x k) eqn:E1, (Qeq_bool y k) eqn:E2; try reflexivity.
    - apply Qeq_bool_iff in E1. apply Qeq_bool_neq in E2.
      exfalso. apply E2. rewrite <- H. exact E1.
    - apply Qeq_bool_iff in E2. apply Qeq_bool_neq in E1.
      exfalso. apply E1. rewrite H. exact E2. }
  rewrite !Hk. reflexivity.
Qed.

Lemma getEmphasisFactor_monotone (x y : Q) :
  Spec.validPriority x -> Spec.validPriority y -> x <= y ->
  x * getEmphasisFactor x <= y * getEmphasisFactor y.
Proof.
  intros Hx Hy Hle.
  pose proof getEmphasisFactor_table as (T1 & T2 & T3 & T4 & T5).
  destruct Hx as [Hx|[Hx|[Hx|[Hx|Hx]]]], Hy as [Hy|[Hy|[Hy|[Hy|Hy]]]];
    rewrite (getEmphasisFactor_compat _ _ Hx), (getEmphasisFactor_compat _ _ Hy);
    rewrite Hx, Hy in *; rewrite ?T1, ?T2, ?T3, ?T4, ?T5; lra.
Qed.

Lemma emphasized_field (p : Priorities) (x : Q) :
  (x / Spec.sum5 p * Spec.emphasisFactor x) / Spec.sum5 (Spec.scaled p)
  == (x * Spec.emphasisFactor x) / (Spec.sum5 p * Spec.sum5 (Spec.scaled p)).
Proof.
  destruct (Qeq_dec (Spec.sum5 p) 0) as [H0 | H0];
    destruct (Qeq_dec (Spec.sum5 (Spec.scaled p)) 0) as [H1 | H1].
  - unfold Qdiv. rewrite H0. rewrite !Qmult_0_l.
    assert (E : / (0 * Spec.sum5 (Spec.scaled p)) == 0) by (rewrite Qmult_0_l; reflexivity).
    rewrite E. ring.
  - unfold Qdiv. rewrite H0. 
    assert (E : / (0 * Spec.sum5 (Spec.scaled p)) == 0) by (rewrite Qmult_0_l; reflexivity).
    rewrite E. assert (E0 : / 0 == 0) by reflexivity. rewrite E0. ring.
  - unfold Qdiv. rewrite H1.
    assert (E : / (Spec.sum5 p * 0) == 0) by (rewrite Qmult_0_r; reflexivity).
    rewrite E. assert (E0 : / 0 == 0) by reflexivity. rewrite E0. ring.
  - field. split; assumption.
Qed.

Lemma Some_inj {A} (a b : A) : Some a = Some b -> a = b.
Proof. intro H. injection H as H. exact H. Qed.

Lemma weight_of_priority (p : Priorities) (k : string) (x x' : Q) :
  Spec.validPriorities p ->
  Obj.get (OutputGenerator.entries p) k = Some x ->
  Obj.get (OutputGenerator.entries
             (applyPriorityEmphasis (normalizePriorities p) p)) k = Some x' ->
  Spec.validPriority x
  /\ x' == (x / Spec.sum5 p * Spec.emphasisFactor x) / Spec.sum5 (Spec.scaled p).
Proof.
  intros Hp.
  pose proof (applyPriorityEmphasis_spec p Hp) as (E1 & E2 & E3 & E4 & E5).
  destruct Hp as (V1 & V2 & V3 & V4 & V5).
  unfold OutputGenerator.entries. cbn [Obj.get].
  destruct (String.eqb k "cost").
  { intros Hx Hx'. apply Some_inj in Hx, Hx'. subst x x'.
    split; [exact V1 | exact E1]. }
  destruct (String.eqb k "performance").
  { intros Hx Hx'. apply Some_inj in Hx, Hx'. subst x x'.
    split; [exact V2 | exact E2]. }
  destruct (String.eqb k "easeOfUse").
  { intros Hx Hx'. apply Some_inj in Hx, Hx'. subst x x'.
    split; [exact V3 | exact E3]. }
  destruct (String.eqb k "scalability").
  { intros Hx Hx'. apply Some_inj in Hx, Hx'. subst x x'.
    split; [exact V4 | exact E4]. }
  destruct (String.eqb k "vendorLockIn").
  { intros Hx Hx'. apply Some_inj in Hx, Hx'. subst x x'.
    split; [exact V5 | exact E5]. }
  discriminate.
Qed.

(** X5: the emphasized weights are ordered like the priorities they
    come from: for priorities taken from 1..5, a criterion whose priority
    is at most that of another gets at most the weight of the other. *)
Theorem weights_follow_priorities (p : Priorities) (k1 k2 : string)
    (x y x' y' : Q) :
  Spec.validPriorities p ->
  Obj.get (OutputGenerator.entries p) k1 = Some x ->
  Obj.get (OutputGenerator.entries p) k2 = Some y ->
  Obj.get (OutputGenerator.entries
             (applyPriorityEmphasis (normalizePriorities p) p)) k1 = Some x' ->
  Obj.get (OutputGenerator.entries
             (applyPriorityEmphasis (normalizePriorities p) p)) k2 = Some y' ->
  x <= y -> x' <= y'.
Proof.
  intros Hp Hx Hy Hx' Hy' Hle.
  destruct (weight_of_priority p k1 x x' Hp Hx Hx') as [Vx Ex].
  destruct (weight_of_priority p k2 y y' Hp Hy Hy') as [Vy Ey].
  pose proof (valid_sum_pos p Hp) as HS.
  pose proof (scaled_pos p Hp) as (S1 & S2 & S3 & S4 & S5).
  assert (HT : 0 < Spec.sum5 (Spec.scaled p)) by (unfold Spec.sum5; lra).
  apply (Qle_trans _ ((x / Spec.sum5 p * Spec.emphasisFactor x)
                      / Spec.sum5 (Spec.scaled p))).
  { apply Qle_lteq. right. exact Ex. }
  apply (Qle_trans _ ((y / Spec.sum5 p * Spec.emphasisFactor y)
                      / Spec.sum5 (Spec.scaled p))).
  2: { apply Qle_lteq. right. symmetry. exact Ey. }
  apply (Qle_trans _ ((x * Spec.emphasisFactor x)
                      / (Spec.sum5 p * Spec.sum5 (Spec.scaled p)))).
  { apply Qle_lteq. right. apply emphasized_field. }
  apply (Qle_trans _ ((y * Spec.emphasisFactor y)
                      / (Spec.sum5 p * Spec.sum5 (Spec.scaled p)))).
  2: { apply Qle_lteq. right. symmetry. apply emphasized_field. }
  unfold Qdiv. apply Qmult_le_compat_r.
  - apply (Qle_trans _ (x * getEmphasisFactor x)).
    { apply Qle_lteq. right. apply Qmult_comp; [reflexivity|].
      symmetry. apply getEmphasisFactor_spec, Vx. }
    apply (Qle_trans _ (y * getEmphasisFactor y)).
    { apply getEmphasisFactor_monotone; assumption. }
    apply Qle_lteq. right. apply Qmult_comp; [reflexivity|].
    apply getEmphasisFactor_spec, Vy.
  - apply Qlt_le_weak, Qinv_lt_0_compat, mul_pos; assumption.
Qed.

Lemma weights_follow_priorities_witness :
  Spec.validPriorities (priorities costFocused)
  /\ performance (applyPriorityEmphasis (normalizePriorities (priorities costFocused))
                                        (priorities costFocused))
     <= cost (applyPriorityEmphasis (normalizePriorities (priorities costFocused))
                                    (priorities costFocused)).
Proof.
  assert (H : Spec.validPriorities (priorities costFocused)).
  { unfold Spec.validPriorities, Spec.validPriority. cbn.
    repeat split; (left; reflexivity) || (right; right; right; right; reflexivity). }
  split; [exact H|].
  apply (weights_follow_priorities (priorities costFocused) "performance" "cost"
           1 5 _ _ H); try reflexivity. discriminate.
Defined.

End MoreWeighting.

(** ** Further properties of option processing and scoring *)

Section MoreScoring.
Import ComparisonEngine.

Lemma orElse_again {A} (x y : option A) : orElse (orElse x y) y = orElse x y.
Proof. destruct x; [reflexivity | destruct y; reflexivity]. Qed.

Lemma orElse_same {A} (x : option A) : orElse x x = x.
Proof. destruct x; reflexivity. Qed.

Lemma mergeMetadata_again (f : Metadata) (own : option Metadata) :
  mergeMetadata f (Some (mergeMetadata f own)) = mergeMetadata f own.
Proof.
  destruct own as [m|]; unfold mergeMetadata.
  - cbn [pricingModel serviceCount enterpriseFeatures learningCurve marketShare
         regions certifications language developmentSpeed communitySize
         enterpriseAdoption performanceRating packageEcosystem type
         schemaFlexibility queryComplexity horizontalScaling consistencyModel
         acidCompliance].
    rewrite !orElse_again. reflexivity.
  - destruct f as [a1 a2 a3 a4 a5 a6 a7 a8 a9 a10 a11 a12 a13 a14 a15 a16 a17 a18 a19].
    cbn [pricingModel serviceCount enterpriseFeatures learningCurve
         marketShare regions certifications language developmentSpeed
         communitySize enterpriseAdoption performanceRating packageEcosystem type
         schemaFlexibility queryComplexity horizontalScaling consistencyModel
         acidCompliance].
    rewrite !orElse_same. reflexivity.
Qed.

Lemma isKnownTechnology_by_name (o o' : TechnicalOption) :
  JS.toLowerCase (name o) = JS.toLowerCase (name o') -> category o = category o' ->
  KnowledgeBase.isKnownTechnology o = KnowledgeBase.isKnownTechnology o'.
Proof.
  intros Hn Hc.
  unfold KnowledgeBase.isKnownTechnology, KnowledgeBase.hasSpecificTechnologyData.
  rewrite Hn, Hc. reflexivity.
Qed.

Lemma processOption_unknown (o : TechnicalOption) :
  KnowledgeBase.isKnownTechnology o = false ->
  processOption o
  = {| name := name o; category := category o;
       metadata := Some (mergeMetadata (KnowledgeBase.getFallbackMetadata (category o))
                                       (metadata o)) |}.
Proof.
  intro E. unfold processOption, KnowledgeBase.getTechnologyMetadata.
  rewrite E. reflexivity.
Qed.

(** X6: [processOption] is idempotent, keeps the name and the category,
    leaves a known technology untouched and gives every other option a
    metadata object in which each field that the option brought keeps its
    value. *)
Theorem processOption_idempotent (o : TechnicalOption) :
  processOption (processOption o) = processOption o
  /\ name (processOption o) = name o
  /\ category (processOption o) = category o
  /\ (KnowledgeBase.isKnownTechnology o = true -> processOption o = o)
  /\ (KnowledgeBase.isKnownTechnology o = false ->
      exists merged,
        metadata (processOption o) = Some merged
        /\ forall own, metadata o = Some own -> Spec.keepsFields own merged).
Proof.
  split; [|split; [apply processOption_name | split; [apply processOption_category|]]].
  - destruct (KnowledgeBase.isKnownTechnology o) eqn:E.
    + unfold processOption. rewrite E, E. reflexivity.
    + rewrite (processOption_unknown o E).
      rewrite processOption_unknown.
      * cbn [name category metadata]. rewrite mergeMetadata_again. reflexivity.
      * rewrite <- E. apply isKnownTechnology_by_name; reflexivity.
  - split.
    + intro E. unfold processOption. rewrite E. reflexivity.
    + intro E. rewrite (processOption_unknown o E). cbn [metadata].
      eexists. split; [reflexivity|].
      intros own Hown. rewrite Hown. unfold mergeMetadata, Spec.keepsFields, Spec.kept.
      cbn [pricingModel serviceCount enterpriseFeatures learningCurve marketShare
           regions certifications language developmentSpeed communitySize
           enterpriseAdoption performanceRating packageEcosystem type
           schemaFlexibility queryComplexity horizontalScaling consistencyModel
           acidCompliance].
      repeat split; intros v Hv; rewrite Hv; reflexivity.
Qed.

Lemma processOption_idempotent_witness :
  KnowledgeBase.isKnownTechnology flutter = false
  /\ exists merged, metadata (processOption flutter) = Some merged.
Proof.
  split; [reflexivity|].
  destruct (processOption_idempotent flutter) as (_ & _ & _ & _ & H).
  destruct (H eq_refl) as (merged & Hm & _).
  exists merged. exact Hm.
Defined.

(** *** The fallback metadata *)

Lemma In_if_last (b : bool) (x y : string) :
  In y (if b then [x] else []) -> y = x.
Proof.
  destruct b; cbn [In].
  - intros [H|[]]. symmetry. exact H.
  - intros [].
Qed.

(** *** Options without metadata *)

Lemma category_cases (c : string) :
  c = "cloud" \/ c = "backend" \/ c = "database"
  \/ ~ In c ["cloud"; "backend"; "database"].
Proof.
  destruct (String.eqb c "cloud") eqn:E1; [apply String.eqb_eq in E1; tauto|].
  destruct (String.eqb c "backend") eqn:E2; [apply String.eqb_eq in E2; tauto|].
  destruct (String.eqb c "database") eqn:E3; [apply String.eqb_eq in E3; tauto|].
  apply String.eqb_neq in E1, E2, E3. right. right. right.
  cbn [In]. intros [H|[H|[H|[]]]]; congruence.
Qed.

Lemma no_metadata_neutral (o : TechnicalOption) :
  metadata o = None -> KnowledgeBase.getComprehensiveEvaluation o = neutralScores.
Proof.
  intro Hm. destruct (category_cases (category o)) as [Hc|[Hc|[Hc|Hc]]];
    [| | |apply unknown_category_evaluation, Hc];
    destruct o as [n c m]; cbn [metadata category] in *; subst; reflexivity.
Qed.

(** X8: an option without metadata scores the neutral 50 on all six
    criteria in every category, the three categories of the knowledge
    base included; [evaluate] leaves a known technology as it is, so a
    known technology submitted without metadata is scored 50 everywhere
    whatever the knowledge base holds for its category. *)
Theorem known_technology_without_metadata_is_neutral
    (o : TechnicalOption) (constraints : UserConstraints) :
  metadata o = None ->
  KnowledgeBase.getComprehensiveEvaluation o = neutralScores
  /\ (KnowledgeBase.isKnownTechnology o = true ->
      criteriaScores (calculateOptionScore (processOption o) constraints)
      = neutralScores).
Proof.
  intro Hm. split; [apply no_metadata_neutral, Hm|].
  intro E. unfold processOption. rewrite E.
  unfold calculateOptionScore. cbn [criteriaScores].
  apply no_metadata_neutral, Hm.
Qed.

Lemma known_technology_without_metadata_is_neutral_witness :
  metadata awsLower = None
  /\ KnowledgeBase.isKnownTechnology awsLower = true
  /\ criteriaScores (calculateOptionScore (processOption awsLower) defaultConstraints)
     = neutralScores.
Proof.
  split; [reflexivity|]. split; [reflexivity|].
  apply (known_technology_without_metadata_is_neutral awsLower defaultConstraints);
    reflexivity.
Defined.

(** *** The keys of the score maps *)

Lemma keys_bump (cs : list (string * Q)) (k : string) (x : Q) :
  Obj.keys (match Obj.get cs k with
            | Some v => Obj.set cs k x
            | None => cs
            end) = Obj.keys cs.
Proof.
  destruct (Obj.get cs k) as [v|] eqn:E; [|reflexivity].
  apply (keys_set_present cs k x v E).
Qed.

Lemma keys_applyRule (rule : ScoringRule) (cs : list (string * Q)) :
  Obj.keys (KnowledgeBase.applyRule rule cs) = Obj.keys cs.
Proof.
  unfold KnowledgeBase.applyRule. revert cs.
  induction (affectedCriteria rule) as [|k ks IH]; intro cs; [reflexivity|].
  cbn [fold_left]. rewrite IH.
  destruct (Obj.get cs k) as [v|] eqn:E; [|reflexivity].
  apply (keys_set_present cs k _ v E).
Qed.

Lemma keys_applyScoreAdjustments (o : TechnicalOption) (cs : list (string * Q)) :
  Obj.keys (KnowledgeBase.applyScoreAdjustments o cs) = Obj.keys cs.
Proof.
  unfold KnowledgeBase.applyScoreAdjustments. revert cs.
  induction (KnowledgeBase.getScoringRulesForCategory (category o)) as [|r rs IH];
    intro cs; [reflexivity|].
  cbn [fold_left]. rewrite IH.
  destruct (condition r o); [apply keys_applyRule | reflexivity].
Qed.

Lemma keys_adjustCriteria (cs adj : list (string * Q)) :
  Obj.keys (adjustCriteria cs adj) = Obj.keys cs.
Proof.
  unfold adjustCriteria. revert cs.
  induction adj as [|[k d] adj IH]; intro cs; [reflexivity|].
  cbn [fold_left fst snd]. rewrite IH.
  destruct (Obj.get cs k) as [v|] eqn:E; [|reflexivity].
  apply (keys_set_present cs k _ v E).
Qed.

Lemma keys_evaluateOption (o : TechnicalOption) :
  Obj.keys (KnowledgeBase.evaluateOption o) = Spec.sixCriteria.
Proof.
  unfold KnowledgeBase.evaluateOption, KnowledgeBase.getCriteriaForCategory.
  destruct (category_cases (category o)) as [Hc|[Hc|[Hc|Hc]]].
  - rewrite Hc. reflexivity.
  - rewrite Hc. reflexivity.
  - rewrite Hc. reflexivity.
  - rewrite (unknown_category_lookup _ Hc). reflexivity.
Qed.

(** X9: every score map that the engine builds has exactly the six
    standard criteria as its keys, in the same order: the knowledge base
    gives them to every option of every category, and neither the scoring
    rules nor the contextual adjustments add or remove a criterion, so
    each option score that [evaluate] returns holds these six keys. *)
Theorem score_maps_hold_the_six_criteria
    (options : list TechnicalOption) (constraints : UserConstraints) :
  (forall o, Obj.keys (KnowledgeBase.getComprehensiveEvaluation o) = Spec.sixCriteria)
  /\ (forall cs adj, Obj.keys (adjustCriteria cs adj) = Obj.keys cs)
  /\ (forall result,
        evaluate options constraints = Ok result ->
        Forall (fun s => Obj.keys (criteriaScores s) = Spec.sixCriteria)
               (scores result)).
Proof.
  assert (H6 : forall o,
             Obj.keys (KnowledgeBase.getComprehensiveEvaluation o) = Spec.sixCriteria).
  { intro o. unfold KnowledgeBase.getComprehensiveEvaluation.
    rewrite keys_applyScoreAdjustments. apply keys_evaluateOption. }
  split; [exact H6|]. split; [apply keys_adjustCriteria|].
  intros result. unfold evaluate.
  destruct (negb (isValid (validateTechnicalOptions options))); [discriminate|].
  intro H. injection H as <-. cbn [scores].
  unfold applyContextualAdjustments, calculateScores, processOptions.
  rewrite !map_map. apply Forall_forall. intros s Hs.
  apply in_map_iff in Hs. destruct Hs as (o & <- & _).
  cbn [criteriaScores option_]. rewrite keys_adjustCriteria.
  unfold calculateOptionScore. cbn [criteriaScores]. apply H6.
Qed.

Lemma score_maps_hold_the_six_criteria_witness :
  exists result,
    evaluate [aws; flutter] defaultConstraints = Ok result
    /\ Forall (fun s => Obj.keys (criteriaScores s) = Spec.sixCriteria)
              (scores result).
Proof.
  eexists. split; [reflexivity|].
  apply (score_maps_hold_the_six_criteria [aws; flutter] defaultConstraints).
  reflexivity.
Defined.

(** *** Adjustments only raise *)

Lemma clamp_raise (v d : Q) :
  0 <= v <= 100 -> 0 <= d -> v <= JS.clamp (v + d) <= 100 /\ JS.clamp (v + d) <= v + d.
Proof.
  intros [H0 H100] Hd. unfold JS.clamp.
  assert (Hmax : Qmax 0 (v + d) == v + d) by (apply Q.max_r; lra).
  repeat split.
  - apply Q.min_glb; [exact H100 | rewrite Hmax; lra].
  - apply Q.le_min_l.
  - rewrite <- Hmax at 2. apply Q.le_min_r.
Qed.

Lemma bump_raises (cs : list (string * Q)) (k k' : string) (d v : Q) :
  0 <= d -> Obj.get cs k' = Some v -> 0 <= v <= 100 ->
  exists v',
    Obj.get (match Obj.get cs k with
             | Some x => Obj.set cs k (JS.clamp (x + d))
             | None => cs
             end) k' = Some v'
    /\ v <= v' <= 100 /\ v' <= v + d.
Proof.
  intros Hd Hget Hv.
  destruct (Obj.get cs k) as [x|] eqn:E.
  - rewrite get_set. destruct (String.eqb k' k) eqn:Ek.
    + apply String.eqb_eq in Ek. subst k'. rewrite Hget in E. injection E as <-.
      exists (JS.clamp (v + d)). split; [reflexivity|].
      destruct (clamp_raise v d Hv Hd) as [H1 H2]. tauto.
    + exists v. split; [exact Hget|]. lra.
  - exists v. split; [exact Hget|]. lra.
Qed.

Lemma applyRule_raises (rule : ScoringRule) (cs : list (string * Q))
    (k : string) (v : Q) :
  0 <= scoreAdjustment rule -> Obj.get cs k = Some v -> 0 <= v <= 100 ->
  exists v', Obj.get (KnowledgeBase.applyRule rule cs) k = Some v' /\ v <= v' <= 100.
Proof.
  intro Hd. unfold KnowledgeBase.applyRule. revert cs v.
  induction (affectedCriteria rule) as [|c l IH]; intros cs v Hget Hv.
  - exists v. split; [exact Hget|]. lra.
  - cbn [fold_left].
    destruct (bump_raises cs c k (scoreAdjustment rule) v Hd Hget Hv)
      as (v1 & Hget1 & Hv1 & _).
    assert (Hb : 0 <= v1 <= 100) by lra.
    destruct (IH _ v1 Hget1 Hb) as (v2 & Hget2 & Hv2).
    exists v2. split; [exact Hget2|]. lra.
Qed.

Lemma rules_add (c : string) :
  Forall (fun r => 0 <= scoreAdjustment r) (KnowledgeBase.getScoringRulesForCategory c).
Proof.
  unfold KnowledgeBase.getScoringRulesForCategory.
  destruct (category_cases c) as [Hc|[Hc|[Hc|Hc]]].
  - rewrite Hc. cbn. repeat apply Forall_cons; try apply Forall_nil; cbn; discriminate.
  - rewrite Hc. cbn. repeat apply Forall_cons; try apply Forall_nil; cbn; discriminate.
  - rewrite Hc. cbn. repeat apply Forall_cons; try apply Forall_nil; cbn; discriminate.
  - rewrite (unknown_category_lookup _ Hc). apply Forall_nil.
Qed.

(** X10: the scoring rules of the knowledge base are bonuses: for every
    option and every score map, a criterion whose score is within [0,100]
    keeps its key, and its score after [applyScoreAdjustments] is at least
    the score it had and at most 100, whichever rules fire. *)
Theorem scoring_rules_only_raise
    (o : TechnicalOption) (cs : list (string * Q)) (criterion : string) (v : Q) :
  Obj.get cs criterion = Some v -> 0 <= v <= 100 ->
  exists v',
    Obj.get (KnowledgeBase.applyScoreAdjustments o cs) criterion = Some v'
    /\ v <= v' <= 100.
Proof.
  unfold KnowledgeBase.applyScoreAdjustments.
  pose proof (rules_add (category o)) as Hrules.
  revert v cs.
  induction Hrules as [|r rs Hr Hrs IH]; intros v cs Hget Hv.
  - exists v. split; [exact Hget|]. lra.
  - cbn [fold_left]. destruct (condition r o).
    + destruct (applyRule_raises r cs criterion v Hr Hget Hv) as (v1 & Hget1 & Hv1).
      assert (Hb : 0 <= v1 <= 100) by lra.
      destruct (IH v1 _ Hget1 Hb) as (v2 & Hget2 & Hv2).
      exists v2. split; [exact Hget2|]. lra.
    + apply IH; assumption.
Qed.

Lemma scoring_rules_only_raise_witness :
  exists v',
    Obj.get (KnowledgeBase.applyScoreAdjustments aws neutralScores) MAINTAINABILITY
    = Some v'
    /\ 50 <= v' <= 100.
Proof.
  apply (scoring_rules_only_raise aws neutralScores MAINTAINABILITY 50).
  - reflexivity.
  - split; discriminate.
Defined.

Lemma adjustments_range (o : TechnicalOption) (c : UserConstraints) :
  Forall (fun kv => 5 <= snd kv <= 20) (calculateContextualAdjustments o c).
Proof.
  unfold calculateContextualAdjustments.
  repeat match goal with
         | |- Forall _ (match ?x with _ => _ end) => destruct x
         | |- Forall _ (if ?b then _ else _) => destruct b
         | |- Forall _ (Obj.set _ _ _) =>
             apply (Forall_set (fun d => 5 <= d <= 20)); [|split; discriminate]
         | |- Forall _ [] => apply Forall_nil
         end.
Qed.

Lemma adjustments_keys_distinct (o : TechnicalOption) (c : UserConstraints) :
  NoDup (Obj.keys (calculateContextualAdjustments o c)).
Proof.
  rewrite adjustments_as_rules. apply NoDup_keys_assignRules. apply NoDup_nil.
Qed.

(** X11: the contextual adjustments never lower a score and raise it by
    20 points at most: for every option, constraints and score map, a
    criterion whose score is within [0,100] keeps its key, and its adjusted
    score is at least the score it had, at most 20 points above it and at
    most 100. *)
Theorem contextual_adjustments_only_raise
    (o : TechnicalOption) (c : UserConstraints) (cs : list (string * Q))
    (criterion : string) (v : Q) :
  Obj.get cs criterion = Some v -> 0 <= v <= 100 ->
  exists v',
    Obj.get (adjustCriteria cs (calculateContextualAdjustments o c)) criterion = Some v'
    /\ v <= v' /\ v' <= v + 20 /\ v' <= 100.
Proof.
  intros Hget Hv.
  rewrite (get_adjustCriteria _ cs criterion (adjustments_keys_distinct o c)).
  rewrite Hget.
  destruct (Obj.get (calculateContextualAdjustments o c) criterion) as [d|] eqn:E.
  - pose proof (adjustments_range o c) as Hr. rewrite Forall_forall in Hr.
    specialize (Hr _ (get_In _ _ _ E)). cbn [snd] in Hr.
    assert (Hd : 0 <= d) by lra.
    destruct (clamp_raise v d Hv Hd) as [[H1 H2] H3].
    exists (JS.clamp (v + d)). split; [reflexivity|]. repeat split; lra.
  - exists v. split; [reflexivity|]. repeat split; lra.
Qed.

Lemma contextual_adjustments_only_raise_witness :
  exists v',
    Obj.get (adjustCriteria neutralScores
               (calculateContextualAdjustments svelte rushedJuniors))
            LEARNING_CURVE = Some v'
    /\ 50 <= v' /\ v' <= 50 + 20 /\ v' <= 100.
Proof.
  apply (contextual_adjustments_only_raise svelte rushedJuniors neutralScores
           LEARNING_CURVE 50).
  - reflexivity.
  - split; discriminate.
Defined.

(** *** Letter case of the option name *)

Lemma evaluateOption_ext (o o' : TechnicalOption) (l : list EvaluationCriteria)
    (acc : list (string * Q)) :
  Forall (fun c => scoringFunction c o = scoringFunction c o') l ->
  fold_left (fun scores criterion =>
               Obj.set scores (crit_name criterion) (scoringFunction criterion o))
            l acc
  = fold_left (fun scores criterion =>
                 Obj.set scores (crit_name criterion) (scoringFunction criterion o'))
              l acc.
Proof.
  intro H. revert acc. induction H as [|c l Hc Hl IH]; intro acc; [reflexivity|].
  cbn [fold_left]. rewrite Hc. apply IH.
Qed.

Lemma applyScoreAdjustments_ext (o o' : TechnicalOption) (l : list ScoringRule)
    (acc : list (string * Q)) :
  Forall (fun r => condition r o = condition r o') l ->
  fold_left (fun adjustedScores rule =>
               if condition rule o then KnowledgeBase.applyRule rule adjustedScores
               else adjustedScores) l acc
  = fold_left (fun adjustedScores rule =>
                 if condition rule o' then KnowledgeBase.applyRule rule adjustedScores
                 else adjustedScores) l acc.
Proof.
  intro H. revert acc. induction H as [|r l Hr Hl IH]; intro acc; [reflexivity|].
  cbn [fold_left]. rewrite Hr. apply IH.
Qed.

Lemma scoring_by_name (n n' c : string) (m : option Metadata) :
  JS.toLowerCase n = JS.toLowerCase n' ->
  Forall (fun f => scoringFunction f {| name := n; category := c; metadata := m |}
                   = scoringFunction f {| name := n'; category := c; metadata := m |})
         (KnowledgeBase.getCriteriaForCategory c)
  /\ Forall (fun r => condition r {| name := n; category := c; metadata := m |}
                      = condition r {| name := n'; category := c; metadata := m |})
            (KnowledgeBase.getScoringRulesForCategory c).
Proof.
  intro Hn.
  unfold KnowledgeBase.getCriteriaForCategory, KnowledgeBase.getScoringRulesForCategory.
  destruct (category_cases c) as [Hc|[Hc|[Hc|Hc]]].
  - subst c. cbn. split; repeat apply Forall_cons; try apply Forall_nil; reflexivity.
  - subst c. cbn. split; repeat apply Forall_cons; try apply Forall_nil; reflexivity.
  - subst c. cbn. split; repeat apply Forall_cons; try apply Forall_nil;
      try reflexivity.
    + cbn [scoringFunction].
      unfold KnowledgeBase.scoreDatabaseCost, KnowledgeBase.withData.
      cbn [name metadata]. rewrite Hn. reflexivity.
    + cbn [scoringFunction].
      unfold KnowledgeBase.scoreDatabaseVendorLockIn, KnowledgeBase.withData.
      cbn [name metadata]. rewrite Hn. reflexivity.
  - rewrite (unknown_category_lookup _ Hc). cbn.
    split; repeat apply Forall_cons; try apply Forall_nil; reflexivity.
Qed.

Lemma getComprehensiveEvaluation_by_name (a b : TechnicalOption) :
  Spec.sameUpToCase a b ->
  KnowledgeBase.getComprehensiveEvaluation a = KnowledgeBase.getComprehensiveEvaluation b.
Proof.
  destruct a as [n c m], b as [n' c' m']. unfold Spec.sameUpToCase.
  cbn [name category metadata]. intros (Hn & <- & <-).
  destruct (scoring_by_name n n' c m Hn) as [Hf Hr].
  unfold KnowledgeBase.getComprehensiveEvaluation, KnowledgeBase.applyScoreAdjustments,
    KnowledgeBase.evaluateOption.
  cbn [category].
  rewrite (evaluateOption_ext _ _ _ _ Hf).
  apply applyScoreAdjustments_ext, Hr.
Qed.

Lemma processOption_by_name (a b : TechnicalOption) :
  Spec.sameUpToCase a b -> Spec.sameUpToCase (processOption a) (processOption b).
Proof.
  intros (Hn & Hc & Hm).
  pose proof (isKnownTechnology_by_name a b Hn Hc) as Hk.
  unfold Spec.sameUpToCase. rewrite !processOption_name, !processOption_category.
  split; [exact Hn|]. split; [exact Hc|].
  destruct (KnowledgeBase.isKnownTechnology a) eqn:Ea; symmetry in Hk.
  - unfold processOption. rewrite Ea, Hk. exact Hm.
  - rewrite (processOption_unknown a Ea), (processOption_unknown b Hk).
    cbn [metadata]. rewrite Hc, Hm. reflexivity.
Qed.

Lemma calculateContextualAdjustments_by_name (a b : TechnicalOption)
    (c : UserConstraints) :
  JS.toLowerCase (name a) = JS.toLowerCase (name b) ->
  calculateContextualAdjustments a c = calculateContextualAdjustments b c.
Proof.
  intro Hn. unfold calculateContextualAdjustments. rewrite Hn. reflexivity.
Qed.

(** X12: the engine reads an option's name in lower case only: two
    options that differ at most in the letter case of their names are
    known or unknown together, get the same criterion scores from the
    knowledge base and the same contextual adjustments, and end with the
    same criterion, weighted and normalized scores. *)
Theorem scores_ignore_letter_case (a b : TechnicalOption) (c : UserConstraints) :
  Spec.sameUpToCase a b ->
  KnowledgeBase.isKnownTechnology a = KnowledgeBase.isKnownTechnology b
  /\ KnowledgeBase.getComprehensiveEvaluation a
     = KnowledgeBase.getComprehensiveEvaluation b
  /\ calculateContextualAdjustments a c = calculateContextualAdjustments b c
  /\ map (fun s => (criteriaScores s, weightedScore s, normalizedScore s))
         (applyContextualAdjustments (calculateScores (processOptions [a]) c) c)
     = map (fun s => (criteriaScores s, weightedScore s, normalizedScore s))
           (applyContextualAdjustments (calculateScores (processOptions [b]) c) c).
Proof.
  intro H. pose proof H as (Hn & Hc & Hm).
  split; [apply isKnownTechnology_by_name; assumption|].
  split; [apply getComprehensiveEvaluation_by_name, H|].
  split; [apply calculateContextualAdjustments_by_name, Hn|].
  pose proof (processOption_by_name a b H) as Hp.
  pose proof (getComprehensiveEvaluation_by_name _ _ Hp) as He.
  destruct Hp as (Hpn & _ & _).
  cbn [processOptions calculateScores applyContextualAdjustments map].
  unfold calculateOptionScore. cbn [criteriaScores option_ weightedScore normalizedScore].
  rewrite He, (calculateContextualAdjustments_by_name _ _ c Hpn). reflexivity.
Qed.

Lemma scores_ignore_letter_case_witness :
  Spec.sameUpToCase awsLower awsUpper
  /\ KnowledgeBase.getComprehensiveEvaluation awsLower
     = KnowledgeBase.getComprehensiveEvaluation awsUpper.
Proof.
  assert (H : Spec.sameUpToCase awsLower awsUpper).
  { unfold Spec.sameUpToCase. repeat split; reflexivity. }
  split; [exact H|].
  apply (scores_ignore_letter_case awsLower awsUpper defaultConstraints H).
Defined.

End MoreScoring.

(** ** Further properties of the trade-off analysis *)

Section MoreTradeOffs.
Import ComparisonEngine.

Lemma Qmax_cases (a b : Q) : Qmax a b = a \/ Qmax a b = b.
Proof.
  unfold Qmax, GenericMinMax.gmax. destruct (a ?= b); auto.
Qed.

Lemma mathMax_from (xs : list Q) (acc : option Q) :
  let r := fold_left
             (fun acc x => match acc with
                           | None => Some x
                           | Some m => Some (Qmax m x)
                           end) xs acc in
  match r with
  | None => acc = None /\ xs = []
  | Some m =>
      (acc = Some m \/ In m xs)
      /\ (forall a, acc = Some a -> a <= m)
      /\ (forall x, In x xs -> x <= m)
  end.
Proof.
  revert acc. induction xs as [|x xs IH]; intro acc; cbn [fold_left].
  - destruct acc as [a|].
    + split; [left; reflexivity|]. split.
      * intros a' H. injection H as <-. apply Qle_refl.
      * intros x [].
    + split; reflexivity.
  - specialize (IH (match acc with None => Some x | Some m => Some (Qmax m x) end)).
    cbv zeta in IH.
    destruct (fold_left _ xs _) as [m|].
    + destruct IH as (Hin & Hacc & Hxs). split; [|split].
      * destruct Hin as [Hin | Hin]; [|right; right; exact Hin].
        destruct acc as [a|].
        -- injection Hin as <-. destruct (Qmax_cases a x) as [-> | ->];
             [left; reflexivity | right; left; reflexivity].
        -- injection Hin as <-. right. left. reflexivity.
      * intros a ->. eapply Qle_trans; [apply Q.le_max_l | apply Hacc; reflexivity].
      * intros y [<- | Hy]; [|apply Hxs, Hy].
        destruct acc as [a|].
        -- eapply Qle_trans; [apply Q.le_max_r | apply Hacc; reflexivity].
        -- apply Hacc. reflexivity.
    + destruct IH as [IH _]. destruct acc; discriminate.
Qed.

Lemma mathMax_spec (xs : list Q) :
  match mathMax xs with
  | None => xs = []
  | Some m => In m xs /\ forall x, In x xs -> x <= m
  end.
Proof.
  pose proof (mathMax_from xs None) as H. cbv zeta in H. unfold mathMax.
  destruct (fold_left _ xs None) as [m|].
  - destruct H as ([H | H] & _ & Hle); [discriminate|]. split; assumption.
  - apply H.
Qed.

Lemma unique_value {V} (o : list (string * V)) (k : string) (v v' : V) :
  NoDup (Obj.keys o) -> In (k, v) o -> In (k, v') o -> v = v'.
Proof.
  induction o as [|[k0 v0] o IH]; intros Hnd H1 H2; [destruct H1|].
  cbn [Obj.keys map fst] in Hnd. inversion Hnd as [|? ? Hnot Hnd']. subst.
  destruct H1 as [H1 | H1], H2 as [H2 | H2].
  - congruence.
  - injection H1 as -> ->. exfalso. apply Hnot.
    apply (in_map fst) in H2. exact H2.
  - injection H2 as -> ->. exfalso. apply Hnot.
    apply (in_map fst) in H1. exact H1.
  - apply IH; assumption.
Qed.

(** X13: [identifyCompromises] reports a compromise on a criterion of the
    option exactly when an option of another name leads on that criterion
    by more than 20 points (a score that an option lacks counting 0):
    no such lead is passed over, and nothing is reported against options
    of the same name. *)
Theorem compromise_iff_another_leads
    (optionScore : OptionScore) (allScores : list OptionScore)
    (constraints : UserConstraints) (criterion : string) (v : Q) :
  NoDup (Obj.keys (criteriaScores optionScore)) ->
  In (criterion, v) (criteriaScores optionScore) ->
  (exists c, In c (identifyCompromises optionScore allScores constraints)
             /\ compromise_affectedCriteria c = [criterion])
  <-> (exists other,
         In other allScores
         /\ name (option_ other) <> name (option_ optionScore)
         /\ 20 < scoreOrZero (criteriaScores other) criterion - v).
Proof.
  intros Hnd Hin. split.
  - intros (c & Hc & Haff).
    destruct (compromise_inv _ _ _ _ Hc) as (k & s & maxOther & Hk & Hmax & Hgap & _ & Hk').
    rewrite Haff in Hk'. injection Hk' as <-.
    pose proof (unique_value _ _ _ _ Hnd Hin Hk) as <-.
    pose proof (mathMax_spec (Spec.otherScoresOn optionScore allScores criterion)) as Hm.
    rewrite Hmax in Hm. destruct Hm as [Hm _].
    unfold Spec.otherScoresOn in Hm. apply in_map_iff in Hm.
    destruct Hm as (other & <- & Hother). apply filter_In in Hother.
    destruct Hother as [Hother Hname]. exists other.
    split; [exact Hother|]. split; [|exact Hgap].
    apply negb_true_iff, String.eqb_neq in Hname. exact Hname.
  - intros (other & Hother & Hname & Hgap).
    unfold identifyCompromises.
    pose proof (mathMax_spec (Spec.otherScoresOn optionScore allScores criterion)) as Hm.
    assert (Hmem : In (scoreOrZero (criteriaScores other) criterion)
                      (Spec.otherScoresOn optionScore allScores criterion)).
    { unfold Spec.otherScoresOn.
      apply (in_map (fun s => scoreOrZero (criteriaScores s) criterion)).
      apply filter_In. split; [exact Hother|].
      apply negb_true_iff, String.eqb_neq. exact Hname. }
    destruct (mathMax (Spec.otherScoresOn optionScore allScores criterion))
      as [m|] eqn:Em.
    + destruct Hm as [_ Hle]. specialize (Hle _ Hmem).
      assert (Hlt : JS.ltb 20 (m - v) = true) by (apply ltb_spec; lra).
      eexists. split.
      * apply in_flat_map. exists (criterion, v). split; [exact Hin|].
        cbn [fst snd]. unfold Spec.otherScoresOn in Em. rewrite Em, Hlt.
        left. reflexivity.
      * reflexivity.
    + rewrite Hm in Hmem. destruct Hmem.
Qed.

Lemma compromise_iff_another_leads_witness :
  exists c, In c (identifyCompromises trailing [trailing; leading] lowPriorities)
            /\ compromise_affectedCriteria c = [COST].
Proof.
  apply (compromise_iff_another_leads trailing [trailing; leading] lowPriorities COST 50).
  - cbn. repeat constructor. intros [].
  - left. reflexivity.
  - exists leading. split; [right; left; reflexivity|].
    split; [discriminate | reflexivity].
Defined.

(** *** The order of the impact tiers *)

(** X14: the impact tier is monotone: with a gap and a priority that are
    not negative, a larger gap or a higher priority never gives a lower
    tier. *)
Theorem determineImpact_monotone (d d' p p' : Q) :
  0 <= d -> 0 <= p -> d <= d' -> p <= p' ->
  (Spec.impactLevel (determineImpact d p)
   <= Spec.impactLevel (determineImpact d' p'))%nat.
Proof.
  intros Hd Hp Hdd Hpp.
  assert (Hle : d / 100 * p <= d' / 100 * p').
  { assert (H1 : d * p <= d' * p') by nra.
    assert (Ea : d / 100 * p == d * p * (1 # 100)) by field.
    assert (Eb : d' / 100 * p' == d' * p' * (1 # 100)) by field.
    rewrite Ea, Eb. lra. }
  unfold determineImpact. cbv zeta.
  destruct (JS.ltb (15 # 100) (d / 100 * p)) eqn:E1;
    destruct (JS.ltb (15 # 100) (d' / 100 * p')) eqn:E1';
    destruct (JS.ltb (8 # 100) (d / 100 * p)) eqn:E2;
    destruct (JS.ltb (8 # 100) (d' / 100 * p')) eqn:E2';
    cbn [Spec.impactLevel]; try lia;
    try apply ltb_spec in E1; try apply ltb_false in E1;
    try apply ltb_spec in E1'; try apply ltb_false in E1';
    try apply ltb_spec in E2; try apply ltb_false in E2;
    try apply ltb_spec in E2'; try apply ltb_false in E2'; exfalso; lra.
Qed.

Lemma determineImpact_monotone_witness :
  (Spec.impactLevel (determineImpact 10 1)
   <= Spec.impactLevel (determineImpact 25 3))%nat.
Proof.
  apply (determineImpact_monotone 10 25 1 3); discriminate.
Defined.

(** *** Strongest and weakest option *)

Lemma extremes_from (criterion : string) (scores : list OptionScore)
    (sw : OptionScore * OptionScore) (seen : list OptionScore) :
  let sc := fun s => scoreOrZero (criteriaScores s) criterion in
  In (fst sw) seen -> In (snd sw) seen ->
  (forall x, In x seen -> sc x <= sc (fst sw) /\ sc (snd sw) <= sc x) ->
  let r := fold_left
             (fun sw score =>
                let criterionScore := scoreOrZero (criteriaScores score) criterion in
                let strongestScore := scoreOrZero (criteriaScores (fst sw)) criterion in
                let weakestScore := scoreOrZero (criteriaScores (snd sw)) criterion in
                (if JS.ltb strongestScore criterionScore then score else fst sw,
                 if JS.ltb criterionScore weakestScore then score else snd sw))
             scores sw in
  In (fst r) (seen ++ scores) /\ In (snd r) (seen ++ scores)
  /\ forall x, In x (seen ++ scores) -> sc x <= sc (fst r) /\ sc (snd r) <= sc x.
Proof.
  intro sc. subst sc. cbv beta. revert sw seen.
  induction scores as [|s scores IH]; intros sw seen H1 H2 H3; cbn [fold_left].
  - rewrite app_nil_r. cbv zeta. repeat split; try assumption; apply H3; assumption.
  - cbv zeta in *.
    match goal with
    | |- context [fold_left ?f scores ?sw'] =>
        specialize (IH sw' (seen ++ [s])%list)
    end.
    cbn [fst snd] in IH. rewrite <- app_assoc in IH. cbn [app] in IH.
    apply IH.
    + destruct (JS.ltb _ _); apply in_or_app; [right; left; reflexivity | left; exact H1].
    + destruct (JS.ltb _ (scoreOrZero (criteriaScores (snd sw)) criterion));
        apply in_or_app; [right; left; reflexivity | left; exact H2].
    + intros x Hx. apply in_app_or in Hx.
      destruct (JS.ltb (scoreOrZero (criteriaScores (fst sw)) criterion)
                       (scoreOrZero (criteriaScores s) criterion)) eqn:E1;
        destruct (JS.ltb (scoreOrZero (criteriaScores s) criterion)
                         (scoreOrZero (criteriaScores (snd sw)) criterion)) eqn:E2;
        try apply ltb_spec in E1; try apply ltb_false in E1;
        try apply ltb_spec in E2; try apply ltb_false in E2;
        (destruct Hx as [Hx | [<- | []]];
         [destruct (H3 x Hx) as [Ha Hb]; split; lra
         | destruct (H3 _ H1) as [Ha Hb]; destruct (H3 _ H2) as [Hc Hd];
           split; lra]).
Qed.

Lemma extremes_spec (criterion : string) (first : OptionScore)
    (rest : list OptionScore) :
  let sc := fun s => scoreOrZero (criteriaScores s) criterion in
  let r := extremes criterion first (first :: rest) in
  In (fst r) (first :: rest) /\ In (snd r) (first :: rest)
  /\ forall x, In x (first :: rest) -> sc x <= sc (fst r) /\ sc (snd r) <= sc x.
Proof.
  intros sc r.
  pose proof (extremes_from criterion (first :: rest) (first, first) [first]) as H.
  cbv zeta in H. cbn [fst snd] in H.
  assert (H1 : In first [first]) by (left; reflexivity).
  specialize (H H1 H1).
  assert (H3 : forall x, In x [first] ->
                 scoreOrZero (criteriaScores x) criterion
                 <= scoreOrZero (criteriaScores first) criterion
                 /\ scoreOrZero (criteriaScores first) criterion
                    <= scoreOrZero (criteriaScores x) criterion).
  { intros x [<- | []]. split; apply Qle_refl. }
  specialize (H H3). fold (extremes criterion first (first :: rest)) in H.
  fold r in H. destruct H as (Ha & Hb & Hc).
  assert (Hsub : forall x, In x ([first] ++ first :: rest) -> In x (first :: rest)).
  { intros x [<- | Hx]; [left; reflexivity | exact Hx]. }
  split; [apply Hsub, Ha|]. split; [apply Hsub, Hb|].
  intros x Hx. apply Hc. right. exact Hx.
Qed.

Lemma byCriterion_get {A} (f g : string -> A) (l : list string)
    (acc : list (string * A) * list (string * A)) (k : string) :
  let r := fold_left
             (fun acc criterion =>
                (Obj.set (fst acc) criterion (f criterion),
                 Obj.set (snd acc) criterion (g criterion)))
             l acc in
  In k l -> Obj.get (fst r) k = Some (f k) /\ Obj.get (snd r) k = Some (g k).
Proof.
  revert acc. induction l as [|c l IH]; intros acc r Hin; [destruct Hin|].
  subst r. cbn [fold_left].
  destruct (in_dec string_dec k l) as [Hl | Hl].
  - apply IH, Hl.
  - destruct Hin as [-> | Hin]; [|contradiction].
    clear IH. revert acc. 
    assert (Hkeep : forall l' acc',
               ~ In k l' ->
               Obj.get (fst (fold_left
                               (fun acc criterion =>
                                  (Obj.set (fst acc) criterion (f criterion),
                                   Obj.set (snd acc) criterion (g criterion)))
                               l' acc')) k = Obj.get (fst acc') k
               /\ Obj.get (snd (fold_left
                                  (fun acc criterion =>
                                     (Obj.set (fst acc) criterion (f criterion),
                                      Obj.set (snd acc) criterion (g criterion)))
                                  l' acc')) k = Obj.get (snd acc') k).
    { induction l' as [|c' l' IH']; intros acc' Hn; [split; reflexivity|].
      cbn [fold_left].
      destruct (IH' (Obj.set (fst acc') c' (f c'), Obj.set (snd acc') c' (g c')))
        as [E1 E2].
      { intro H. apply Hn. right. exact H. }
      rewrite E1, E2. cbn [fst snd]. rewrite !get_set.
      assert (Hne : String.eqb k c' = false).
      { apply String.eqb_neq. intro H. apply Hn. left. symmetry. exact H. }
      rewrite Hne. split; reflexivity. }
    intro acc. destruct (Hkeep l (Obj.set (fst acc) k (f k), Obj.set (snd acc) k (g k)) Hl)
      as [E1 E2].
    rewrite E1, E2. cbn [fst snd]. rewrite !get_set_same. split; reflexivity.
Qed.

(** X15: for every criterion that occurs in some score map,
    [generateTradeOffAnalysis] names as strongest an option of the list
    whose score on the criterion is the highest, and as weakest one whose
    score is the lowest (a missing score counting 0). *)
Theorem tradeOffs_name_the_extremes
    (scores : list OptionScore) (constraints : UserConstraints)
    (criterion : string) :
  (exists s, In s scores /\ In criterion (Obj.keys (criteriaScores s))) ->
  exists strongest weakest,
    In strongest scores /\ In weakest scores
    /\ Obj.get (strongestOption (generateTradeOffAnalysis scores constraints)) criterion
       = Some (option_ strongest)
    /\ Obj.get (weakestOption (generateTradeOffAnalysis scores constraints)) criterion
       = Some (option_ weakest)
    /\ forall x, In x scores ->
         scoreOrZero (criteriaScores x) criterion
         <= scoreOrZero (criteriaScores strongest) criterion
         /\ scoreOrZero (criteriaScores weakest) criterion
            <= scoreOrZero (criteriaScores x) criterion.
Proof.
  intros (s & Hs & Hk).
  destruct scores as [|first rest]; [destruct Hs|].
  destruct (extremes_spec criterion first rest) as (Ha & Hb & Hc).
  exists (fst (extremes criterion first (first :: rest))),
         (snd (extremes criterion first (first :: rest))).
  split; [exact Ha|]. split; [exact Hb|].
  assert (Hall : In criterion
                   (newSet (flat_map (fun score => Obj.keys (criteriaScores score))
                                     (first :: rest)))).
  { apply In_newSet. apply in_flat_map. exists s. split; assumption. }
  unfold generateTradeOffAnalysis. cbn [strongestOption weakestOption].
  destruct (byCriterion_get
              (fun c => option_ (fst (extremes c first (first :: rest))))
              (fun c => option_ (snd (extremes c first (first :: rest))))
              _ ([], []) criterion Hall) as [E1 E2].
  split; [exact E1|]. split; [exact E2|]. exact Hc.
Qed.

Lemma tradeOffs_name_the_extremes_witness :
  exists strongest weakest,
    In strongest [trailing; leading] /\ In weakest [trailing; leading]
    /\ Obj.get (strongestOption
                  (generateTradeOffAnalysis [trailing; leading] lowPriorities)) COST
       = Some (option_ strongest)
    /\ Obj.get (weakestOption
                  (generateTradeOffAnalysis [trailing; leading] lowPriorities)) COST
       = Some (option_ weakest)
    /\ forall x, In x [trailing; leading] ->
         scoreOrZero (criteriaScores x) COST
         <= scoreOrZero (criteriaScores strongest) COST
         /\ scoreOrZero (criteriaScores weakest) COST
            <= scoreOrZero (criteriaScores x) COST.
Proof.
  apply (tradeOffs_name_the_extremes [trailing; leading] lowPriorities COST).
  exists trailing. split; left; reflexivity.
Defined.

End MoreTradeOffs.

(** ** Further properties of the validation *)

Section MoreValidation.
Import ComparisonEngine.

Lemma nonblank_nonempty (s : string) : JS.trim_is_empty s = false -> s <> "".
Proof. intros H ->. discriminate. Qed.

Lemma no_duplicate_errors_inv (options : list TechnicalOption) (i : nat)
    (seen : list string) :
  Forall (fun o => name o <> "") options ->
  duplicateErrors options i seen = [] ->
  NoDup (map duplicateKey options)
  /\ forall o, In o options -> ~ In (duplicateKey o) seen.
Proof.
  intro Hn. revert i seen.
  induction Hn as [|o options Ho Hn IH]; intros i seen Hd.
  - split; [apply NoDup_nil | intros o []].
  - cbn [duplicateErrors] in Hd.
    apply String.eqb_neq in Ho. rewrite Ho in Hd.
    destruct (JS.arrIncludes seen (duplicateKey o)) eqn:E; [discriminate|].
    apply arrIncludes_not_In in E.
    destruct (IH _ _ Hd) as [Hnd Hseen]. split.
    + cbn [map]. apply NoDup_cons; [|exact Hnd].
      intro Hin. apply in_map_iff in Hin. destruct Hin as (o' & Hkey & Ho').
      apply (Hseen o' Ho'). apply in_or_app. right. left. symmetry. exact Hkey.
    + intros o' [<- | Ho']; [exact E|].
      intro Hin. apply (Hseen o' Ho'). apply in_or_app. left. exact Hin.
Qed.

(** X16: [evaluate] returns a result exactly when the options are 2 or 3,
    every name holds a character that is not white space, every category
    is a non-empty string and the keys name-in-lower-case + "-" + category
    of the options are pairwise distinct; in every other case it throws. *)
Theorem evaluate_returns_iff
    (options : list TechnicalOption) (constraints : UserConstraints) :
  ((exists result, evaluate options constraints = Ok result)
   <-> ((2 <= List.length options <= 3)%nat
        /\ Forall (fun o => JS.trim_is_empty (name o) = false /\ category o <> "")
                  options
        /\ NoDup (map duplicateKey options)))
  /\ ((exists msg, evaluate options constraints = Throw msg)
      <-> ~ exists result, evaluate options constraints = Ok result).
Proof.
  assert (Hiff : isValid (validateTechnicalOptions options) = true
                 <-> ((2 <= List.length options <= 3)%nat
                      /\ Forall (fun o => JS.trim_is_empty (name o) = false
                                          /\ category o <> "") options
                      /\ NoDup (map duplicateKey options))).
  { split.
    - intro Hv.
      destruct (isValid (validateOptionCount options)) eqn:Ec.
      + destruct (validation_errors options Ec) as (_ & _ & Hvalid).
        rewrite Hv in Hvalid.
        destruct (flat_map errors (validateEach options 0)
                  ++ duplicateErrors options 0 [])%list eqn:E; [|discriminate].
        apply app_eq_nil in E. destruct E as [E1 E2].
        apply count_valid in Ec. apply each_errors in E1.
        split; [exact Ec|]. split; [exact E1|].
        apply (no_duplicate_errors_inv options 0 []); [|exact E2].
        eapply Forall_impl; [|exact E1].
        intros o [Hb _]. apply nonblank_nonempty, Hb.
      + rewrite (count_invalid options Ec) in Hv. discriminate.
    - intros (Hc & He & Hd).
      apply count_valid in Hc.
      destruct (validation_errors options Hc) as (_ & _ & Hvalid).
      rewrite Hvalid.
      apply (each_errors options 0) in He. rewrite He.
      rewrite (no_duplicate_errors options 0 [] Hd); [reflexivity|].
      intros o _ []. }
  assert (Hok : (exists result, evaluate options constraints = Ok result)
                <-> isValid (validateTechnicalOptions options) = true).
  { split.
    - intros (result & H). unfold evaluate in H.
      destruct (isValid (validateTechnicalOptions options)); [reflexivity|].
      discriminate.
    - intro H. destruct (evaluate_returns options constraints H) as (result & Hr & _).
      exists result. exact Hr. }
  split.
  - rewrite Hok. exact Hiff.
  - split.
    + intros (msg & Hm) (result & Hr). rewrite Hm in Hr. discriminate.
    + intro Hno. destruct (evaluate options constraints) as [result|msg] eqn:E.
      * exfalso. apply Hno. exists result. reflexivity.
      * exists msg. reflexivity.
Qed.

Lemma evaluate_returns_iff_witness :
  exists result, evaluate [aws; flutter] defaultConstraints = Ok result.
Proof.
  destruct (evaluate_returns_iff [aws; flutter] defaultConstraints) as [[_ H] _].
  apply H. split; [cbn; lia|]. split.
  - repeat apply Forall_cons; try apply Forall_nil; split; reflexivity || discriminate.
  - cbn. repeat apply NoDup_cons; try apply NoDup_nil; cbn; intuition discriminate.
Defined.

(** X17: a wrong number of options is reported alone: with fewer than 2
    options [evaluate] throws "Invalid options: At least 2 options are
    required for comparison", with more than 3 it throws "Invalid options:
    Maximum 3 options allowed for comparison", whatever else is wrong with
    the options given. *)
Theorem wrong_count_is_reported_alone
    (options : list TechnicalOption) (constraints : UserConstraints) :
  ((List.length options < 2)%nat ->
   evaluate options constraints
   = Throw "Invalid options: At least 2 options are required for comparison")
  /\ ((3 < List.length options)%nat ->
      evaluate options constraints
      = Throw "Invalid options: Maximum 3 options allowed for comparison").
Proof.
  unfold evaluate, validateTechnicalOptions, validateOptionCount, mkResult.
  split; intro H.
  - apply Nat.ltb_lt in H. rewrite H. reflexivity.
  - assert (H2 : (List.length options <? 2)%nat = false) by (apply Nat.ltb_ge; lia).
    apply Nat.ltb_lt in H. rewrite H2, H. reflexivity.
Qed.

Lemma wrong_count_is_reported_alone_witness :
  evaluate [hyphenA] defaultConstraints
  = Throw "Invalid options: At least 2 options are required for comparison"
  /\ evaluate [aws; aws; aws; aws] defaultConstraints
     = Throw "Invalid options: Maximum 3 options allowed for comparison".
Proof.
  split.
  - apply (wrong_count_is_reported_alone [hyphenA] defaultConstraints). cbn. lia.
  - apply (wrong_count_is_reported_alone [aws; aws; aws; aws] defaultConstraints).
    cbn. lia.
Defined.

End MoreValidation.

(** ** The footprint of [applyContextualAdjustments] *)

Section Footprint.
Import ComparisonEngineHeap.

Lemma applyContextualAdjustments_fresh (rs : list ref) (c : UserConstraints)
    (h h' : Heap) (out : list ref) :
  applyContextualAdjustments rs c h = Some (out, h') ->
  out = seq (List.length (optionScoreObjs h)) (List.length rs)
  /\ List.length (optionScoreObjs h')
     = (List.length (optionScoreObjs h) + List.length rs)%nat.
Proof.
  revert h h' out. induction rs as [|r rs IH]; intros h h' out H.
  - cbn in H. injection H as <- <-. cbn. split; [reflexivity | lia].
  - cbn [applyContextualAdjustments] in H.
    destruct (adjustOne c r h) as [[o1 h1]|] eqn:E1; [|discriminate].
    destruct (applyContextualAdjustments rs c h1) as [[o2 h2]|] eqn:E2; [|discriminate].
    injection H as <- <-.
    destruct (adjustOne_frame _ _ _ _ _ E1) as (Ho1 & Hlen & _ & _).
    destruct (IH _ _ _ E2) as [Ho2 Hlen2].
    rewrite Hlen in Ho2, Hlen2. cbn [List.length seq]. split.
    + rewrite Ho1, Ho2. reflexivity.
    + lia.
Qed.

(** X18: what a call of [applyContextualAdjustments] touches.  Given
    references to existing objects, the call returns fresh references (the
    next free indexes, one per input), leaves every field of every
    existing [OptionScore] object as it was, allocates no score map, and
    writes to no score map other than those that the inputs refer to. *)
Theorem applyContextualAdjustments_footprint (rs : list ref) (c : UserConstraints)
    (h h' : Heap) (out : list ref) :
  applyContextualAdjustments rs c h = Some (out, h') ->
  Forall (fun r => (r < List.length (optionScoreObjs h))%nat) rs ->
  out = seq (List.length (optionScoreObjs h)) (List.length rs)
  /\ List.length (optionScoreObjs h')
     = (List.length (optionScoreObjs h) + List.length rs)%nat
  /\ (forall r, (r < List.length (optionScoreObjs h))%nat -> readObj h' r = readObj h r)
  /\ List.length (scoreMaps h') = List.length (scoreMaps h)
  /\ (forall x, ~ In x (mapsOf h rs) -> readMap h' x = readMap h x).
Proof.
  intros H Hvalid.
  destruct (applyContextualAdjustments_fresh _ _ _ _ _ H) as [Hout Hlen].
  destruct (applyContextualAdjustments_frame _ _ _ _ _ H) as (_ & _ & Hmaps & Hobjs).
  split; [exact Hout|]. split; [exact Hlen|]. split; [exact Hobjs|].
  split; [exact Hmaps|].
  intros x Hx. apply (applyContextualAdjustments_other _ _ _ _ _ _ H Hvalid Hx).
Qed.

Lemma applyContextualAdjustments_footprint_witness :
  exists out h',
    applyContextualAdjustments [0%nat] rushedJuniors oneScore = Some (out, h')
    /\ out = [1%nat]
    /\ readObj h' 0%nat = readObj oneScore 0%nat.
Proof.
  eexists. eexists. split; [reflexivity|].
  destruct (applyContextualAdjustments_footprint [0%nat] rushedJuniors oneScore _ _
              eq_refl) as (Hout & _ & Hobj & _).
  - repeat constructor.
  - split; [exact Hout|]. apply Hobj. cbn. lia.
Defined.

Lemma applyContextualAdjustments_values_witness :
  exists out h',
    applyContextualAdjustments [0%nat] rushedJuniors oneScore = Some (out, h')
    /\ Forall2 (fun r v => valueOf h' r = Some v) out
               (ComparisonEngine.applyContextualAdjustments [neutralSvelte]
                                                            rushedJuniors).
Proof.
  apply (applyContextualAdjustments_values [0%nat] rushedJuniors oneScore
           [neutralSvelte]).
  - constructor; [reflexivity | constructor].
  - cbn. constructor; [intros [] | constructor].
Defined.

End Footprint.

(** ** Further properties of the output generator *)

Section MoreConfidence.
Import OutputGenerator.
Local Open Scope R_scope.

(** X20: the recommendation confidence is a number between 0.1 and 1
    whenever it is a number; it is 0.5 when fewer than two options are
    ranked; and it is not a number ([NaN]) exactly when at least two
    options are ranked and the score map of the top-ranked option is
    empty. *)
Theorem confidence_range_and_NaN (result : EvaluationResult)
    (constraints : UserConstraints) :
  (forall c, calculateRecommendationConfidence result constraints = Some c ->
             1 / 10 <= c <= 1)
  /\ ((List.length (rankings result) < 2)%nat ->
      calculateRecommendationConfidence result constraints = Some (5 / 10))
  /\ (calculateRecommendationConfidence result constraints = None
      <-> exists top second rest s,
            rankings result = top :: second :: rest
            /\ findByName (scores result) (name (ranked_option top)) = Some s
            /\ criteriaScores s = []).
Proof.
  unfold calculateRecommendationConfidence, calculateConsistencyBonus.
  destruct (rankings result) as [|top [|second rest]] eqn:Er.
  - split; [|split].
    + intros c H. injection H as <-. lra.
    + reflexivity.
    + split; [discriminate | intros (? & ? & ? & ? & H & _); discriminate].
  - split; [|split].
    + intros c H. injection H as <-. lra.
    + reflexivity.
    + split; [discriminate | intros (? & ? & ? & ? & H & _); discriminate].
  - assert (Hrange : forall x, 1 / 10 <= Rmax (1 / 10) (Rmin 1 x) <= 1).
    { intro x. split; [apply Rmax_l|].
      apply Rmax_lub; [lra | apply Rmin_l]. }
    destruct (findByName (scores result) (name (ranked_option top))) as [s|] eqn:Ef.
    + destruct (criteriaScores s) as [|kv cs] eqn:Ecs.
      * cbn [Obj.values map]. split; [|split].
        -- discriminate.
        -- cbn [List.length]. lia.
        -- split; [|reflexivity]. intros _.
           exists top, second, rest, s.
           split; [reflexivity|]. split; [exact Ef | exact Ecs].
      * cbn [Obj.values map]. split; [|split].
        -- intros c H. injection H as <-. apply Hrange.
        -- cbn [List.length]. lia.
        -- split; [discriminate|].
           intros (top' & second' & rest' & s' & Hr & Hs & Hnil).
           injection Hr as <- <- <-. rewrite Hs in Ef. injection Ef as <-.
           rewrite Hnil in Ecs. discriminate.
    + split; [|split].
      * intros c H. injection H as <-. apply Hrange.
      * cbn [List.length]. lia.
      * split; [discriminate|].
        intros (top' & second' & rest' & s' & Hr & Hs & _).
        injection Hr as <- <- <-. rewrite Hs in Ef. discriminate.
Qed.

Lemma confidence_range_and_NaN_witness :
  calculateRecommendationConfidence noScores defaultConstraints = None.
Proof.
  apply (confidence_range_and_NaN noScores defaultConstraints).
  eexists. eexists. eexists. eexists. repeat split; reflexivity.
Defined.

(** X21: with priorities that are not negative and criterion scores
    within [0,100], the priority alignment of an option lies between 0
    and 1; the consistency bonus, when it is a number, lies between 0 and
    0.2. *)
Theorem alignment_and_bonus_ranges (result : EvaluationResult)
    (s : OptionScore) (constraints : UserConstraints) :
  (Spec.nonNegative (priorities constraints) ->
   Spec.allInBounds (criteriaScores s) ->
   (0 <= calculatePriorityAlignment s constraints <= 1)%Q)
  /\ (forall bonus, calculateConsistencyBonus result = Some bonus ->
                    0 <= bonus <= 2 / 10).
Proof.
  split; [apply alignment_range|].
  intros bonus. unfold calculateConsistencyBonus.
  destruct (rankings result) as [|top rest]; [discriminate|].
  destruct (findByName (scores result) (name (ranked_option top))) as [t|].
  - destruct (Obj.values (criteriaScores t)); [discriminate|].
    intro H. injection H as <-. apply bonusOf_range.
  - intro H. injection H as <-. lra.
Qed.

Lemma alignment_and_bonus_ranges_witness :
  (0 <= calculatePriorityAlignment spiky defaultConstraints <= 1)%Q.
Proof.
  apply (alignment_and_bonus_ranges wideResult spiky defaultConstraints).
  - unfold Spec.nonNegative. cbn. repeat split; discriminate.
  - unfold Spec.allInBounds, Spec.inBounds. cbn.
    repeat apply Forall_cons; try apply Forall_nil; cbn; split; discriminate.
Defined.

End MoreConfidence.

Section Scenarios.
Import OutputGenerator.

(** *** The best option for a criterion *)

Lemma best_from (criterion : string) (scores : list OptionScore)
    (best : option TechnicalOption * Q) :
  let sc := fun s => ComparisonEngine.scoreOrZero (criteriaScores s) criterion in
  let r := fold_left
             (fun best score =>
                let criterionScore :=
                  ComparisonEngine.scoreOrZero (criteriaScores score) criterion in
                if JS.ltb (snd best) criterionScore
                then (Some (option_ score), criterionScore)
                else best)
             scores best in
  (r = best /\ Forall (fun x => sc x <= snd best) scores)
  \/ (exists before s after,
        scores = (before ++ s :: after)%list
        /\ r = (Some (option_ s), sc s)
        /\ snd best < sc s
        /\ Forall (fun x => sc x < sc s) before
        /\ Forall (fun x => sc x <= sc s) after).
Proof.
  intro sc. subst sc. cbv beta zeta. revert best.
  induction scores as [|s0 scores IH]; intro best; cbn [fold_left].
  - left. split; [reflexivity | apply Forall_nil].
  - destruct (JS.ltb (snd best)
                (ComparisonEngine.scoreOrZero (criteriaScores s0) criterion)) eqn:E.
    + apply ltb_spec in E. right.
      destruct (IH (Some (option_ s0),
                    ComparisonEngine.scoreOrZero (criteriaScores s0) criterion))
        as [[Hr Hall] | (before & s & after & Hs & Hr & Hlt & Hb & Ha)].
      * exists [], s0, scores. cbn [snd] in Hall.
        repeat split; try assumption. apply Forall_nil.
      * exists (s0 :: before), s, after. cbn [snd] in Hlt.
        split; [rewrite Hs; reflexivity|]. split; [exact Hr|].
        split; [lra|]. split; [|exact Ha].
        apply Forall_cons; [exact Hlt | exact Hb].
    + apply ltb_false in E.
      destruct (IH best) as [[Hr Hall] | (before & s & after & Hs & Hr & Hlt & Hb & Ha)].
      * left. split; [exact Hr|]. apply Forall_cons; [exact E | exact Hall].
      * right. exists (s0 :: before), s, after.
        split; [rewrite Hs; reflexivity|]. split; [exact Hr|].
        split; [exact Hlt|]. split; [|exact Ha].
        apply Forall_cons; [lra | exact Hb].
Qed.

(** X22: [findBestOptionForCriterion] returns the option of the first
    score record whose score on the criterion (a missing score counting 0)
    is the highest, provided that this score is above -1; it returns
    [null] only when no score is above -1, in particular for an empty
    list of scores. *)
Theorem findBestOptionForCriterion_first_maximum
    (result : EvaluationResult) (criterion : string) :
  let sc := fun s => ComparisonEngine.scoreOrZero (criteriaScores s) criterion in
  match findBestOptionForCriterion result criterion with
  | Some best =>
      exists before s after,
        scores result = (before ++ s :: after)%list
        /\ best = option_ s
        /\ - (1) < sc s
        /\ Forall (fun x => sc x < sc s) before
        /\ Forall (fun x => sc x <= sc s) after
  | None => Forall (fun x => sc x <= - (1)) (scores result)
  end.
Proof.
  intro sc. subst sc. cbv beta. unfold findBestOptionForCriterion.
  pose proof (best_from criterion (scores result) (None, - (1))) as H.
  cbv beta zeta in H.
  destruct H as [[Hr Hall] | (before & s & after & Hs & Hr & Hlt & Hb & Ha)];
    rewrite Hr; cbn [fst].
  - exact Hall.
  - exists before, s, after. repeat split; assumption.
Qed.

Lemma findBestOptionForCriterion_In (result : EvaluationResult) (criterion : string)
    (best : TechnicalOption) :
  findBestOptionForCriterion result criterion = Some best ->
  exists s, In s (scores result) /\ best = option_ s.
Proof.
  intro H. pose proof (best_from criterion (scores result) (None, - (1))) as Hb.
  cbv beta zeta in Hb. unfold findBestOptionForCriterion in H.
  destruct Hb as [[Hr _] | (before & s & after & Hs & Hr & _)];
    rewrite Hr in H; cbn [fst] in H.
  - discriminate.
  - injection H as <-. exists s. split; [|reflexivity].
    rewrite Hs. apply in_or_app. right. left. reflexivity.
Qed.

(** *** The top priority *)

Lemma first_maximum_from (l : list (string * Q)) (acc : string * Q) :
  let r := fold_left
             (fun max current => if JS.ltb (snd max) (snd current) then current else max)
             l acc in
  (r = acc /\ Forall (fun x => snd x <= snd acc) l)
  \/ (exists before x after,
        l = (before ++ x :: after)%list /\ r = x /\ snd acc < snd x
        /\ Forall (fun y => snd y < snd x) before
        /\ Forall (fun y => snd y <= snd x) after).
Proof.
  cbv zeta. revert acc. induction l as [|x0 l IH]; intro acc; cbn [fold_left].
  - left. split; [reflexivity | apply Forall_nil].
  - destruct (JS.ltb (snd acc) (snd x0)) eqn:E.
    + apply ltb_spec in E. right.
      destruct (IH x0) as [[Hr Hall] | (before & x & after & Hl & Hr & Hlt & Hb & Ha)].
      * exists [], x0, l. repeat split; try assumption. apply Forall_nil.
      * exists (x0 :: before), x, after.
        split; [rewrite Hl; reflexivity|]. split; [exact Hr|].
        split; [lra|]. split; [|exact Ha].
        apply Forall_cons; [exact Hlt | exact Hb].
    + apply ltb_false in E.
      destruct (IH acc) as [[Hr Hall] | (before & x & after & Hl & Hr & Hlt & Hb & Ha)].
      * left. split; [exact Hr|]. apply Forall_cons; [exact E | exact Hall].
      * right. exists (x0 :: before), x, after.
        split; [rewrite Hl; reflexivity|]. split; [exact Hr|].
        split; [exact Hlt|]. split; [|exact Ha].
        apply Forall_cons; [lra | exact Hb].
Qed.

(** X23: whatever the order in which the five keys were written into the
    priorities object, [getTopPriority] returns the criterion of the first
    entry of [Object.entries(priorities)] whose weight is the highest: the
    entries before it weigh strictly less, those after it at most as much.
    On an object written in the order of the type this is the value of
    the record function. *)
Theorem getTopPriority_first_maximum (priorityEntries : list (string * Q)) :
  Permutation (map fst priorityEntries) priorityKeys ->
  (exists before k v after,
     priorityEntries = (before ++ (k, v) :: after)%list
     /\ getTopPriorityFrom priorityEntries = Ok (mapPriorityToCriterion k)
     /\ Forall (fun x => snd x < v) before
     /\ Forall (fun x => snd x <= v) after)
  /\ forall p, getTopPriorityFrom (entries p) = Ok (getTopPriority p).
Proof.
  intro Hkeys. split; [|reflexivity].
  unfold getTopPriorityFrom.
  destruct priorityEntries as [|first rest].
  - apply Permutation_length in Hkeys. discriminate.
  - destruct (first_maximum_from rest first)
      as [[Hr Hall] | (before & x & after & Hl & Hr & Hlt & Hb & Ha)];
      cbv zeta in Hr; rewrite Hr.
    + exists [], (fst first), (snd first), rest. destruct first as [k v].
      cbn [fst snd app] in *. repeat split; [apply Forall_nil | exact Hall].
    + exists (first :: before), (fst x), (snd x), after. destruct x as [k v].
      cbn [fst snd] in *. split; [rewrite Hl; reflexivity|].
      split; [reflexivity|]. split; [|exact Ha].
      apply Forall_cons; [exact Hlt | exact Hb].
Qed.

Lemma getTopPriority_first_maximum_witness :
  exists before k v after,
    [ ("vendorLockIn", 5); ("scalability", 3); ("easeOfUse", 3);
      ("performance", 3); ("cost", 5) ]
    = (before ++ (k, v) :: after)%list
    /\ getTopPriorityFrom
         [ ("vendorLockIn", 5); ("scalability", 3); ("easeOfUse", 3);
           ("performance", 3); ("cost", 5) ]
       = Ok (mapPriorityToCriterion k)
    /\ Forall (fun x => snd x < v) before
    /\ Forall (fun x => snd x <= v) after.
Proof.
  apply (getTopPriority_first_maximum
           [ ("vendorLockIn", 5); ("scalability", 3); ("easeOfUse", 3);
             ("performance", 3); ("cost", 5) ]).
  unfold priorityKeys. cbn [map fst].
  apply Permutation_sym.
  apply (Permutation_cons_app ["vendorLockIn"; "scalability"; "easeOfUse"; "performance"] []).
  apply (Permutation_cons_app ["vendorLockIn"; "scalability"; "easeOfUse"] []).
  apply (Permutation_cons_app ["vendorLockIn"; "scalability"] []).
  apply (Permutation_cons_app ["vendorLockIn"] []).
  apply Permutation_refl.
Defined.

(** *** Key differences *)

Lemma insertByGap_perm (a : KeyDifference) (l : list KeyDifference) :
  Permutation (insertByGap a l) (a :: l).
Proof.
  induction l as [|b l IH]; cbn [insertByGap].
  - apply Permutation_refl.
  - destruct (Qle_bool (gap b - gap a) 0).
    + apply Permutation_refl.
    + apply perm_trans with (b :: a :: l).
      * apply perm_skip. exact IH.
      * apply perm_swap.
Qed.

Lemma sortByGap_perm (l : list KeyDifference) : Permutation (sortByGap l) l.
Proof.
  induction l as [|a l IH]; cbn [sortByGap fold_right].
  - apply perm_nil.
  - apply perm_trans with (a :: sortByGap l).
    + apply insertByGap_perm.
    + apply perm_skip. exact IH.
Qed.

Lemma insertByGap_sorted (a : KeyDifference) (l : list KeyDifference) :
  StronglySorted (fun x y => gap y <= gap x) l ->
  StronglySorted (fun x y => gap y <= gap x) (insertByGap a l).
Proof.
  induction 1 as [|b l Hl IH Hb]; cbn [insertByGap].
  - repeat constructor.
  - destruct (Qle_bool (gap b - gap a) 0) eqn:E.
    + apply Qle_bool_iff in E. constructor.
      * constructor; assumption.
      * constructor; [lra|].
        eapply Forall_impl; [|exact Hb]. intros c Hc. cbn beta in Hc. lra.
    + assert (Hba : gap a <= gap b).
      { destruct (Qlt_le_dec (gap b) (gap a)) as [Hlt|Hle]; [|exact Hle].
        exfalso. assert (H' : Qle_bool (gap b - gap a) 0 = true)
          by (apply Qle_bool_iff; lra).
        congruence. }
      constructor; [exact IH|].
      apply (Permutation_Forall (Permutation_sym (insertByGap_perm a l))).
      constructor; assumption.
Qed.

Lemma sortByGap_sorted (l : list KeyDifference) :
  StronglySorted (fun x y => gap y <= gap x) (sortByGap l).
Proof.
  induction l as [|a l IH]; cbn [sortByGap fold_right].
  - constructor.
  - apply insertByGap_sorted. exact IH.
Qed.

(** X24: [findKeyDifferences] reports exactly the criteria of the two
    score maps on which the scores (a missing one counting 0) differ by
    more than 15 points: each entry names as winner the option with the
    higher score, carries the two scores and their distance as gap, and
    the entries come by non-increasing gap. *)
Theorem findKeyDifferences_reports_gaps_over_15 (option1 option2 : OptionScore) :
  let s1 := fun k => ComparisonEngine.scoreOrZero (criteriaScores option1) k in
  let s2 := fun k => ComparisonEngine.scoreOrZero (criteriaScores option2) k in
  let ds := findKeyDifferences option1 option2 in
  (forall d, In d ds ->
     exists criterion,
       kd_criterion d = formatCriterionName criterion
       /\ 15 < gap d /\ gap d == winnerScore d - loserScore d
       /\ ((s2 criterion < s1 criterion
            /\ winner d = name (option_ option1) /\ loser d = name (option_ option2)
            /\ winnerScore d == s1 criterion /\ loserScore d == s2 criterion)
           \/ (s1 criterion < s2 criterion
               /\ winner d = name (option_ option2) /\ loser d = name (option_ option1)
               /\ winnerScore d == s2 criterion /\ loserScore d == s1 criterion)))
  /\ StronglySorted (fun a b => gap b <= gap a) ds
  /\ (forall criterion,
        In criterion (Obj.keys (criteriaScores option1)
                      ++ Obj.keys (criteriaScores option2))%list ->
        15 < Qabs (s1 criterion - s2 criterion) ->
        exists d, In d ds /\ kd_criterion d = formatCriterionName criterion
                  /\ gap d = Qabs (s1 criterion - s2 criterion)).
Proof.
  intros s1 s2 ds. subst s1 s2 ds. cbv beta. unfold findKeyDifferences.
  split; [|split].
  - intros d Hd.
    apply (Permutation_in _ (sortByGap_perm _)) in Hd.
    apply in_flat_map in Hd. destruct Hd as (criterion & _ & Hd).
    exists criterion.
    set (x := ComparisonEngine.scoreOrZero (criteriaScores option1) criterion) in *.
    set (y := ComparisonEngine.scoreOrZero (criteriaScores option2) criterion) in *.
    destruct (JS.ltb 15 (Qabs (x - y))) eqn:E; [|destruct Hd].
    apply ltb_spec in E. destruct Hd as [<- | []].
    cbn [kd_criterion gap winner loser winnerScore loserScore].
    split; [reflexivity|]. split; [exact E|].
    destruct (JS.ltb y x) eqn:Exy.
    + apply ltb_spec in Exy.
      assert (Hmax : Qmax x y == x) by (apply Q.max_l; lra).
      assert (Hmin : Qmin x y == y) by (apply Q.min_r; lra).
      assert (Habs : Qabs (x - y) == x - y) by (apply Qabs_pos; lra).
      split; [rewrite Hmax, Hmin; exact Habs|].
      left. repeat split; assumption.
    + apply ltb_false in Exy.
      assert (Hmax : Qmax x y == y) by (apply Q.max_r; lra).
      assert (Hmin : Qmin x y == x) by (apply Q.min_l; lra).
      assert (Habs : Qabs (x - y) == y - x).
      { rewrite Qabs_neg by lra. ring. }
      split; [rewrite Hmax, Hmin; exact Habs|].
      right. rewrite Habs in E. repeat split; try assumption. lra.
  - apply sortByGap_sorted.
  - intros criterion Hin Hgap.
    eexists. split; [|split].
    + apply (Permutation_in _ (Permutation_sym (sortByGap_perm _))).
      apply in_flat_map. exists criterion.
      split; [apply In_newSet, Hin|].
      apply ltb_spec in Hgap. rewrite Hgap. left. reflexivity.
    + reflexivity.
    + reflexivity.
Qed.

Lemma findKeyDifferences_reports_gaps_over_15_witness :
  exists d, In d (findKeyDifferences trailing leading)
            /\ kd_criterion d = "Cost Effectiveness"
            /\ gap d = Qabs (50 - 71).
Proof.
  destruct (findKeyDifferences_reports_gaps_over_15 trailing leading) as (_ & _ & H).
  apply (H COST).
  - left. reflexivity.
  - reflexivity.
Defined.

(** *** Alternative scenarios *)

Lemma In_firstn {A} (n : nat) (l : list A) (x : A) : In x (firstn n l) -> In x l.
Proof.
  revert l. induction n as [|n IH]; intros [|y l]; cbn [firstn In].
  - intros [].
  - intros [].
  - intros [].
  - intros [<- | H]; [left; reflexivity | right; apply IH, H].
Qed.

Lemma scenarioFor_spec (best : option TechnicalOption) (top : TechnicalOption)
    (title : string) (reasoningOf : string -> string) (s : AlternativeScenario) :
  In s (scenarioFor best top title reasoningOf) ->
  best = Some (recommendedOption s) /\ name (recommendedOption s) <> name top.
Proof.
  unfold scenarioFor. destruct best as [o|]; [|intros []].
  destruct (String.eqb (name o) (name top)) eqn:E; cbn [negb]; [intros []|].
  intros [<- | []]. cbn [recommendedOption].
  split; [reflexivity | apply String.eqb_neq, E].
Qed.

Lemma createPriorityScenario_option (priority : string) (o : TechnicalOption)
    (result : EvaluationResult) (s : AlternativeScenario) :
  createPriorityScenario priority o result = Some s -> recommendedOption s = o.
Proof.
  unfold createPriorityScenario.
  destruct (Obj.get _ priority) as [n|]; [|discriminate].
  destruct (String.eqb n ""); [discriminate|].
  intro H. injection H as <-. reflexivity.
Qed.

Lemma findBestEnterpriseFrom_In (scores : list OptionScore)
    (best : option TechnicalOption * Q) (o : TechnicalOption) :
  findBestEnterpriseFrom scores best = Ok (Some o) ->
  fst best = Some o \/ exists s, In s scores /\ o = option_ s.
Proof.
  revert best. induction scores as [|s scores IH]; intros best H.
  - cbn in H. injection H as H. left. exact H.
  - cbn [findBestEnterpriseFrom] in H.
    destruct (metadata (option_ s)) as [data|]; [|discriminate].
    apply IH in H. destruct H as [H | (s' & Hs' & Ho)].
    + destruct (JS.ltb _ _); cbn [fst] in H.
      * injection H as <-. right. exists s. split; [left|]; reflexivity.
      * left. exact H.
    + right. exists s'. split; [right; exact Hs' | exact Ho].
Qed.

Lemma findBestEnterpriseFrom_throws (scores : list OptionScore)
    (best : option TechnicalOption * Q) :
  (exists msg, findBestEnterpriseFrom scores best = Throw msg)
  <-> exists s, In s scores /\ metadata (option_ s) = None.
Proof.
  revert best. induction scores as [|s scores IH]; intro best.
  - cbn. split; [intros (msg & H); discriminate | intros (s & [] & _)].
  - cbn [findBestEnterpriseFrom].
    destruct (metadata (option_ s)) as [data|] eqn:E.
    + rewrite IH. split.
      * intros (s' & Hs' & Hm). exists s'. split; [right; exact Hs' | exact Hm].
      * intros (s' & [<- | Hs'] & Hm); [congruence|].
        exists s'. split; assumption.
    + split.
      * intros _. exists s. split; [left; reflexivity | exact E].
      * intros _. eexists. reflexivity.
Qed.

(** X25: the alternative scenarios that [generateAlternativeScenarios]
    returns are 4 at most, each recommends an option of the evaluated
    scores, and none recommends an option that bears the name of the
    top-ranked option. *)
Theorem alternative_scenarios_recommend_another_option
    (result : EvaluationResult) (constraints : UserConstraints)
    (scenarios : list AlternativeScenario) :
  generateAlternativeScenarios result constraints = Ok scenarios ->
  (List.length scenarios <= 4)%nat
  /\ forall s, In s scenarios ->
       (exists sc, In sc (scores result) /\ recommendedOption s = option_ sc)
       /\ exists top rest,
            rankings result = top :: rest
            /\ name (recommendedOption s) <> name (ranked_option top).
Proof.
  unfold generateAlternativeScenarios.
  destruct (rankings result) as [|top rest] eqn:Er.
  { intro H. injection H as <-. split; [cbn; lia | intros s []]. }
  destruct (List.length (top :: rest) <? 2)%nat.
  { intro H. injection H as <-. split; [cbn; lia | intros s []]. }
  destruct (generateScaleBasedScenarios result constraints) as [scale|msg] eqn:Es;
    [|discriminate].
  intro H.
  assert (E : scenarios
              = firstn 4 (generatePriorityBasedScenarios result constraints
                          ++ generateContextBasedScenarios result constraints
                          ++ scale)%list)
    by (injection H as <-; reflexivity).
  clear H. subst scenarios.
  split; [apply firstn_le_length|].
  intros s Hs. apply In_firstn in Hs.
  assert (Hbest : forall best title f,
             (forall o, best = Some o -> exists sc, In sc (scores result) /\ o = option_ sc) ->
             In s (scenarioFor best (ranked_option top) title f) ->
             (exists sc, In sc (scores result) /\ recommendedOption s = option_ sc)
             /\ exists top' rest',
                  top :: rest = top' :: rest'
                  /\ name (recommendedOption s) <> name (ranked_option top')).
  { intros best title f Hb Hin. apply scenarioFor_spec in Hin.
    destruct Hin as [Hbo Hne]. split; [apply Hb, Hbo|].
    exists top, rest. split; [reflexivity | exact Hne]. }
  assert (Hcrit : forall k o,
             findBestOptionForCriterion result k = Some o ->
             exists sc, In sc (scores result) /\ o = option_ sc).
  { intros k o. apply findBestOptionForCriterion_In. }
  apply in_app_or in Hs. destruct Hs as [Hs | Hs].
  - unfold generatePriorityBasedScenarios in Hs. rewrite Er in Hs.
    apply in_flat_map in Hs. destruct Hs as (priority & _ & Hs).
    destruct (String.eqb _ _); [destruct Hs|].
    destruct (findBestOptionForCriterion result (mapPriorityToCriterion priority))
      as [best|] eqn:Eb; [|destruct Hs].
    destruct (String.eqb (name best) (name (ranked_option top))) eqn:En;
      cbn [negb] in Hs; [destruct Hs|].
    destruct (createPriorityScenario priority best result) as [s'|] eqn:Ec;
      [|destruct Hs].
    destruct Hs as [<- | []].
    rewrite (createPriorityScenario_option _ _ _ _ Ec). split.
    + apply (Hcrit _ _ Eb).
    + exists top, rest. split; [reflexivity | apply String.eqb_neq, En].
  - apply in_app_or in Hs. destruct Hs as [Hs | Hs].
    + unfold generateContextBasedScenarios in Hs. rewrite Er in Hs.
      apply in_app_or in Hs. destruct Hs as [Hs | Hs];
        [|apply in_app_or in Hs; destruct Hs as [Hs | Hs]].
      * destruct (budget constraints); try destruct Hs;
          eapply Hbest; try exact Hs; apply Hcrit.
      * destruct (timeline constraints); try destruct Hs;
          eapply Hbest; try exact Hs; apply Hcrit.
      * destruct (skillLevel (team constraints)); try destruct Hs;
          eapply Hbest; try exact Hs; apply Hcrit.
    + unfold generateScaleBasedScenarios in Es. rewrite Er in Es.
      destruct (findBestOptionForEnterprise result) as [best|msg] eqn:Ee;
        [|discriminate].
      injection Es as <-. apply in_app_or in Hs. destruct Hs as [Hs | Hs].
      * destruct (JS.leb _ _); [|destruct Hs].
        eapply Hbest; try exact Hs. apply Hcrit.
      * eapply Hbest; try exact Hs. intros o ->.
        unfold findBestOptionForEnterprise in Ee.
        apply findBestEnterpriseFrom_In in Ee.
        destruct Ee as [Ee | Ee]; [discriminate | exact Ee].
Qed.

Lemma alternative_scenarios_recommend_another_option_witness :
  exists scenarios,
    generateAlternativeScenarios costLeader defaultConstraints = Ok scenarios
    /\ (List.length scenarios <= 4)%nat.
Proof.
  destruct (generateAlternativeScenarios costLeader defaultConstraints)
    as [scenarios|msg] eqn:E.
  - exists scenarios. split; [reflexivity|].
    apply (alternative_scenarios_recommend_another_option costLeader
             defaultConstraints scenarios E).
  - vm_compute in E. discriminate.
Defined.

(** X26: [generateAlternativeScenarios] throws exactly when at least two
    options are ranked and the option of some score record has no
    metadata object (the enterprise scenario reads a field of it); since
    [evaluate] leaves a known technology without metadata as it is, the
    result of an evaluation that includes such an option makes the call
    throw. *)
Theorem alternative_scenarios_need_metadata
    (result : EvaluationResult) (constraints : UserConstraints) :
  ((exists msg, generateAlternativeScenarios result constraints = Throw msg)
   <-> ((2 <= List.length (rankings result))%nat
        /\ exists s, In s (scores result) /\ metadata (option_ s) = None))
  /\ forall options evaluationConstraints o,
       ComparisonEngine.evaluate options evaluationConstraints = Ok result ->
       In o options -> KnowledgeBase.isKnownTechnology o = true ->
       metadata o = None ->
       exists msg, generateAlternativeScenarios result constraints = Throw msg.
Proof.
  assert (Hiff : (exists msg, generateAlternativeScenarios result constraints = Throw msg)
                 <-> ((2 <= List.length (rankings result))%nat
                      /\ exists s, In s (scores result) /\ metadata (option_ s) = None)).
  { unfold generateAlternativeScenarios, generateScaleBasedScenarios,
      findBestOptionForEnterprise.
    destruct (rankings result) as [|top rest] eqn:Er.
    { split; [intros (msg & H); discriminate | cbn; intros [H _]; lia]. }
    destruct (List.length (top :: rest) <? 2)%nat eqn:El.
    { apply Nat.ltb_lt in El.
      split; [intros (msg & H); discriminate | intros [H _]; lia]. }
    apply Nat.ltb_ge in El.
    rewrite <- (findBestEnterpriseFrom_throws (scores result) (None, - (1))).
    destruct (findBestEnterpriseFrom (scores result) (None, - (1))) as [best|msg].
    - split; [intros (m & H); discriminate | intros [_ (m & H)]; discriminate].
    - split; [intros _; split; [exact El | eexists; reflexivity]
             | intros _; eexists; reflexivity]. }
  split; [exact Hiff|].
  intros options evaluationConstraints o He Ho Hk Hm. apply Hiff.
  assert (Hv : isValid (ComparisonEngine.validateTechnicalOptions options) = true).
  { unfold ComparisonEngine.evaluate in He.
    destruct (isValid (ComparisonEngine.validateTechnicalOptions options));
      [reflexivity | discriminate]. }
  destruct (evaluate_returns options evaluationConstraints Hv)
    as (r & Hr & Hopts & Hrank & _).
  rewrite He in Hr. injection Hr as <-.
  assert (Hcount : (2 <= List.length options)%nat).
  { destruct (isValid (ComparisonEngine.validateOptionCount options)) eqn:Ec.
    - apply count_valid in Ec. lia.
    - rewrite (count_invalid options Ec) in Hv. discriminate. }
  assert (Hlen : List.length (scores result) = List.length options).
  { rewrite <- (length_map option_), Hopts. unfold ComparisonEngine.processOptions.
    apply length_map. }
  split.
  - rewrite Hrank. destruct (ranks_are_positions (scores result)) as [_ ->]. lia.
  - assert (Hin : In (ComparisonEngine.processOption o) (map option_ (scores result))).
    { rewrite Hopts. apply in_map, Ho. }
    apply in_map_iff in Hin. destruct Hin as (s & Hs & Hin).
    exists s. split; [exact Hin|]. rewrite Hs.
    unfold ComparisonEngine.processOption. rewrite Hk. exact Hm.
Qed.

Lemma alternative_scenarios_need_metadata_witness :
  exists result,
    ComparisonEngine.evaluate [awsLower; gcp] defaultConstraints = Ok result
    /\ exists msg, generateAlternativeScenarios result defaultConstraints = Throw msg.
Proof.
  destruct (ComparisonEngine.evaluate [awsLower; gcp] defaultConstraints)
    as [result|msg] eqn:E.
  - exists result. split; [reflexivity|].
    destruct (alternative_scenarios_need_metadata result defaultConstraints) as [_ H].
    apply (H [awsLower; gcp] defaultConstraints awsLower E);
      [left; reflexivity | reflexivity | reflexivity].
  - vm_compute in E. discriminate.
Defined.

End Scenarios.

(** ** Constraints: validation, updates and their effect on the evaluation *)

Section MoreConstraints.
Import ComparisonEngine.

Lemma experienceErrors_nil (experience : list string) (i : nat) :
  ConstraintCollector.experienceErrors experience i = []
  <-> Forall (fun tech => JS.trim_is_empty tech = false) experience.
Proof.
  revert i. induction experience as [|t l IH]; intro i;
    cbn [ConstraintCollector.experienceErrors].
  - split; [intros _; apply Forall_nil | reflexivity].
  - destruct (JS.trim_is_empty t) eqn:E; cbn [app].
    + split; [discriminate|]. intro H. inversion H. congruence.
    + rewrite IH. split.
      * intro H. apply Forall_cons; [exact E | exact H].
      * intro H. inversion H. assumption.
Qed.

Lemma priorityErrors_nil (p : Priorities) :
  ConstraintCollector.priorityErrors p = [] <-> Spec.inRange15 p.
Proof.
  unfold ConstraintCollector.priorityErrors, Spec.inRange15.
  cbn [flat_map fst snd].
  assert (Hin : forall (k : string) (v : Q) (rest : list ValidationError),
             ((if JS.ltb v 1 || JS.ltb 5 v
               then [ {| field := "priorities." ++ k;
                         message := k ++ " priority must be between 1 and 5";
                         code := "PRIORITY_OUT_OF_RANGE" |} ]
               else []) ++ rest)%list = []
             <-> (1 <= v <= 5 /\ rest = [])).
  { intros k v rest.
    destruct (JS.ltb v 1) eqn:E1; [|destruct (JS.ltb 5 v) eqn:E2];
      cbn [orb app]; try apply ltb_spec in E1; try apply ltb_false in E1;
      try apply ltb_spec in E2; try apply ltb_false in E2.
    - split; [discriminate | intros [[H _] _]; lra].
    - split; [discriminate | intros [[_ H] _]; lra].
    - split; [intro H; split; [split; assumption | exact H] | intros [_ H]; exact H]. }
  rewrite !Hin.
  split.
  - intros (H1 & H2 & H3 & H4 & H5 & _). tauto.
  - intros (H1 & H2 & H3 & H4 & H5).
    split; [exact H1|]. split; [exact H2|]. split; [exact H3|].
    split; [exact H4|]. split; [exact H5 | reflexivity].
Qed.

(** X27: on typed constraints [validateConstraints] accepts exactly the
    constraints whose user count is not negative, whose experience
    entries all hold a character that is not white space, and whose five
    priorities lie between 1 and 5. *)
Theorem validateConstraints_accepts_iff (constraints : UserConstraints) :
  isValid (ConstraintCollector.validateConstraints constraints) = true
  <-> (0 <= users (scale constraints)
       /\ Forall (fun tech => JS.trim_is_empty tech = false)
                 (experience (team constraints))
       /\ Spec.inRange15 (priorities constraints)).
Proof.
  unfold ConstraintCollector.validateConstraints, ConstraintCollector.validateBudget,
    ConstraintCollector.validateScale, ConstraintCollector.validateTeam,
    ConstraintCollector.validateTimeline, ConstraintCollector.validatePriorities,
    ConstraintCollector.result.
  cbn [errors isValid app].
  rewrite <- experienceErrors_nil with (i := 0%nat).
  rewrite <- priorityErrors_nil.
  destruct (JS.ltb (users (scale constraints)) 0) eqn:E.
  - apply ltb_spec in E. cbn [app].
    split; [discriminate | intros [H _]; lra].
  - apply ltb_false in E. cbn [app].
    destruct (ConstraintCollector.experienceErrors _ 0) as [|e1 l1]; cbn [app].
    + destruct (ConstraintCollector.priorityErrors _) as [|e2 l2].
      * tauto.
      * split; [discriminate | intros (_ & _ & H); discriminate].
    + split; [discriminate | intros (_ & H & _); discriminate].
Qed.

Lemma validateConstraints_accepts_iff_witness :
  isValid (ConstraintCollector.validateConstraints costFocused) = true.
Proof.
  apply (validateConstraints_accepts_iff costFocused).
  split; [discriminate|]. split; [apply Forall_nil|].
  unfold Spec.inRange15. cbn. repeat split; discriminate.
Defined.

(** *** Merging an update *)

Lemma mergeConstraints_unchanged (c : UserConstraints)
    (u : ConstraintUpdateManager.UserConstraintUpdates) :
  ConstraintUpdateManager.getModifiedFields u = [] ->
  ConstraintUpdateManager.mergeConstraints c u = c.
Proof.
  destruct c as [b [us tr] [sk ex] tl [p1 p2 p3 p4 p5]].
  destruct u as [ub usc ut utl up].
  unfold ConstraintUpdateManager.getModifiedFields,
    ConstraintUpdateManager.mergeConstraints, ConstraintUpdateManager.named,
    ConstraintUpdateManager.spread.
  cbn [ConstraintUpdateManager.upd_budget ConstraintUpdateManager.upd_scale
       ConstraintUpdateManager.upd_team ConstraintUpdateManager.upd_timeline
       ConstraintUpdateManager.upd_priorities budget scale team timeline priorities
       users traffic skillLevel experience cost performance easeOfUse scalability
       vendorLockIn].
  destruct ub; [discriminate|]. destruct utl; [discriminate|].
  destruct usc as [[u1 u2]|];
    [destruct u1; [discriminate|]; destruct u2; [discriminate|]|];
  (destruct ut as [[t1 t2]|];
     [destruct t1; [discriminate|]; destruct t2; [discriminate|]|]);
  (destruct up as [[q1 q2 q3 q4 q5]|];
     [destruct q1; [discriminate|]; destruct q2; [discriminate|];
      destruct q3; [discriminate|]; destruct q4; [discriminate|];
      destruct q5; [discriminate|]|]);
  reflexivity.
Qed.

Lemma spread_again {A} (x : A) (u : option A) :
  ConstraintUpdateManager.spread (ConstraintUpdateManager.spread x u) u
  = ConstraintUpdateManager.spread x u.
Proof. destruct u; reflexivity. Qed.

Lemma mergeConstraints_undo (c : UserConstraints)
    (u : ConstraintUpdateManager.UserConstraintUpdates) :
  ConstraintUpdateManager.mergeConstraints
    (ConstraintUpdateManager.mergeConstraints c u)
    (ConstraintUpdateManager.extractPreviousValues c
       (ConstraintUpdateManager.getModifiedFields u))
  = c.
Proof.
  destruct c as [b [us tr] [sk ex] tl [p1 p2 p3 p4 p5]].
  destruct u as [ub usc ut utl up].
  destruct ub, utl, usc as [[[?|] [?|]]|], ut as [[[?|] [?|]]|],
           up as [[[?|] [?|] [?|] [?|] [?|]]|]; reflexivity.
Qed.

(** X28: the previous values that the update manager records for an
    update undo it: merging them into the merged constraints gives the
    constraints back, whatever fields the update names.  An update that
    names no field changes nothing, and merging the same update twice is
    merging it once. *)
Theorem mergeConstraints_laws (current : UserConstraints)
    (updates : ConstraintUpdateManager.UserConstraintUpdates) :
  let merged := ConstraintUpdateManager.mergeConstraints current updates in
  let previousValues :=
    ConstraintUpdateManager.extractPreviousValues current
      (ConstraintUpdateManager.getModifiedFields updates) in
  ConstraintUpdateManager.mergeConstraints merged previousValues = current
  /\ (ConstraintUpdateManager.getModifiedFields updates = [] -> merged = current)
  /\ ConstraintUpdateManager.mergeConstraints merged updates = merged.
Proof.
  intros merged previousValues. subst merged previousValues.
  split; [apply mergeConstraints_undo|].
  split; [apply mergeConstraints_unchanged|].
  unfold ConstraintUpdateManager.mergeConstraints.
  cbn [budget scale team timeline priorities].
  rewrite !spread_again.
  destruct (ConstraintUpdateManager.upd_scale updates) as [s|],
           (ConstraintUpdateManager.upd_team updates) as [t|],
           (ConstraintUpdateManager.upd_priorities updates) as [p|];
    cbn [users traffic skillLevel experience cost performance easeOfUse
         scalability vendorLockIn];
    rewrite ?spread_again; reflexivity.
Qed.

Lemma mergeConstraints_laws_witness :
  ConstraintUpdateManager.mergeConstraints
    (ConstraintUpdateManager.mergeConstraints defaultConstraints costFirst)
    (ConstraintUpdateManager.extractPreviousValues defaultConstraints
       (ConstraintUpdateManager.getModifiedFields costFirst))
  = defaultConstraints.
Proof.
  apply (mergeConstraints_laws defaultConstraints costFirst).
Defined.

(** *** Re-evaluation after an update of the priorities *)

Lemma calculateContextualAdjustments_context (o : TechnicalOption)
    (c c' : UserConstraints) :
  budget c = budget c' -> scale c = scale c' -> team c = team c' ->
  timeline c = timeline c' ->
  calculateContextualAdjustments o c = calculateContextualAdjustments o c'.
Proof.
  intros Hb Hs Ht Hl. unfold calculateContextualAdjustments.
  rewrite Hb, Hs, Ht, Hl. reflexivity.
Qed.

(** X29: an update that names priorities only re-weighs and does not
    re-score: when [evaluate] returns a result under the current
    constraints, it returns one under the merged constraints too, with the
    same options and the same criterion scores in the same order; only
    the weighted scores, the ranking and the trade-offs can move. *)
Theorem priorities_update_keeps_criterion_scores
    (options : list TechnicalOption) (current : UserConstraints)
    (updates : ConstraintUpdateManager.UserConstraintUpdates)
    (result : EvaluationResult) :
  Spec.onlyPriorities updates ->
  evaluate options current = Ok result ->
  exists result',
    evaluate options (ConstraintUpdateManager.mergeConstraints current updates)
    = Ok result'
    /\ map option_ (scores result') = map option_ (scores result)
    /\ map criteriaScores (scores result') = map criteriaScores (scores result).
Proof.
  intros (Hb & Hs & Ht & Hl) He. unfold evaluate in *.
  destruct (negb (isValid (validateTechnicalOptions options))); [discriminate|].
  injection He as <-. eexists. split; [reflexivity|].
  cbn [scores]. unfold applyContextualAdjustments, calculateScores, processOptions.
  rewrite !map_map. cbn [option_ criteriaScores]. split; [reflexivity|].
  apply map_ext. intro o. f_equal.
  apply calculateContextualAdjustments_context;
    unfold ConstraintUpdateManager.mergeConstraints;
    cbn [budget scale team timeline]; rewrite ?Hb, ?Hs, ?Ht, ?Hl; reflexivity.
Qed.

Lemma priorities_update_keeps_criterion_scores_witness :
  exists result result',
    evaluate [aws; gcp] defaultConstraints = Ok result
    /\ evaluate [aws; gcp]
         (ConstraintUpdateManager.mergeConstraints defaultConstraints costFirst)
       = Ok result'
    /\ map criteriaScores (scores result') = map criteriaScores (scores result).
Proof.
  destruct (evaluate [aws; gcp] defaultConstraints) as [result|msg] eqn:E.
  - destruct (priorities_update_keeps_criterion_scores
                [aws; gcp] defaultConstraints costFirst result)
      as (result' & H1 & _ & H2).
    + unfold Spec.onlyPriorities. repeat split; reflexivity.
    + exact E.
    + exists result, result'. split; [reflexivity|]. split; assumption.
  - vm_compute in E. discriminate.
Defined.

End MoreConstraints.

(** ** The expectations of the repository's tests *)

Section Tests.
Import ComparisonEngine.

(** 'should apply priority emphasis correctly': the cost-focused
    constraints prefer DigitalOcean, the performance-focused ones AWS. *)
Example priority_emphasis_test :
  rankedNames (evaluate [awsReserved; digitalOcean] costFocused)
  = ["DigitalOcean"; "AWS"]
  /\ rankedNames (evaluate [awsReserved; digitalOcean] performanceFocused)
     = ["AWS"; "DigitalOcean"].
Proof. split; vm_compute; reflexivity. Qed.

(** 'should reject duplicate options' and 'should throw error for invalid
    options'. *)
Example invalid_options_test :
  map code (errors (validateTechnicalOptions [aws; aws])) = ["OPTION_DUPLICATE"]
  /\ evaluate [aws] defaultConstraints
     = Throw "Invalid options: At least 2 options are required for comparison".
Proof. split; reflexivity. Qed.

(** The sample technology AWS: base scores and rule bonuses. *)
Example aws_scores :
  KnowledgeBase.getComprehensiveEvaluation aws
  = [ (COST, 83); (PERFORMANCE, 85); (SCALABILITY, 80); (LEARNING_CURVE, 70);
      (VENDOR_LOCK_IN, 50); (MAINTAINABILITY, 99) ].
Proof. vm_compute. reflexivity. Qed.

End Tests.

(** * Free-form values *)

(** ** The validation of what a caller passes *)

Section FreeFormValidation.
Import ComparisonEngine.










End FreeFormValidation.

(** ** The fallback metadata under free-form metadata *)

Section FreeFormMetadata.
Variables cloud database : Untyped.DomainKnowledge.

Lemma prop_spread_defined (own target : list (string * Untyped.Value)) (k : string) :
  Forall (fun kv => Untyped.typeof (snd kv) <> "undefined") own ->
  Untyped.isUndefined (Untyped.prop target k) = false ->
  Untyped.isUndefined (Untyped.prop (Untyped.spread target own) k) = false.
Proof.
  intro Hown. revert target. unfold Untyped.spread.
  induction Hown as [|[k' v'] own Hv _ IH]; intros target Ht; [exact Ht|].
  cbn [fold_left fst snd]. apply IH.
  unfold Untyped.prop. rewrite get_set.
  destruct (String.eqb k k').
  - unfold Untyped.isUndefined. apply String.eqb_neq. exact Hv.
  - exact Ht.
Qed.

Lemma missingFields_nil (m : list (string * Untyped.Value)) (required : list string) :
  Forall (fun field => Untyped.isUndefined (Untyped.prop m field) = false) required ->
  Untyped.missingFields m required = [].
Proof.
  intro H. unfold Untyped.missingFields.
  induction H as [|f required Hf _ IH]; [reflexivity|].
  cbn [filter]. rewrite Hf. exact IH.
Qed.

Lemma notNumeric_not_missing (m : list (string * Untyped.Value))
    (fields : list string) (issue : string) :
  In issue (Untyped.notNumeric m fields) ->
  String.prefix "Missing required field: " issue = false.
Proof.
  unfold Untyped.notNumeric. intro H. apply in_map_iff in H.
  destruct H as (f & <- & _). reflexivity.
Qed.

Lemma unknown_technology_metadata (o : Untyped.TechnicalOption) :
  Untyped.isKnownTechnology cloud database o = false ->
  Untyped.processOption cloud database o
  = {| Untyped.name := Untyped.name o; Untyped.category := Untyped.category o;
       Untyped.metadata :=
         Some (Untyped.spread
                 (Untyped.spread [] (Untyped.getFallbackMetadata (Untyped.category o)))
                 (match Untyped.metadata o with Some m => m | None => [] end)) |}.
Proof.
  intro E. unfold Untyped.processOption, Untyped.getTechnologyMetadata.
  rewrite E. reflexivity.
Qed.

(** X7: after [processOption], an option that is not a known technology
    never lacks a metadata field that its category requires: without
    metadata of its own, its metadata passes [validateOptionMetadata];
    with free-form metadata of its own, none of whose fields holds
    [undefined], no issue that is reported is a missing required field (a
    field that is not a number, or a value outside of an enumeration, is
    still reported). *)
Theorem fallback_fills_required_fields (o : Untyped.TechnicalOption) :
  Untyped.isKnownTechnology cloud database o = false ->
  (Untyped.metadata o = None ->
   Untyped.validateOptionMetadata (Untyped.processOption cloud database o) = [])
  /\ (forall own, Untyped.metadata o = Some own ->
        Forall (fun kv => Untyped.typeof (snd kv) <> "undefined") own ->
        forall issue,
          In issue (Untyped.validateOptionMetadata (Untyped.processOption cloud database o)) ->
          String.prefix "Missing required field: " issue = false).
Proof.
  intro E. rewrite (unknown_technology_metadata o E).
  unfold Untyped.validateOptionMetadata, Untyped.getFallbackMetadata.
  cbn [Untyped.metadata Untyped.category].
  destruct (String.eqb (Untyped.category o) "cloud") eqn:Ec;
    [|destruct (String.eqb (Untyped.category o) "backend") eqn:Eb;
      [|destruct (String.eqb (Untyped.category o) "database") eqn:Ed]].
  - split.
    + intro Hm. rewrite Hm. reflexivity.
    + intros own Hm Hown issue. rewrite Hm.
      unfold Untyped.validateCloudProviderMetadata.
      rewrite missingFields_nil.
      * cbn [app]. intro H. apply in_app_or in H.
        destruct H as [H|H]; apply In_if_last in H; subst issue; reflexivity.
      * repeat apply Forall_cons; try apply Forall_nil;
          apply (prop_spread_defined own _ _ Hown); reflexivity.
  - split.
    + intro Hm. rewrite Hm. reflexivity.
    + intros own Hm Hown issue. rewrite Hm.
      unfold Untyped.validateBackendFrameworkMetadata.
      rewrite missingFields_nil.
      * cbn [app]. apply notNumeric_not_missing.
      * repeat apply Forall_cons; try apply Forall_nil;
          apply (prop_spread_defined own _ _ Hown); reflexivity.
  - split.
    + intro Hm. rewrite Hm. reflexivity.
    + intros own Hm Hown issue. rewrite Hm.
      unfold Untyped.validateDatabaseMetadata.
      rewrite missingFields_nil.
      * cbn [app]. intro H. apply in_app_or in H.
        destruct H as [H|H]; apply In_if_last in H; subst issue; reflexivity.
      * repeat apply Forall_cons; try apply Forall_nil;
          apply (prop_spread_defined own _ _ Hown); reflexivity.
  - split; [reflexivity | intros own _ _ issue []].
Qed.

End FreeFormMetadata.

Lemma fallback_fills_required_fields_witness :
  Untyped.isKnownTechnology Untyped.createBackendFrameworkKnowledge
    Untyped.createBackendFrameworkKnowledge phoenixFast = false
  /\ forall issue,
       In issue (Untyped.validateOptionMetadata
                   (Untyped.processOption Untyped.createBackendFrameworkKnowledge
                      Untyped.createBackendFrameworkKnowledge phoenixFast)) ->
       String.prefix "Missing required field: " issue = false.
Proof.
  split; [reflexivity|].
  destruct (fallback_fills_required_fields Untyped.createBackendFrameworkKnowledge
              Untyped.createBackendFrameworkKnowledge phoenixFast eq_refl) as [_ H].
  apply (H [ ("performanceRating", Untyped.word "fast") ] eq_refl).
  repeat constructor. discriminate.
Defined.

Example non_numeric_field_reported (cloud database : Untyped.DomainKnowledge) :
  Untyped.validateOptionMetadata (Untyped.processOption cloud database phoenixFast)
  = ["Field performanceRating must be numeric"].
Proof. reflexivity. Qed.

(** ** The complete result of [evaluate] *)

Section CompleteResult.
Import ComparisonEngine.




End CompleteResult.

(** ** Fatal errors and warnings (C9) *)

Section FatalAndSoft.
Import ComparisonEngine.



Example nameless_messages :
  Untyped.validated [nameless; djangoInput]
  = Throw "Invalid options: Option name is required and must be a string"
  /\ Untyped.validated [numbered; djangoInput]
     = Throw "option.name.toLowerCase is not a function"
  /\ Untyped.validated [Untyped.Null; djangoInput]
     = Throw "Cannot read properties of null (reading 'category')".
Proof. repeat split. Qed.

End FatalAndSoft.

(** ** A metadata field that is not a number (C5) *)

Section NotANumber.
Variables cloud database : Untyped.DomainKnowledge.

Lemma clamp_NaN (d : Q) :
  Untyped.clamp (Untyped.add Untyped.NaN (Untyped.Fin d)) = Untyped.NaN
  /\ Untyped.round Untyped.NaN = Untyped.NaN
  /\ ~ Untyped.inBounds Untyped.NaN.
Proof. repeat split. intros []. Qed.

(** C5 fails on a metadata field that is not a number.  The backend
    framework
    [{ name: 'Phoenix', category: 'backend', metadata: { performanceRating: 'fast' } }],
    compared with Django under the constraints [performanceFocused],
    passes the validation, which only warns that the field must be
    numeric.  [scoreBackendPerformance] then computes
    [Math.min(100, Math.max(0, 30 + 'fast' * 7))], which is NaN; the
    clamps of [applyScoreAdjustments] and of [applyContextualAdjustments]
    keep NaN, and the weighted score and [normalizedScore] are NaN as
    well: neither the performance score nor the normalized score of the
    option is within [0,100].  [scoreBackendPerformance] returns NaN for
    every option whose [performanceRating] is truthy and is taken for NaN
    by the multiplication. *)
Theorem C5_non_numeric_metadata_yields_NaN :
  let processed := Untyped.processOption cloud database phoenixFast in
  let base := Untyped.calculateOptionScore cloud database processed performanceFocused in
  let adjusted := Untyped.applyContextualAdjustments [base] performanceFocused in
  (forall o data,
     Untyped.metadata o = Some data ->
     Untyped.toBoolean (Untyped.prop data "performanceRating") = true ->
     Untyped.toNumber (Untyped.prop data "performanceRating") = Untyped.NaN ->
     Untyped.scoreBackendPerformance o = Untyped.NaN)
  /\ Untyped.validated [phoenixFastInput; djangoInput] = Ok [phoenixFast; djangoPlain]
  /\ (exists r, Untyped.validateTechnicalOptions [phoenixFastInput; djangoInput] = Ok r
                /\ In "Option Phoenix metadata issue: Field performanceRating must be numeric"
                      (warnings r))
  /\ Untyped.scoreBackendPerformance processed = Untyped.NaN
  /\ Obj.get (Untyped.evaluateOption cloud database processed) PERFORMANCE
     = Some Untyped.NaN
  /\ Obj.get (Untyped.criteriaScores base) PERFORMANCE = Some Untyped.NaN
  /\ Untyped.normalizedScore base = Untyped.NaN
  /\ Forall (fun s => Obj.get (Untyped.criteriaScores s) PERFORMANCE = Some Untyped.NaN
                      /\ Untyped.normalizedScore s = Untyped.NaN
                      /\ ~ Forall (fun kv => Untyped.inBounds (snd kv))
                                  (Untyped.criteriaScores s)
                      /\ ~ Untyped.inBounds (Untyped.normalizedScore s))
            adjusted.
Proof.
  cbv zeta. split.
  { intros o data Hm Ht Hn. unfold Untyped.scoreBackendPerformance, Untyped.withData.
    rewrite Hm. cbv zeta. rewrite Ht, Hn. reflexivity. }
  split; [reflexivity|]. split.
  - eexists. split; [reflexivity|]. cbn. tauto.
  - split; [reflexivity|]. split; [reflexivity|]. split; [reflexivity|].
    split; [reflexivity|].
    constructor; [|constructor].
    split; [reflexivity|]. split; [reflexivity|]. split.
    + intro H. rewrite Forall_forall in H.
      apply (H (PERFORMANCE, Untyped.NaN)).
      vm_compute. tauto.
    + intro H. exact H.
Qed.

End NotANumber.
